(** * Corvid: the test-instance lifecycle scripts

    A shallow embedding of [miscellaneous/create-new-test-instance.py] and
    [miscellaneous/destroy-test-instance.py]: the inventory manager of each
    script, the command runner and the two pipelines, with the properties
    the design document states about them.

    Conventions of the embedding.
    - A Python [str] is a [string]; a character stands for its code point,
      so the texts covered are those over U+0000..U+00FF.  The character
      classes below are the ones CPython uses on that range.
    - A text file is the [str] that [read_text] returns and [write_text]
      takes.  A YAML file is the document [yaml.safe_load] returns for it;
      [yaml.safe_dump] writes a document that loads back unchanged.
    - Python code runs in a state-and-exception monad over a [world]: the
      process environment, the working copy of the configuration
      repository with its git state, and the record of every external
      process that was spawned.  What the outside answers (exit statuses,
      which paths exist) is part of the world, so a statement over every
      world covers every behaviour of the outside.
    - Console output on stdout (headers, spinners, timing lines) is not
      tracked; messages on stderr are. *)

From Stdlib Require Import ZArith NArith Ascii String List Bool Lia.
From stdpp Require Import base strings gmap list.

Set Warnings "-register-all".
Set Implicit Arguments.
Open Scope string_scope.
Open Scope Z_scope.

(* ===================================================================== *)
(** ** Python text operations *)

Module PyStr.

Definition LF : ascii := Ascii.ascii_of_N 10.
Definition CR : ascii := Ascii.ascii_of_N 13.
Definition SP : ascii := Ascii.ascii_of_N 32.

(** The one-character string ["\n"]. *)
Definition nl : string := String LF "".

Definition code (c : ascii) : N := Ascii.N_of_ascii c.

Definition between (lo hi n : N) : bool := ((lo <=? n) && (n <=? hi))%N.

(** [str.isspace] on one character: TAB..CR, FS..US, space, NEL, NBSP. *)
Definition isspace (c : ascii) : bool :=
  let n := code c in
  between 9 13 n || between 28 32 n || (n =? 133)%N || (n =? 160)%N.

(** The line boundaries of [str.splitlines]. *)
Definition is_linebreak (c : ascii) : bool :=
  let n := code c in
  between 10 13 n || between 28 30 n || (n =? 133)%N.

(** [str.isalnum] on one character. *)
Definition isalnum_char (c : ascii) : bool :=
  let n := code c in
  between 48 57 n || between 65 90 n || between 97 122 n
  || (n =? 170)%N || between 178 179 n || (n =? 181)%N
  || between 185 186 n || between 188 190 n
  || between 192 214 n || between 216 246 n || between 248 255 n.

(** [s.isalnum()]: at least one character and all of them alphanumeric. *)
Fixpoint all_alnum (s : string) : bool :=
  match s with
  | EmptyString => true
  | String c s' => isalnum_char c && all_alnum s'
  end.

Definition isalnum (s : string) : bool :=
  match s with
  | EmptyString => false
  | _ => all_alnum s
  end.

(** [s.replace(old, new)] for a one-character [old]. *)
Fixpoint replace (old : ascii) (new : string) (s : string) : string :=
  match s with
  | EmptyString => EmptyString
  | String c s' =>
      if Ascii.eqb c old then new ++ replace old new s'
      else String c (replace old new s')
  end.

(** [s.lstrip()], [s.rstrip()], [s.strip()]. *)
Fixpoint lstrip (s : string) : string :=
  match s with
  | EmptyString => EmptyString
  | String c s' => if isspace c then lstrip s' else s
  end.

Fixpoint rstrip (s : string) : string :=
  match s with
  | EmptyString => EmptyString
  | String c s' =>
      match rstrip s' with
      | EmptyString => if isspace c then EmptyString else String c EmptyString
      | r => String c r
      end
  end.

Definition strip (s : string) : string := rstrip (lstrip s).

Definition len (s : string) : nat := String.length s.

(** [' ' * n]. *)
Fixpoint spaces (n : nat) : string :=
  match n with
  | O => EmptyString
  | S n' => String SP (spaces n')
  end.

(** [sub in s]: [sub] occurs in [s] as a contiguous substring. *)
Fixpoint contains (sub s : string) : bool :=
  String.prefix sub s ||
  match s with
  | EmptyString => false
  | String _ s' => contains sub s'
  end.

(** [s.splitlines(keepends=True)]: a line ends after a boundary
    character, CR LF counts as one boundary, and a last line without
    boundary is kept when it is not empty. *)
Fixpoint splitlines_keepends (s : string) : list string :=
  match s with
  | EmptyString => []
  | String c rest =>
      if Ascii.eqb c CR then
        match rest with
        | String c2 rest' =>
            if Ascii.eqb c2 LF
            then String c (String c2 EmptyString) :: splitlines_keepends rest'
            else String c EmptyString :: splitlines_keepends rest
        | EmptyString => [String c EmptyString]
        end
      else if is_linebreak c then String c EmptyString :: splitlines_keepends rest
      else
        match splitlines_keepends rest with
        | [] => [String c EmptyString]
        | l :: ls => String c l :: ls
        end
  end.

(** [''.join(parts)]. *)
Definition join (parts : list string) : string := String.concat "" parts.

(** [sep.join(parts)]. *)
Definition join_with (sep : string) (parts : list string) : string :=
  String.concat sep parts.

(** [s.split(sep)] for a one-character separator. *)
Fixpoint split (sep : ascii) (s : string) : list string :=
  match s with
  | EmptyString => [EmptyString]
  | String c s' =>
      if Ascii.eqb c sep then EmptyString :: split sep s'
      else
        match split sep s' with
        | [] => [String c EmptyString]
        | p :: ps => String c p :: ps
        end
  end.

End PyStr.

(* ===================================================================== *)
(** ** [pathlib] paths (POSIX flavour) *)

Module PyPath.

Definition SLASH : ascii := Ascii.ascii_of_N 47.

(** A path is its anchor (empty, one slash or two slashes) and its
    components; empty components and [.] are dropped when a string is
    parsed, [..] is kept. *)
Record path := mkPath { anchor : string; parts : list string }.

#[global] Instance path_eq_dec : EqDecision path.
Proof. solve_decision. Defined.

Fixpoint leading_slashes (s : string) : nat :=
  match s with
  | String c s' => if Ascii.eqb c SLASH then S (leading_slashes s') else O
  | EmptyString => O
  end.

Definition parse_anchor (s : string) : string :=
  match leading_slashes s with
  | O => ""
  | 2%nat => "//"
  | _ => "/"
  end.

Definition keep_part (p : string) : bool :=
  negb (String.eqb p "") && negb (String.eqb p ".").

(** [Path(s)]. *)
Definition Path (s : string) : path :=
  {| anchor := parse_anchor s;
     parts := List.filter keep_part (PyStr.split SLASH s) |}.

(** [p / s]: an anchored right operand replaces the left one. *)
Definition joinpath (p : path) (s : string) : path :=
  let q := Path s in
  if String.eqb (anchor q) "" then
    {| anchor := anchor p; parts := parts p ++ parts q |}
  else q.

(** [str(p)]. *)
Definition str (p : path) : string :=
  match anchor p, parts p with
  | EmptyString, [] => "."
  | a, ps => a ++ PyStr.join_with "/" ps
  end.

End PyPath.

Notation "p // s" := (PyPath.joinpath p s) (at level 40, left associativity).

(** No character of the text is a slash. *)
Definition no_slash (s : string) : Prop :=
  Forall (fun c => c <> PyPath.SLASH) (list_ascii_of_string s).

(* ===================================================================== *)
(** ** YAML documents and the Python operations the scripts apply to them *)

Inductive yaml :=
  | YNull
  | YBool (b : bool)
  | YInt (z : Z)
  | YStr (s : string)
  | YSeq (l : list yaml)
  | YMap (m : gmap string yaml).

Fixpoint yaml_eq_dec (x y : yaml) {struct x} : Decision (x = y).
Proof.
  refine
    (match x, y with
     | YNull, YNull => left eq_refl
     | YBool a, YBool b => cast_if (decide (a = b))
     | YInt a, YInt b => cast_if (decide (a = b))
     | YStr a, YStr b => cast_if (decide (a = b))
     | YSeq a, YSeq b => cast_if (@list_eq_dec _ yaml_eq_dec a b)
     | YMap a, YMap b => cast_if (@gmap_eq_dec _ _ _ _ yaml_eq_dec a b)
     | _, _ => right _
     end); congruence.
Defined.

#[global] Instance yaml_eqdec : EqDecision yaml := yaml_eq_dec.

(** Python exceptions the scripts can meet, and how a computation ends:
    with a value, with an exception, or with [sys.exit(code)].
    [SystemExit] is kept apart because [except Exception] lets it pass. *)
Inductive exn :=
  | CalledProcessError (returncode : Z) (cmd : list string)
  | FileNotFoundError (name : string)
  | OSError
  | TypeError
  | KeyError (key : string).

Inductive outcome (A : Type) :=
  | Return (a : A)
  | Raise (e : exn)
  | SysExit (code : Z).

Arguments Return {A} a.
Arguments Raise {A} e.
Arguments SysExit {A} code.

Module PyYaml.

Definition is_str (s : string) (y : yaml) : bool :=
  match y with
  | YStr t => String.eqb t s
  | _ => false
  end.

(** [key in obj] for a [str] key: key lookup in a dict, element test in a
    list, substring test in a str; other objects are not containers. *)
Definition contains (key : string) (obj : yaml) : outcome bool :=
  match obj with
  | YMap m => Return (bool_decide (is_Some (m !! key)))
  | YSeq l => Return (existsb (is_str key) l)
  | YStr s => Return (PyStr.contains key s)
  | YNull | YBool _ | YInt _ => Raise TypeError
  end.

(** [obj[key]] for a [str] key. *)
Definition getitem (obj : yaml) (key : string) : outcome yaml :=
  match obj with
  | YMap m =>
      match m !! key with
      | Some v => Return v
      | None => Raise (KeyError key)
      end
  | _ => Raise TypeError
  end.

(** [obj[key] = v] for a [str] key: only a dict accepts it. *)
Definition setitem (obj : yaml) (key : string) (v : yaml) : outcome yaml :=
  match obj with
  | YMap m => Return (YMap (<[key := v]> m))
  | _ => Raise TypeError
  end.

End PyYaml.

(* ===================================================================== *)
(** ** The state-and-exception monad *)

Definition M (W A : Type) : Type := W -> outcome A * W.

Definition ret {W A} (a : A) : M W A := fun w => (Return a, w).
Definition raise {W A} (e : exn) : M W A := fun w => (Raise e, w).
Definition sys_exit {W A} (code : Z) : M W A := fun w => (SysExit code, w).

Definition bind {W A B} (m : M W A) (k : A -> M W B) : M W B :=
  fun w =>
    match m w with
    | (Return a, w') => k a w'
    | (Raise e, w') => (Raise e, w')
    | (SysExit c, w') => (SysExit c, w')
    end.

(** A pure Python operation that may raise. *)
Definition lift {W A} (o : outcome A) : M W A := fun w => (o, w).

(** [try: body  except Exception as e: handler(e)]. *)
Definition try_except {W A} (body : M W A) (handler : exn -> M W A) : M W A :=
  fun w =>
    match body w with
    | (Raise e, w') => handler e w'
    | r => r
    end.

Definition when {W} (b : bool) (m : M W unit) : M W unit :=
  if b then m else ret tt.

Declare Scope py_scope.
Delimit Scope py_scope with py.
Notation "x <- m ;; k" := (bind m (fun x => k))
  (at level 100, m at next level, right associativity) : py_scope.
Notation "m ;;; k" := (bind m (fun _ => k))
  (at level 100, right associativity) : py_scope.
Open Scope py_scope.

(* ===================================================================== *)
(** ** The world the scripts run in *)

(** One external process: what was run, where, whether the caller asked
    for failure checking, and the exit status it ended with. *)
Record invocation := mkInvocation {
  argv : list string;
  cwd : option string;
  checked : bool;
  returncode : Z
}.

(** What the outside decides and the scripts only read: the environment
    variables, the home directory and the directory of the script, the
    random run id, whether [play] is installed, the exit status forced on
    the n-th process of the run (0 lets the tool do its work), and the
    answer to the n-th question asked about a path outside the
    configuration repository. *)
Record outside := mkOutside {
  environ : gmap string string;
  home : string;
  script_dir : string;
  uuid4_hex : string;
  play_on_path : bool;
  faults : nat -> Z;
  probes : nat -> bool
}.

(** What [run] prints on stderr for a command that failed. *)
Definition complaint (cmd : list string) : string :=
  "[red]Command failed: " ++ PyStr.join_with " " cmd ++ "[/red]".

Section World.

(** [I] is what the host-list file holds: its text for the script that
    edits it as text, its document for the script that edits it with
    [yq]. *)
Variable I : Type.
Context `{EqDecision I}.

Record snapshot := mkSnapshot {
  snap_inventory : option I;
  snap_emails : option yaml
}.

#[global] Instance snapshot_eq_dec : EqDecision snapshot.
Proof. solve_decision. Defined.

(** The working copy of the configuration repository: where it is, its
    two files ([None]: no such file), what is staged, what the last
    commit holds, and the messages of the commits made, newest first. *)
Record cfg_repo := mkRepo {
  root : PyPath.path;
  inventory_yml : option I;
  emails_yml : option yaml;
  index : snapshot;
  head : snapshot;
  commits : list string
}.

Record world := mkWorld {
  out : outside;
  DEBUG_MODE : bool;
  probed : nat;
  cfg : cfg_repo;
  trace : list invocation;
  stderr : list string;
  prompts : nat
}.

(** The world a fresh process starts in. *)
Definition boot (o : outside) (c : cfg_repo) : world :=
  {| out := o; DEBUG_MODE := false; probed := 0; cfg := c;
     trace := []; stderr := []; prompts := 0 |}.

Definition set_cfg (c : cfg_repo) (w : world) : world :=
  {| out := out w; DEBUG_MODE := DEBUG_MODE w; probed := probed w; cfg := c;
     trace := trace w; stderr := stderr w; prompts := prompts w |}.

(** The world after a process was recorded and left the working copy
    [c]. *)
Definition logged (i : invocation) (c : cfg_repo) (w : world) : world :=
  {| out := out w; DEBUG_MODE := DEBUG_MODE w; probed := probed w; cfg := c;
     trace := trace w ++ [i]; stderr := stderr w; prompts := prompts w |}.

(** The world after a message on stderr. *)
Definition complained (msg : string) (w : world) : world :=
  {| out := out w; DEBUG_MODE := DEBUG_MODE w; probed := probed w; cfg := cfg w;
     trace := trace w; stderr := stderr w ++ [msg]; prompts := prompts w |}.

Definition set_inventory (t : option I) (c : cfg_repo) : cfg_repo :=
  {| root := root c; inventory_yml := t; emails_yml := emails_yml c;
     index := index c; head := head c; commits := commits c |}.

Definition set_emails (d : option yaml) (c : cfg_repo) : cfg_repo :=
  {| root := root c; inventory_yml := inventory_yml c; emails_yml := d;
     index := index c; head := head c; commits := commits c |}.

Definition working_files (c : cfg_repo) : snapshot :=
  {| snap_inventory := inventory_yml c; snap_emails := emails_yml c |}.

(** The working copy after [git add] of the two files, and after a
    commit of what is staged. *)
Definition staged (c : cfg_repo) : cfg_repo :=
  {| root := root c; inventory_yml := inventory_yml c;
     emails_yml := emails_yml c; index := working_files c;
     head := head c; commits := commits c |}.

Definition committed (msg : string) (c : cfg_repo) : cfg_repo :=
  {| root := root c; inventory_yml := inventory_yml c;
     emails_yml := emails_yml c; index := index c;
     head := index c; commits := msg :: commits c |}.

Definition inventory_path (c : cfg_repo) : PyPath.path := root c // "inventory.yml".
Definition emails_path (c : cfg_repo) : PyPath.path :=
  root c // "group_vars/all/emails.yml".

(** *** Reading and writing the two files *)

(** [p.read_text()] / [open(p)]: only the two files of the working copy
    are known to the model; any other name is a missing file. *)
Definition read_inventory (p : PyPath.path) : M world I :=
  fun w =>
    if decide (p = inventory_path (cfg w)) then
      match inventory_yml (cfg w) with
      | Some t => (Return t, w)
      | None => (Raise (FileNotFoundError (PyPath.str p)), w)
      end
    else (Raise (FileNotFoundError (PyPath.str p)), w).

Definition write_inventory (p : PyPath.path) (t : I) : M world unit :=
  fun w =>
    if decide (p = inventory_path (cfg w)) then
      (Return tt, set_cfg (set_inventory (Some t) (cfg w)) w)
    else (Raise (FileNotFoundError (PyPath.str p)), w).

(** [yaml.safe_load(open(p))]. *)
Definition safe_load (p : PyPath.path) : M world yaml :=
  fun w =>
    if decide (p = emails_path (cfg w)) then
      match emails_yml (cfg w) with
      | Some d => (Return d, w)
      | None => (Raise (FileNotFoundError (PyPath.str p)), w)
      end
    else (Raise (FileNotFoundError (PyPath.str p)), w).

(** [yaml.safe_dump(d, open(p, "w"))]. *)
Definition safe_dump (d : yaml) (p : PyPath.path) : M world unit :=
  fun w =>
    if decide (p = emails_path (cfg w)) then
      (Return tt, set_cfg (set_emails (Some d) (cfg w)) w)
    else (Raise (FileNotFoundError (PyPath.str p)), w).

(** [p.exists()] for one of the two files. *)
Definition file_exists (p : PyPath.path) : M world bool :=
  fun w =>
    if decide (p = inventory_path (cfg w)) then
      (Return (bool_decide (is_Some (inventory_yml (cfg w)))), w)
    else if decide (p = emails_path (cfg w)) then
      (Return (bool_decide (is_Some (emails_yml (cfg w)))), w)
    else (Return false, w).

(** A question about a path outside the working copy ([p.exists()],
    whether a file can be opened or a tree removed): the outside
    answers. *)
Definition probe : M world bool :=
  fun w =>
    (Return (probes (out w) (probed w)),
     {| out := out w; DEBUG_MODE := DEBUG_MODE w; probed := S (probed w);
        cfg := cfg w; trace := trace w; stderr := stderr w;
        prompts := prompts w |}).

Definition get_debug : M world bool := fun w => (Return (DEBUG_MODE w), w).

Definition set_debug (b : bool) : M world unit :=
  fun w =>
    (Return tt,
     {| out := out w; DEBUG_MODE := b; probed := probed w; cfg := cfg w;
        trace := trace w; stderr := stderr w; prompts := prompts w |}).

(** [os.environ.get(var)]. *)
Definition environ_get (var : string) : M world (option string) :=
  fun w => (Return (environ (out w) !! var), w).

(** [stderr_console.print(msg)]. *)
Definition stderr_print (msg : string) : M world unit :=
  fun w => (Return tt, complained msg w).

(** [Prompt.ask(...)]: the operator presses Enter. *)
Definition prompt_ask : M world unit :=
  fun w =>
    (Return tt,
     {| out := out w; DEBUG_MODE := DEBUG_MODE w; probed := probed w;
        cfg := cfg w; trace := trace w; stderr := stderr w;
        prompts := S (prompts w) |}).

(** *** External tools *)

(** What a tool does when the outside lets it run: its exit status, what
    it prints on stdout, and the working copy it leaves. *)
Definition tool : Type :=
  list string -> option string -> cfg_repo -> Z * string * cfg_repo.

(** [git] in the working copy of the configuration repository.
    [git add] stages the files as they are; [git commit] records what
    is staged when it differs from the last commit and otherwise exits
    with status 1 (nothing to commit); [git push] and any git command
    run elsewhere change nothing the model tracks. *)
Definition git (cmd : list string) (dir : option string) (c : cfg_repo)
  : Z * string * cfg_repo :=
  if decide (dir = Some (PyPath.str (root c))) then
    match cmd with
    | "git" :: "add" :: _ =>
        (0, "", staged c)
    | ["git"; "commit"; "-m"; msg] =>
        if decide (index c = head c) then (1, "", c)
        else
          (0, "", committed msg c)
    | _ => (0, "", c)
    end
  else (0, "", c).

Variable exec : tool.

(** Start a process and wait for it: the outside may force a failure,
    otherwise the tool runs; either way the process is recorded. *)
Definition spawn (cmd : list string) (dir : option string) (check : bool)
  : M world (Z * string) :=
  fun w =>
    let forced := faults (out w) (length (trace w)) in
    let '(rc, text, c) :=
      if forced =? 0 then exec cmd dir (cfg w) else (forced, "", cfg w) in
    (Return (rc, text), logged (mkInvocation cmd dir check rc) c w).

(** [run(cmd, cwd, check, log_file, debug)].  With [debug] the process
    inherits the terminal ([subprocess.run]); without it its output is
    read to the end ([subprocess.Popen]) and goes to the log file or
    nowhere.  Both ways a non-zero exit status under [check] prints
    [Command failed] on stderr and raises [CalledProcessError]. *)
Definition run (cmd : list string) (dir : option string) (check : bool)
    (debug : bool) : M world Z :=
  if debug then
    r <- spawn cmd dir check ;;
    if check && negb (fst r =? 0) then
      stderr_print (complaint cmd) ;;;
      raise (CalledProcessError (fst r) cmd)
    else ret (fst r)
  else
    r <- spawn cmd dir check ;;
    if check && negb (fst r =? 0) then
      stderr_print (complaint cmd) ;;;
      raise (CalledProcessError (fst r) cmd)
    else ret (fst r).

(** [get_env(var, default, required)]: the same function in both
    scripts.  [None] stands for Python's [None]. *)
Definition get_env (var : string) (default : option string) (required : bool)
  : M world (option string) :=
  v <- environ_get var ;;
  let val := match v with Some s => Some s | None => default end in
  let falsy := match val with Some s => String.eqb s "" | None => true end in
  if required && falsy then
    stderr_print ("[red]ERROR: " ++ var ++ " is required but not set.[/red]") ;;;
    sys_exit 1
  else ret val.

(** [dimmed_timed_step(start_msg, end_msg_func)(func)]: the wrapper
    shows a status line and prints the elapsed time on stdout around
    [func]; it passes the result and every exception through. *)
Definition dimmed_timed_step {A} (func : M world A) : M world A :=
  debug <- get_debug ;;
  if debug then func else (result <- func ;; ret result).

(** [prompt_to_continue(ci)]. *)
Definition prompt_to_continue (ci : bool) : M world unit :=
  if negb ci then prompt_ask else ret tt.

End World.

Arguments boot {I} o c.
Arguments probe {I}.
Arguments get_debug {I}.
Arguments set_debug {I} b.
Arguments environ_get {I} var.
Arguments stderr_print {I} msg.
Arguments prompt_ask {I}.
Arguments prompt_to_continue {I} ci.
Arguments safe_load {I} p.
Arguments safe_dump {I} d p.
Arguments file_exists {I} p.

(** The exit status of the process once [main] has ended: 0 after a
    normal return, the code of [sys.exit], 1 after an uncaught
    exception. *)
Definition exit_status {A} (o : outcome A) : Z :=
  match o with
  | Return _ => 0
  | SysExit c => c
  | Raise _ => 1
  end.

(** A trace entry that makes [run] raise: failure checking was asked for
    and the exit status is not 0. *)
Definition failed (i : invocation) : bool :=
  checked i && negb (returncode i =? 0).

(** The command a trace entry ran starts with these words. *)
Fixpoint starts_with (words cmd : list string) : bool :=
  match words, cmd with
  | [], _ => true
  | w :: ws, c :: cs => String.eqb w c && starts_with ws cs
  | _ :: _, [] => false
  end.

Definition runs (words : list string) (i : invocation) : bool :=
  starts_with words (argv i).

Definition commit_or_push (i : invocation) : bool :=
  runs ["git"; "commit"] i || runs ["git"; "push"] i.

(** Python values of the functions whose result type is not fixed by
    their body. *)
Inductive pyvalue :=
  | PyNone
  | PyBool (b : bool)
  | PyString (s : string).

(** [bool(v)]. *)
Definition truthy (v : pyvalue) : bool :=
  match v with
  | PyNone => false
  | PyBool b => b
  | PyString s => negb (String.eqb s "")
  end.

(** [x or y] on optional strings: the first one that is set and not
    empty. *)
Definition or_else (x : option string) (y : string) : string :=
  match x with
  | Some s => if String.eqb s "" then y else s
  | None => y
  end.

(* ===================================================================== *)
(** ** create-new-test-instance.py *)

Module Create.

Import PyPath.

Abbreviation world := (world string).
Abbreviation cfg_repo := (cfg_repo string).

Definition DEFAULT_ANSIBLE_CFG_BRANCH := "simple".
Definition DEFAULT_VAULT_PASSWORD_FILE (o : outside) : string :=
  str (Path (home o) // ".aops_ansible_vault_pw").
Definition DEFAULT_TERRAMATE_CLOUD_REPO := "git@github.com:aops-ba/terramate-cloud.git".
Definition DEFAULT_ANSIBLE_CONFIG_REPO := "git@github.com:aops-ba/ansible-cfg.git".
Definition DEFAULT_BOOTSTRAP_SSH_KEY (o : outside) : string :=
  str (Path (home o) // ".ssh/bootstrap_key").
Definition DEFAULT_ANSIBLECONTROL_SSH_KEY (o : outside) : string :=
  str (Path (home o) // ".ssh/ansible_control_key").
Definition DEFAULT_TERRAFORM_TEMPLATE_FILE (o : outside) : string :=
  str (Path (script_dir o) // "test_instance.tf.template").
Definition DEFAULT_EMAIL := "devops@artofproblemsolving.com".
Definition DEFAULT_OFFICE_VPN_IP := "50.203.25.222".
Definition DEFAULT_STACK_ACCOUNT_PATH := "stacks/accounts/aops_dev.487718497406".

(** The tools as this script meets them: [git] on the configuration
    repository; the other tools change nothing the model tracks. *)
Definition exec : tool string := git (I := string).

Definition run := run exec.

(** *** Cloning *)

Definition clone_terramate_repo (repo_url : string) (path : path) : M world PyPath.path :=
  dimmed_timed_step (
    debug <- get_debug ;;
    run ["git"; "clone"; repo_url; str path] None true debug ;;;
    ret path).

Definition clone_ansible_repo (repo_url : string) (path : path) (branch : string)
  : M world PyPath.path :=
  dimmed_timed_step (
    debug <- get_debug ;;
    run ["git"; "clone"; repo_url; str path] None true debug ;;;
    run ["git"; "checkout"; branch] (Some (str path)) true debug ;;;
    ret path).

(** *** The inventory manager *)

Record InventoryManager := mkManager {
  ansible_config_root : path;
  inventory_file : path;
  emails_file : path
}.

(** [InventoryManager.__init__]. *)
Definition InventoryManager_init (ansible_config_root : path) : InventoryManager :=
  {| ansible_config_root := ansible_config_root;
     inventory_file := ansible_config_root // "inventory.yml";
     emails_file := ansible_config_root // "group_vars/all/emails.yml" |}.

(** The line added for a host: the key after [indent] spaces. *)
Definition key_line (full_hostname : string) (indent : nat) : string :=
  PyStr.spaces indent ++ full_hostname ++ ":" ++ PyStr.nl.

(** One turn of the loop of [add_host_to_inventory]: the line is copied
    and, the first time a line strips to [hosts:], the new key follows
    it, indented two spaces further than that line. *)
Definition splice (full_hostname : string) (st : list string * bool) (line : string)
  : list string * bool :=
  let '(out, inserted) := st in
  let out := (out ++ [line])%list in
  if negb inserted && String.eqb (PyStr.strip line) "hosts:" then
    let indent := (PyStr.len line - PyStr.len (PyStr.lstrip line) + 2)%nat in
    ((out ++ [key_line full_hostname indent])%list, true)
  else (out, inserted).

(** The text [add_host_to_inventory] writes for the text it read. *)
Definition spliced_text (full_hostname : string) (text : string) : string :=
  let lines := PyStr.splitlines_keepends text in
  let out := fst (fold_left (splice full_hostname) lines ([], false)) in
  PyStr.join out.

Definition add_host_to_inventory (self : InventoryManager) (full_hostname : string)
  : M world unit :=
  text <- read_inventory (inventory_file self) ;;
  write_inventory (inventory_file self) (spliced_text full_hostname text).

(** [add_email_for_host].  [emails["host_emails"][host] = email] changes
    the inner dict in place, so the outer document sees it: the model
    stores the changed inner dict back. *)
Definition add_email_for_host (self : InventoryManager) (full_hostname email : string)
  : M world bool :=
  emails <- safe_load (emails_file self) ;;
  has_section <- lift (PyYaml.contains "host_emails" emails) ;;
  emails <- (if negb has_section
             then lift (PyYaml.setitem emails "host_emails" (YMap ∅))
             else ret emails) ;;
  host_emails <- lift (PyYaml.getitem emails "host_emails") ;;
  known <- lift (PyYaml.contains full_hostname host_emails) ;;
  if negb known then
    host_emails <- lift (PyYaml.setitem host_emails full_hostname (YStr email)) ;;
    emails <- lift (PyYaml.setitem emails "host_emails" host_emails) ;;
    safe_dump emails (emails_file self) ;;;
    ret true
  else ret false.

Definition ensure_host (self : InventoryManager) (full_hostname email : string)
  : M world pyvalue :=
  inventory_lines <- read_inventory (inventory_file self) ;;
  (if negb (PyStr.contains (full_hostname ++ ":") inventory_lines)
   then add_host_to_inventory self full_hostname
   else ret tt) ;;;
  add_email_for_host self full_hostname email ;;;
  debug <- get_debug ;;
  let dir := Some (str (ansible_config_root self)) in
  run ["git"; "add"; str (inventory_file self); str (emails_file self)]
      dir true debug ;;;
  run ["git"; "commit"; "-m";
       "Add " ++ full_hostname ++ " to inventory and emails.yml"]
      dir false debug ;;;
  run ["git"; "push"; "origin"; "simple"] dir true debug ;;;
  ret PyNone.

(** *** What [ensure_host] does, part by part

    The three parts of [ensure_host] as functions of what they find: the
    text left in the host list, the outcome of the in-memory update of
    the contact document (whether it changed, and the document), and the
    three git commands.  [ensure_host] is shown below to be their
    sequence. *)

Definition text_after (full_hostname text : string) : string :=
  if PyStr.contains (full_hostname ++ ":") text then text
  else spliced_text full_hostname text.

Definition email_step (full_hostname email : string) (emails : yaml)
  : outcome (bool * yaml) :=
  match emails with
  | YMap m =>
      match m !! "host_emails" with
      | None =>
          Return (true, YMap (<["host_emails" := YMap (<[full_hostname := YStr email]> ∅)]> m))
      | Some (YMap hm) =>
          if bool_decide (is_Some (hm !! full_hostname)) then Return (false, emails)
          else
            Return (true, YMap (<["host_emails" := YMap (<[full_hostname := YStr email]> hm)]> m))
      | Some v =>
          match PyYaml.contains full_hostname v with
          | Return true => Return (false, emails)
          | _ => Raise TypeError
          end
      end
  | _ => Raise TypeError
  end.

Definition commit_and_push (self : InventoryManager) (full_hostname : string)
  : M world pyvalue :=
  debug <- get_debug ;;
  let dir := Some (str (ansible_config_root self)) in
  run ["git"; "add"; str (inventory_file self); str (emails_file self)]
      dir true debug ;;;
  run ["git"; "commit"; "-m";
       "Add " ++ full_hostname ++ " to inventory and emails.yml"]
      dir false debug ;;;
  run ["git"; "push"; "origin"; "simple"] dir true debug ;;;
  ret PyNone.

(** *** The stages *)

(** [f"{prefix}.aopstest.com"]. *)
Definition full_hostname_of (prefix : string) : string := prefix ++ ".aopstest.com".

(** [base_path = terramate_cloud_path / DEFAULT_STACK_ACCOUNT_PATH] and
    [stack_path = base_path / full_hostname]. *)
Definition base_path_of (terramate_cloud_path : path) : path :=
  terramate_cloud_path // DEFAULT_STACK_ACCOUNT_PATH.

Definition stack_path_of (terramate_cloud_path : path) (prefix : string) : path :=
  base_path_of terramate_cloud_path // full_hostname_of prefix.

(** [open(src)] and [open(dst, "w")] on files outside the working copy:
    the outside says whether they can be opened. *)
Definition copy_with_prefix (src dst : string) (prefix : string) : M world unit :=
  opened <- probe ;;
  if opened then ret tt else raise (FileNotFoundError src).

Definition create_and_apply_terraform_stack
    (stack_path terramate_cloud_path : path) (prefix full_hostname : string)
    (terraform_template_file : string) (ci : bool) : M world PyPath.path :=
  dimmed_timed_step (
    debug <- get_debug ;;
    let repo := Some (str terramate_cloud_path) in
    there <- probe ;;
    (if negb there then
       run ["terramate"; "create";
            "stacks/accounts/aops_dev.487718497406/" ++ full_hostname]
           repo true debug ;;; ret tt
     else ret tt) ;;;
    let main_tf := stack_path // "main.tf" in
    written <- probe ;;
    (if negb written
     then copy_with_prefix terraform_template_file (str main_tf) prefix
     else ret tt) ;;;
    run ["git"; "add"; "."] repo true debug ;;;
    run ["git"; "commit"; "-m"; "Create or update test instance " ++ full_hostname]
        repo false debug ;;;
    run ["git"; "push"; "origin"; "main"] repo true debug ;;;
    run ["terraform"; "init"] (Some (str stack_path)) true debug ;;;
    let terraform_apply_cmd := ["terraform"; "apply"] in
    let terraform_apply_cmd :=
      if ci then (terraform_apply_cmd ++ ["-auto-approve"])%list
      else terraform_apply_cmd in
    run terraform_apply_cmd (Some (str stack_path)) true debug ;;;
    ret stack_path).

Definition add_to_ansible_inventory (ansible_config_root : path)
    (full_hostname email : string) : M world PyPath.path :=
  dimmed_timed_step (
    let inventory_mgr := InventoryManager_init ansible_config_root in
    ensure_host inventory_mgr full_hostname email ;;;
    ret ansible_config_root).

Definition ssh_common_args :=
  "-o UserKnownHostsFile=/dev/null -o StrictHostKeyChecking=no".

Definition run_ansible (ansible_config_root : path) (full_hostname : string)
    (bootstrap_ssh_key ansiblecontrol_ssh_key vault_password_file : string)
  : M world string :=
  dimmed_timed_step (
    debug <- get_debug ;;
    run ["ansible-playbook"; "initial_setup.yml";
         "--private-key"; bootstrap_ssh_key;
         "--limit"; full_hostname;
         "--vault-password-file"; vault_password_file;
         "--ssh-common-args"; ssh_common_args]
        (Some (str ansible_config_root)) true debug ;;;
    run ["ansible-playbook"; "web_setup.yml";
         "--private-key"; ansiblecontrol_ssh_key;
         "--limit"; full_hostname;
         "--vault-password-file"; vault_password_file;
         "--ssh-common-args"; ssh_common_args]
        (Some (str ansible_config_root)) true debug ;;;
    ret full_hostname).

Definition import_db (full_hostname : string) : M world string :=
  dimmed_timed_step (
    debug <- get_debug ;;
    run ["ssh-import-db.sh"; full_hostname] None true debug ;;;
    ret full_hostname).

(** [for freq in freqs: run(["play", ...], check=False, ...)]. *)
Fixpoint play_tones (freqs : list string) : M world unit :=
  match freqs with
  | [] => ret tt
  | freq :: rest =>
      debug <- get_debug ;;
      run ["play"; "-q"; "-n"; "synth"; "0.1"; "sin"; freq] None false debug ;;;
      play_tones rest
  end.

(** *** [main] *)

(** What [parse_arguments] returns. *)
Record arguments := mkArgs {
  arg_prefix : string;
  arg_ci : bool;
  arg_verbose : bool;
  arg_debug : bool
}.

(** The value of a setting that has a default. *)
Definition strval (v : option string) : string := default "" v.

Definition main (args : arguments) : M world unit :=
  let prefix := arg_prefix args in
  let full_hostname := full_hostname_of prefix in
  ci_env <- environ_get "CI" ;;
  let ci := arg_ci args || negb (String.eqb (default "" ci_env) "") in
  set_debug (arg_debug args) ;;;
  o <- (fun w => (Return (out w), w)) ;;
  ansible_cfg_branch <- get_env "ANSIBLE_CFG_BRANCH" (Some DEFAULT_ANSIBLE_CFG_BRANCH) false ;;
  vault_password_file <- get_env "VAULT_PASSWORD_FILE" (Some (DEFAULT_VAULT_PASSWORD_FILE o)) false ;;
  terramate_cloud_repo <- get_env "TERRAMATE_CLOUD_REPO" (Some DEFAULT_TERRAMATE_CLOUD_REPO) false ;;
  ansible_config_repo <- get_env "ANSIBLE_CONFIG_REPO" (Some DEFAULT_ANSIBLE_CONFIG_REPO) false ;;
  bootstrap_ssh_key <- get_env "BOOTSTRAP_SSH_KEY" (Some (DEFAULT_BOOTSTRAP_SSH_KEY o)) false ;;
  ansiblecontrol_ssh_key <- get_env "ANSIBLECONTROL_SSH_KEY" (Some (DEFAULT_ANSIBLECONTROL_SSH_KEY o)) false ;;
  let terraform_template_file := DEFAULT_TERRAFORM_TEMPLATE_FILE o in
  email <- get_env "EMAIL" (Some DEFAULT_EMAIL) false ;;
  office_vpn_ip <- get_env "OFFICE_VPN_IP" (Some DEFAULT_OFFICE_VPN_IP) false ;;
  try_except (
    (* [1/5] Cloning code and setting up *)
    let unique_id := String.substring 0 8 (uuid4_hex o) in
    tcp_env <- environ_get "TERRAMATE_CLOUD_PATH" ;;
    let terramate_cloud_path :=
      Path (or_else tcp_env ("/tmp/terramate-cloud-" ++ prefix ++ "-" ++ unique_id)) in
    acr_env <- environ_get "ANSIBLE_CONFIG_ROOT" ;;
    let ansible_config_root :=
      Path (or_else acr_env ("/tmp/ansible-cfg-" ++ prefix ++ "-" ++ unique_id)) in
    have_terramate <- probe ;;
    (if negb have_terramate
     then clone_terramate_repo (strval terramate_cloud_repo) terramate_cloud_path ;;; ret tt
     else ret tt) ;;;
    have_ansible <- probe ;;
    (if negb have_ansible
     then clone_ansible_repo (strval ansible_config_repo) ansible_config_root
            (strval ansible_cfg_branch) ;;; ret tt
     else ret tt) ;;;
    let stack_path := stack_path_of terramate_cloud_path prefix in
    prompt_to_continue ci ;;;
    (* [2/5] Creating and applying terraform stack *)
    create_and_apply_terraform_stack stack_path terramate_cloud_path prefix
      full_hostname terraform_template_file ci ;;;
    prompt_to_continue ci ;;;
    (* [3/5] Adding host to inventory and emails.yml *)
    add_to_ansible_inventory ansible_config_root full_hostname (strval email) ;;;
    prompt_to_continue ci ;;;
    (* [4/5] Running ansible against the new host *)
    run_ansible ansible_config_root full_hostname (strval bootstrap_ssh_key)
      (strval ansiblecontrol_ssh_key) (strval vault_password_file) ;;;
    prompt_to_continue ci ;;;
    (* [5/5] Importing database *)
    import_db full_hostname ;;;
    (if play_on_path o then play_tones ["880"; "990"; "1100"] else ret tt)
  ) (fun e => sys_exit 1).

End Create.

(* ===================================================================== *)
(** ** The [yq] tool on the two files *)

Module Yq.

Definition DQUOTE : ascii := Ascii.ascii_of_N 34.
Definition BACKSLASH : ascii := Ascii.ascii_of_N 92.
Definition DQ : string := String DQUOTE "".

(** A key that [yq] reads back from a double-quoted string as it was
    written: no double quote and no backslash in it. *)
Fixpoint plain (key : string) : bool :=
  match key with
  | EmptyString => true
  | String c k =>
      negb (Ascii.eqb c DQUOTE) && negb (Ascii.eqb c BACKSLASH) && plain k
  end.

(** The two expressions the script builds for a section and a key:
    [f"{section} | has(\"{key}\")"] and [f"del({section}.\"{key}\")"]. *)
Definition has_expr (section key : string) : string :=
  section ++ " | has(" ++ DQ ++ key ++ DQ ++ ")".

Definition del_expr (section key : string) : string :=
  "del(" ++ section ++ "." ++ DQ ++ key ++ DQ ++ ")".

Inductive expr :=
  | Has (section : list string) (key : string)
  | Del (section : list string) (key : string).

Fixpoint drop_prefix (pre s : string) : option string :=
  match pre, s with
  | EmptyString, _ => Some s
  | String a pre', String b s' =>
      if Ascii.eqb a b then drop_prefix pre' s' else None
  | String _ _, EmptyString => None
  end.

Fixpoint drop_suffix (suf s : string) : option string :=
  if String.eqb s suf then Some EmptyString
  else
    match s with
    | EmptyString => None
    | String c s' => option_map (String c) (drop_suffix suf s')
    end.

(** The key between a fixed opening and a fixed closing text. *)
Definition between (opening closing s : string) : option string :=
  match drop_prefix opening s with
  | Some rest =>
      match drop_suffix closing rest with
      | Some key => if plain key then Some key else None
      | None => None
      end
  | None => None
  end.

(** The expressions the model reads; anything else is a syntax error
    for it. *)
Definition parse (e : string) : option expr :=
  match between (".all.hosts | has(" ++ DQ) (DQ ++ ")") e with
  | Some key => Some (Has ["all"; "hosts"] key)
  | None =>
  match between (".host_emails | has(" ++ DQ) (DQ ++ ")") e with
  | Some key => Some (Has ["host_emails"] key)
  | None =>
  match between ("del(.all.hosts." ++ DQ) (DQ ++ ")") e with
  | Some key => Some (Del ["all"; "hosts"] key)
  | None =>
  match between ("del(.host_emails." ++ DQ) (DQ ++ ")") e with
  | Some key => Some (Del ["host_emails"] key)
  | None => None
  end end end end.

(** The node a path of keys leads to: a missing key gives null, a key
    asked of a scalar or a sequence is an error. *)
Fixpoint descend (d : yaml) (section : list string) : option yaml :=
  match section with
  | [] => Some d
  | k :: ks =>
      match d with
      | YMap m =>
          match m !! k with
          | Some v => descend v ks
          | None => Some YNull
          end
      | YNull => Some YNull
      | _ => None
      end
  end.

(** The keys of the mapping a section leads to: none when it does not
    lead to a mapping. *)
Definition section_has (d : yaml) (section : list string) (key : string) : bool :=
  match descend d section with
  | Some (YMap m) => bool_decide (is_Some (m !! key))
  | _ => false
  end.

(** [has]: prints [true] or [false] for a mapping, fails otherwise. *)
Definition eval_has (d : yaml) (section : list string) (key : string) : Z * string :=
  match descend d section with
  | Some (YMap m) =>
      if bool_decide (is_Some (m !! key)) then (0, "true" ++ PyStr.nl)
      else (0, "false" ++ PyStr.nl)
  | _ => (1, "")
  end.

(** [del]: the document without that key of that section. *)
Fixpoint eval_del (d : yaml) (section : list string) (key : string) : yaml :=
  match section with
  | [] =>
      match d with
      | YMap m => YMap (delete key m)
      | _ => d
      end
  | k :: ks =>
      match d with
      | YMap m =>
          match m !! k with
          | Some v => YMap (<[k := eval_del v ks key]> m)
          | None => d
          end
      | _ => d
      end
  end.

(** [yq eval EXPR FILE] and [yq eval EXPR -i FILE] on the working
    copy. *)
Definition yq (cmd : list string) (dir : option string) (c : cfg_repo yaml)
  : Z * string * cfg_repo yaml :=
  match cmd with
  | ["yq"; "eval"; e; file] =>
      let doc :=
        if String.eqb file (PyPath.str (inventory_path c)) then inventory_yml c
        else if String.eqb file (PyPath.str (emails_path c)) then emails_yml c
        else None in
      match doc, parse e with
      | Some d, Some (Has section key) => (eval_has d section key, c)
      | Some d, Some (Del section key) => (0, "", c)
      | _, _ => (1, "", c)
      end
  | ["yq"; "eval"; e; "-i"; file] =>
      match parse e with
      | Some (Del section key) =>
          if String.eqb file (PyPath.str (inventory_path c)) then
            match inventory_yml c with
            | Some d => (0, "", set_inventory (Some (eval_del d section key)) c)
            | None => (1, "", c)
            end
          else if String.eqb file (PyPath.str (emails_path c)) then
            match emails_yml c with
            | Some d => (0, "", set_emails (Some (eval_del d section key)) c)
            | None => (1, "", c)
            end
          else (1, "", c)
      | _ => (1, "", c)
      end
  | _ => (1, "", c)
  end.

End Yq.

(* ===================================================================== *)
(** ** destroy-test-instance.py *)

Module Destroy.

Import PyPath.

Abbreviation world := (world yaml).
Abbreviation cfg_repo := (cfg_repo yaml).

Definition DEFAULT_ANSIBLE_CFG_BRANCH := "simple".
Definition DEFAULT_TERRAMATE_CLOUD_REPO := "git@github.com:aops-ba/terramate-cloud.git".
Definition DEFAULT_ANSIBLE_CONFIG_REPO := "git@github.com:aops-ba/ansible-cfg.git".
Definition DEFAULT_STACK_ACCOUNT_PATH := "stacks/accounts/aops_dev.487718497406".

(** The tools as this script meets them: [yq] on the two files, [git]
    on the configuration repository. *)
Definition exec : tool yaml :=
  fun cmd dir c =>
    match cmd with
    | "yq" :: _ => Yq.yq cmd dir c
    | _ => git cmd dir c
    end.

Definition run := run exec.

(** [subprocess.run(cmd, capture_output=True, text=True, check=False)]:
    the captured stdout. *)
Definition subprocess_run (cmd : list string) : M world string :=
  r <- spawn exec cmd None false ;;
  ret (snd r).

Definition clone_terramate_repo (repo_url : string) (path : path) : M world PyPath.path :=
  dimmed_timed_step (
    debug <- get_debug ;;
    run ["git"; "clone"; repo_url; str path] None true debug ;;;
    ret path).

Definition clone_ansible_repo (repo_url : string) (path : path) (branch : string)
  : M world PyPath.path :=
  dimmed_timed_step (
    debug <- get_debug ;;
    run ["git"; "clone"; repo_url; str path] None true debug ;;;
    run ["git"; "checkout"; branch] (Some (str path)) true debug ;;;
    ret path).

(** [shutil.rmtree(path)]: the outside says whether it works. *)
Definition rmtree (p : path) : M world unit :=
  removed <- probe ;;
  if removed then ret tt else raise OSError.

Definition destroy_terraform_stack (stack_path terramate_cloud_path : path)
    (full_hostname : string) : M world bool :=
  dimmed_timed_step (
    there <- probe ;;
    if negb there then ret false
    else
      debug <- get_debug ;;
      let repo := Some (str terramate_cloud_path) in
      run ["terraform"; "init"] (Some (str stack_path)) true debug ;;;
      run ["terraform"; "destroy"; "-auto-approve"] (Some (str stack_path)) true debug ;;;
      rmtree stack_path ;;;
      run ["git"; "add"; "."] repo true debug ;;;
      run ["git"; "commit"; "-m";
           "Destroy test instance " ++ full_hostname ++ " (remove stack)"]
          repo false debug ;;;
      run ["git"; "push"; "origin"; "main"] repo true debug ;;;
      ret true).

(** *** The inventory manager *)

Record InventoryManager := mkManager {
  ansible_config_root : path;
  inventory_file : path;
  emails_file : path
}.

Definition InventoryManager_init (ansible_config_root : path) : InventoryManager :=
  {| ansible_config_root := ansible_config_root;
     inventory_file := ansible_config_root // "inventory.yml";
     emails_file := ansible_config_root // "group_vars/all/emails.yml" |}.

Definition remove_host_from_inventory (self : InventoryManager) (full_hostname : string)
  : M world bool :=
  there <- file_exists (inventory_file self) ;;
  if negb there then ret false
  else
    stdout <- subprocess_run
                ["yq"; "eval"; Yq.has_expr ".all.hosts" full_hostname;
                 str (inventory_file self)] ;;
    if PyStr.contains "true" stdout then
      debug <- get_debug ;;
      run ["yq"; "eval"; Yq.del_expr ".all.hosts" full_hostname; "-i";
           str (inventory_file self)] None true debug ;;;
      ret true
    else ret false.

Definition remove_email_for_host (self : InventoryManager) (full_hostname : string)
  : M world bool :=
  there <- file_exists (emails_file self) ;;
  if negb there then ret false
  else
    stdout <- subprocess_run
                ["yq"; "eval"; Yq.has_expr ".host_emails" full_hostname;
                 str (emails_file self)] ;;
    if PyStr.contains "true" stdout then
      debug <- get_debug ;;
      run ["yq"; "eval"; Yq.del_expr ".host_emails" full_hostname; "-i";
           str (emails_file self)] None true debug ;;;
      ret true
    else ret false.

(** The host is a key of [.all.hosts] in the host list, of
    [.host_emails] in the contact file. *)
Definition listed_in_inventory (full_hostname : string) (c : cfg_repo) : bool :=
  match inventory_yml c with
  | Some d => Yq.section_has d ["all"; "hosts"] full_hostname
  | None => false
  end.

Definition listed_in_emails (full_hostname : string) (c : cfg_repo) : bool :=
  match emails_yml c with
  | Some d => Yq.section_has d ["host_emails"] full_hostname
  | None => false
  end.

(** [remove_host] has no [return] statement: it ends with [None]. *)
Definition remove_host (self : InventoryManager) (full_hostname : string)
  : M world pyvalue :=
  inventory_removed <- remove_host_from_inventory self full_hostname ;;
  emails_removed <- remove_email_for_host self full_hostname ;;
  (if inventory_removed || emails_removed then
     debug <- get_debug ;;
     let dir := Some (str (ansible_config_root self)) in
     run ["git"; "add"; str (inventory_file self); str (emails_file self)]
         dir true debug ;;;
     run ["git"; "commit"; "-m";
          "Remove " ++ full_hostname
          ++ " from host_emails in emails.yml and inventory.yml"]
         dir false debug ;;;
     run ["git"; "push"; "origin"; "simple"] dir true debug ;;;
     ret tt
   else ret tt) ;;;
  ret PyNone.

(** The git commands of [remove_host], run when something was removed;
    [remove_host] is shown below to end with them. *)
Definition commit_and_push (self : InventoryManager) (full_hostname : string)
  : M world unit :=
  debug <- get_debug ;;
  let dir := Some (str (ansible_config_root self)) in
  run ["git"; "add"; str (inventory_file self); str (emails_file self)]
      dir true debug ;;;
  run ["git"; "commit"; "-m";
       "Remove " ++ full_hostname
       ++ " from host_emails in emails.yml and inventory.yml"]
      dir false debug ;;;
  run ["git"; "push"; "origin"; "simple"] dir true debug ;;;
  ret tt.

Definition remove_from_ansible_inventory (ansible_config_root : path)
    (full_hostname : string) : M world PyPath.path :=
  dimmed_timed_step (
    let inventory_mgr := InventoryManager_init ansible_config_root in
    remove_host inventory_mgr full_hostname ;;;
    ret ansible_config_root).

Fixpoint play_tones (freqs : list string) : M world unit :=
  match freqs with
  | [] => ret tt
  | freq :: rest =>
      debug <- get_debug ;;
      run ["play"; "-q"; "-n"; "synth"; "0.1"; "sin"; freq] None false debug ;;;
      play_tones rest
  end.

(** *** [main] *)

Record arguments := mkArgs {
  arg_prefix : string;
  arg_ci : bool;
  arg_verbose : bool;
  arg_debug : bool
}.

Definition strval (v : option string) : string := default "" v.

Definition full_hostname_of (prefix : string) : string := prefix ++ ".aopstest.com".

Definition base_path_of (terramate_cloud_path : path) : path :=
  terramate_cloud_path // DEFAULT_STACK_ACCOUNT_PATH.

Definition stack_path_of (terramate_cloud_path : path) (prefix : string) : path :=
  base_path_of terramate_cloud_path // full_hostname_of prefix.

(** [prefix.replace('_', '').replace('-', '').isalnum()]. *)
Definition valid_prefix (prefix : string) : bool :=
  PyStr.isalnum
    (PyStr.replace (Ascii.ascii_of_N 45) ""
       (PyStr.replace (Ascii.ascii_of_N 95) "" prefix)).

Definition prefix_error :=
  "[red]ERROR: PREFIX must be alphanumeric (letters, numbers, underscores, and dashes only).[/red]".

Definition token_error :=
  "[red]ERROR: CLOUDFLARE_API_TOKEN is not set in the environment.[/red]".

Definition main (args : arguments) : M world unit :=
  let prefix := arg_prefix args in
  let full_hostname := full_hostname_of prefix in
  ci_env <- environ_get "CI" ;;
  let ci := arg_ci args || negb (String.eqb (default "" ci_env) "") in
  set_debug (arg_debug args) ;;;
  (if negb (valid_prefix prefix)
   then stderr_print prefix_error ;;; sys_exit 1
   else ret tt) ;;;
  o <- (fun w => (Return (out w), w)) ;;
  ansible_cfg_branch <- get_env "ANSIBLE_CFG_BRANCH" (Some DEFAULT_ANSIBLE_CFG_BRANCH) false ;;
  terramate_cloud_repo <- get_env "TERRAMATE_CLOUD_REPO" (Some DEFAULT_TERRAMATE_CLOUD_REPO) false ;;
  ansible_config_repo <- get_env "ANSIBLE_CONFIG_REPO" (Some DEFAULT_ANSIBLE_CONFIG_REPO) false ;;
  token <- get_env "CLOUDFLARE_API_TOKEN" None true ;;
  (if match token with Some s => String.eqb s "" | None => true end
   then stderr_print token_error ;;; sys_exit 1
   else ret tt) ;;;
  try_except (
    (* [1/3] Cloning code and setting up *)
    let unique_id := String.substring 0 8 (uuid4_hex o) in
    tcp_env <- environ_get "TERRAMATE_CLOUD_PATH" ;;
    let terramate_cloud_path :=
      Path (or_else tcp_env ("/tmp/terramate-cloud-" ++ prefix ++ "-" ++ unique_id)) in
    acr_env <- environ_get "ANSIBLE_CONFIG_ROOT" ;;
    let ansible_config_root :=
      Path (or_else acr_env ("/tmp/ansible-cfg-" ++ prefix ++ "-" ++ unique_id)) in
    have_terramate <- probe ;;
    (if negb have_terramate
     then clone_terramate_repo (strval terramate_cloud_repo) terramate_cloud_path ;;; ret tt
     else ret tt) ;;;
    have_ansible <- probe ;;
    (if negb have_ansible
     then clone_ansible_repo (strval ansible_config_repo) ansible_config_root
            (strval ansible_cfg_branch) ;;; ret tt
     else ret tt) ;;;
    let stack_path := stack_path_of terramate_cloud_path prefix in
    prompt_to_continue ci ;;;
    (* [2/3] Destroying Terraform stack and removing resources *)
    destroy_terraform_stack stack_path terramate_cloud_path full_hostname ;;;
    prompt_to_continue ci ;;;
    (* [3/3] Removing host from inventory and emails.yml *)
    remove_from_ansible_inventory ansible_config_root full_hostname ;;;
    (if play_on_path o then play_tones ["1100"; "990"; "880"] else ret tt)
  ) (fun e => sys_exit 1).

End Destroy.

(* ===================================================================== *)
(** ** Statements about the processes a computation starts *)

(** No process of the trace failed under failure checking. *)
Definition clean (tr : list invocation) : Prop :=
  Forall (fun i => failed i = false) tr.

(** A process that failed under failure checking has none after it. *)
Definition failure_is_last (tr : list invocation) : Prop :=
  forall pre i post, tr = (pre ++ i :: post)%list -> failed i = true -> post = [].

(** The commands of the configuration-management stage and of the
    data-bootstrap stage of the create pipeline. *)
Definition late (i : invocation) : bool :=
  runs ["ansible-playbook"] i || runs ["ssh-import-db.sh"] i.

Definition apply_failed (i : invocation) : bool :=
  runs ["terraform"; "apply"] i && failed i.

(** The state of the create pipeline up to the end of its second
    stage: nothing failed and no command of the two last stages ran. *)
Definition early (tr : list invocation) : Prop :=
  clean tr /\ Forall (fun j => late j = false) tr.

(** The state the create pipeline is left in by an exception: a failed
    command is the last one, and if that was the infra-apply command, no
    command of the two last stages ran. *)
Definition stopped (tr : list invocation) : Prop :=
  failure_is_last tr
  /\ (Exists (fun i => apply_failed i = true) tr ->
      Forall (fun j => late j = false) tr).

Section TraceLogic.

Context {I A : Type}.

(** From a trace satisfying [P], the computation returns with a trace
    satisfying [Q] or raises with one satisfying [E]; it does not call
    [sys.exit]. *)
Definition triple (P : list invocation -> Prop) (m : M (world I) A)
    (Q E : list invocation -> Prop) : Prop :=
  forall w, P (trace w) ->
    match m w with
    | (Return _, w') => Q (trace w')
    | (Raise _, w') => E (trace w')
    | (SysExit _, _) => False
    end.

(** The computation starts no process and does not call [sys.exit]. *)
Definition quiet (m : M (world I) A) : Prop :=
  forall w, trace (snd (m w)) = trace w /\ forall c, fst (m w) <> SysExit c.

End TraceLogic.

(* ===================================================================== *)
(** ** Sample worlds *)

Module Sample.

(** An outside where every tool runs and every path asked about exists. *)
Definition calm : outside :=
  {| environ := ∅; home := "/home/ops"; script_dir := "/opt/corvid";
     uuid4_hex := "0123456789abcdef0123456789abcdef"; play_on_path := false;
     faults := fun _ => 0; probes := fun _ => true |}.

Definition cfg_root : PyPath.path := PyPath.Path "/srv/ansible-cfg".

(** A working copy with the given files, all of it committed. *)
Definition repo_at {I : Type} (where_ : PyPath.path) (inventory : option I)
    (emails : option yaml) : cfg_repo I :=
  {| root := where_; inventory_yml := inventory; emails_yml := emails;
     index := mkSnapshot inventory emails; head := mkSnapshot inventory emails;
     commits := [] |}.

Definition repo {I : Type} (inventory : option I) (emails : option yaml) : cfg_repo I :=
  repo_at cfg_root inventory emails.

(** The host list holds only the [hosts:] key. *)
Definition bare : Create.world :=
  boot calm (repo (Some ("hosts:" ++ PyStr.nl)) (Some (YMap ∅))).

(** The host list has no [hosts:] key. *)
Definition keyless : Create.world :=
  boot calm (repo (Some ("servers:" ++ PyStr.nl ++ "  web1:" ++ PyStr.nl))
                  (Some (YMap ∅))).

(** The host list holds a longer name that ends in [t1.example.com]. *)
Definition lookalike : Create.world :=
  boot calm (repo (Some ("hosts:" ++ PyStr.nl ++ "  xt1.example.com:" ++ PyStr.nl))
                  (Some (YMap ∅))).

(** Working copies as the destroy script sees them: a host list with
    one other host, and a contact file with or without the host
    [t1.aopstest.com]. *)
Definition other_hosts : yaml :=
  YMap {[ "all" := YMap {[ "hosts" := YMap {[ "web1.aopstest.com" := YNull ]} ]} ]}.

Definition gone : Destroy.world :=
  boot calm (repo (Some other_hosts)
                  (Some (YMap {[ "host_emails" :=
                                   YMap {[ "web1.aopstest.com" := YStr "ops@example.com" ]} ]}))).

Definition contact_only : Destroy.world :=
  boot calm (repo (Some other_hosts)
                  (Some (YMap {[ "host_emails" :=
                                   YMap {[ "t1.aopstest.com" := YStr "a@b.com" ]} ]}))).

(** An outside where the fifth process of the run, the infra-apply
    command when both clones and the stack are already there, exits with
    status 1. *)
Definition apply_fails : outside :=
  {| environ := ∅; home := "/home/ops"; script_dir := "/opt/corvid";
     uuid4_hex := "0123456789abcdef0123456789abcdef"; play_on_path := false;
     faults := fun n => if Nat.eqb n 4 then 1 else 0; probes := fun _ => true |}.

(** The working copy the create pipeline finds for a prefix when
    [ANSIBLE_CONFIG_ROOT] is not set. *)
Definition cloned_for (prefix : string) : Create.cfg_repo :=
  repo_at (PyPath.Path ("/tmp/ansible-cfg-" ++ prefix ++ "-01234567"))
          (Some ("hosts:" ++ PyStr.nl)) (Some (YMap ∅)).

End Sample.

(* ===================================================================== *)
(** ** Notions used to state what the functions do *)

(** A character the prefix check of the destroy script lets pass. *)
Definition prefix_char (c : ascii) : bool :=
  PyStr.isalnum_char c || Ascii.eqb c "_" || Ascii.eqb c "-".

(** The text holds no line boundary. *)
Fixpoint one_line (s : string) : bool :=
  match s with
  | EmptyString => true
  | String c s' => negb (PyStr.is_linebreak c) && one_line s'
  end.

(** The value under a key of a YAML mapping; nothing for a document that
    is not a mapping. *)
Definition entry (key : string) (d : yaml) : option yaml :=
  match d with
  | YMap m => m !! key
  | _ => None
  end.

(** The address the contact document holds for a host. *)
Definition email_of (host : string) (d : yaml) : option yaml :=
  match entry "host_emails" d with
  | Some section => entry host section
  | None => None
  end.

(* ===================================================================== *)
(** ** Statements about the worlds a computation goes through *)

(** What a process leaves behind: its exit status and the working copy.
    A failure forced from outside leaves the working copy alone. *)
Definition result_of {I : Type} (exec : tool I) (cmd : list string)
    (dir : option string) (w : world I) : Z * cfg_repo I :=
  let forced := faults (out w) (length (trace w)) in
  if forced =? 0
  then (fst (fst (exec cmd dir (cfg w))), snd (exec cmd dir (cfg w)))
  else (forced, cfg w).

(** The world after one more question about a path. *)
Definition asked {I : Type} (w : world I) : world I :=
  {| out := out w; DEBUG_MODE := DEBUG_MODE w; probed := S (probed w);
     cfg := cfg w; trace := trace w; stderr := stderr w; prompts := prompts w |}.

Section WorldLogic.

Context {I A : Type}.

(** From a world satisfying [P], the computation returns in a world
    satisfying [Q] or raises in one satisfying [E]; it does not call
    [sys.exit]. *)
Definition hoare (P : world I -> Prop) (m : M (world I) A)
    (Q E : world I -> Prop) : Prop :=
  forall w, P w ->
    match m w with
    | (Return _, w') => Q w'
    | (Raise _, w') => E w'
    | (SysExit _, _) => False
    end.

End WorldLogic.

(** Two worlds that differ at most in the number of questions asked
    about paths. *)
Definition same_but_probed {I : Type} (w w' : world I) : Prop :=
  out w' = out w /\ DEBUG_MODE w' = DEBUG_MODE w /\ cfg w' = cfg w
  /\ trace w' = trace w /\ stderr w' = stderr w /\ prompts w' = prompts w.

(** A computation that starts no process, writes no file, prints nothing
    on stderr, asks the operator nothing and does not call [sys.exit]. *)
Definition inert {I A : Type} (m : M (world I) A) : Prop :=
  forall w, same_but_probed w (snd (m w)) /\ forall c, fst (m w) <> SysExit c.

(** A statement about worlds that does not depend on the number of
    questions asked about paths, and one that does not depend on the
    working copy. *)
Definition blind {I : Type} (P : world I -> Prop) : Prop :=
  forall w w', same_but_probed w w' -> P w -> P w'.

Definition cfg_blind {I : Type} (P : world I -> Prop) : Prop :=
  forall c w, P w -> P (set_cfg c w).

(** The operator has not been asked anything. *)
Definition unasked {I : Type} (w : world I) : Prop := prompts w = 0%nat.

(** Stderr holds one [Command failed] line for each process that failed
    under failure checking, in the order of the processes, and nothing
    else. *)
Definition reported {I : Type} (w : world I) : Prop :=
  stderr w = map (fun i => complaint (argv i)) (List.filter failed (trace w)).

(** No process has failed under failure checking. *)
Definition sound {I : Type} (w : world I) : Prop := clean (trace w).

(** The commands of the destroy pipeline that come before its inventory
    stage and run under failure checking: the clones, the checkout, the
    terraform commands and the push of the infrastructure repository. *)
Definition infra_command (i : invocation) : bool :=
  runs ["git"; "clone"] i || runs ["git"; "checkout"] i || runs ["terraform"] i
  || runs ["git"; "push"; "origin"; "main"] i.

Definition infra_failed (i : invocation) : bool := infra_command i && failed i.

(** The two files of the working copy are as in [f], and no [yq]
    process was started. *)
Definition untouched {I : Type} (f : snapshot I) (w : world I) : Prop :=
  working_files (cfg w) = f
  /\ Forall (fun i => runs ["yq"] i = false) (trace w).

(** The state of the destroy pipeline before its inventory stage, and
    the state an exception leaves it in: a failed process is the last
    one, and if it was one of the commands above, the two files are
    untouched. *)
Definition held {I : Type} (f : snapshot I) (w : world I) : Prop :=
  clean (trace w) /\ untouched f w.

Definition halted {I : Type} (f : snapshot I) (w : world I) : Prop :=
  failure_is_last (trace w)
  /\ (Exists (fun i => infra_failed i = true) (trace w) -> untouched f w).

(** The two files of the working copy are as in [f]. *)
Definition kept {I : Type} (f : snapshot I) (w : world I) : Prop :=
  working_files (cfg w) = f.

(** What the create pipeline may make of the two files [f] for a host
    and an address: the host list as it was, or spliced for the host
    when the presence test failed; the contact file as it was, or with
    the address entered for the host, which had none, and nothing else
    changed. *)
Definition grown (H E : string) (f : snapshot string) (w : Create.world) : Prop :=
  (inventory_yml (cfg w) = snap_inventory f
   \/ exists t, snap_inventory f = Some t
        /\ PyStr.contains (H ++ ":") t = false
        /\ inventory_yml (cfg w) = Some (Create.spliced_text H t))
  /\ (emails_yml (cfg w) = snap_emails f
      \/ exists d d', snap_emails f = Some d
           /\ emails_yml (cfg w) = Some d'
           /\ email_of H d = None
           /\ email_of H d' = Some (YStr E)
           /\ (forall h, h <> H -> email_of h d' = email_of h d)
           /\ (forall k, k <> "host_emails" -> entry k d' = entry k d)).

(** A statement about worlds that depends on the two files only. *)
Definition files_only {I : Type} (P : world I -> Prop) : Prop :=
  forall w w', working_files (cfg w') = working_files (cfg w) -> P w -> P w'.

(** A working copy with nothing to stage and nothing to commit. *)
Definition clean_checkout {I : Type} (c : cfg_repo I) : Prop :=
  index c = working_files c /\ head c = working_files c.

(** The run is in outside [o] with the working copy [c], no process has
    failed under failure checking and nothing was printed on stderr. *)
Definition at_rest {I : Type} (o : outside) (c : cfg_repo I) (w : world I) : Prop :=
  out w = o /\ cfg w = c /\ clean (trace w) /\ stderr w = [].

(** The working copy after [git add] and [git commit -m msg] that
    nothing from outside made fail. *)
Definition recorded {I : Type} `{EqDecision I} (msg : string) (c : cfg_repo I)
  : cfg_repo I :=
  if decide (index (staged c) = head (staged c)) then staged c
  else committed msg (staged c).

(** Where [main] looks for the configuration repository:
    [Path(os.environ.get("ANSIBLE_CONFIG_ROOT") or
    f"/tmp/ansible-cfg-{prefix}-{unique_id}")]. *)
Definition config_root_of (prefix : string) (o : outside) : PyPath.path :=
  PyPath.Path
    (or_else (environ o !! "ANSIBLE_CONFIG_ROOT")
       ("/tmp/ansible-cfg-" ++ prefix ++ "-" ++ String.substring 0 8 (uuid4_hex o))).

(** A YAML file after [yq] was asked whether a section has a key and,
    if so, to delete it. *)
Definition pruned (key : string) (section : list string) (doc : option yaml)
  : option yaml :=
  option_map
    (fun d => if Yq.section_has d section key then Yq.eval_del d section key else d)
    doc.

(** The working copy after the two removals of [remove_host]. *)
Definition without_host (key : string) (c : Destroy.cfg_repo) : Destroy.cfg_repo :=
  set_emails (pruned key ["host_emails"] (emails_yml c))
    (set_inventory (pruned key ["all"; "hosts"] (inventory_yml c)) c).

(** The command that plays one tone. *)
Definition tone (freq : string) : list string :=
  ["play"; "-q"; "-n"; "synth"; "0.1"; "sin"; freq].

(** The commands of [destroy_terraform_stack], in the order of the
    source. *)
Definition stack_commands (full_hostname : string) : list (list string) :=
  [["terraform"; "init"];
   ["terraform"; "destroy"; "-auto-approve"];
   ["git"; "add"; "."];
   ["git"; "commit"; "-m"; "Destroy test instance " ++ full_hostname ++ " (remove stack)"];
   ["git"; "push"; "origin"; "main"]].

(** *** The order of the stages of the create pipeline *)

(** A process that ran the command and ended with status 0, and a trace
    that holds one. *)
Definition succeeded (words : list string) (i : invocation) : bool :=
  runs words i && (returncode i =? 0).

Definition done (words : list string) (tr : list invocation) : Prop :=
  Exists (fun j => succeeded words j = true) tr.

(** The commands that close a step of the create pipeline: the
    infra-apply command, the push of the inventory, and the two
    playbooks. *)
Definition milestone (k : nat) : list string :=
  match k with
  | 1%nat => ["terraform"; "apply"]
  | 2%nat => ["git"; "push"; "origin"; "simple"]
  | 3%nat => ["ansible-playbook"; "initial_setup.yml"]
  | 4%nat => ["ansible-playbook"; "web_setup.yml"]
  | _ => []
  end.

(** How many of them a command comes after: the database import after
    all four, the second playbook after three, the first playbook after
    two, the push of the inventory after one. *)
Definition level_needed (cmd : list string) : nat :=
  if starts_with ["ssh-import-db.sh"] cmd then 4%nat
  else if starts_with ["ansible-playbook"; "web_setup.yml"] cmd then 3%nat
  else if starts_with ["ansible-playbook"] cmd then 2%nat
  else if starts_with ["git"; "push"; "origin"; "simple"] cmd then 1%nat
  else 0%nat.

Definition reached (k : nat) (tr : list invocation) : Prop :=
  forall j, (1 <= j <= k)%nat -> done (milestone j) tr.

(** Every process of the trace was started after the commands it comes
    after had succeeded. *)
Definition in_order (tr : list invocation) : Prop :=
  forall pre i post, tr = (pre ++ i :: post)%list -> reached (level_needed (argv i)) pre.

Definition ordered {I : Type} (k : nat) (w : world I) : Prop :=
  in_order (trace w) /\ reached k (trace w).

(** No failure is forced on any process, and every path asked about is
    there. *)
Definition calm_outside (o : outside) : Prop :=
  (forall n, faults o n = 0) /\ (forall n, probes o n = true).

(** The run is in CI mode: [args.ci or bool(os.environ.get("CI"))]. *)
Definition ci_mode (arg_ci : bool) (o : outside) : bool :=
  arg_ci || negb (String.eqb (default "" (environ o !! "CI")) "").

(* ===================================================================== *)
(** ** More sample worlds *)

Module Cases.

(** A host list with one host under [all.hosts]. *)
Definition nested : Create.world :=
  boot Sample.calm
    (Sample.repo (Some ("all:" ++ PyStr.nl ++ "  hosts:" ++ PyStr.nl
                        ++ "    web1.aopstest.com:" ++ PyStr.nl))
                 (Some (YMap ∅))).

(** A host list that ends with the [hosts:] key and no newline. *)
Definition unclosed : Create.world :=
  boot Sample.calm
    (Sample.repo (Some ("all:" ++ PyStr.nl ++ "  hosts:")) (Some (YMap ∅))).

(** A contact file that lists another address for [t1.aopstest.com]
    and an address for another host. *)
Definition listed : Create.world :=
  boot Sample.calm
    (Sample.repo (Some ("hosts:" ++ PyStr.nl))
       (Some (YMap {[ "host_emails" :=
                        YMap {[ "t1.aopstest.com" := YStr "old@example.com";
                                "web1.aopstest.com" := YStr "ops@example.com" ]} ]}))).

(** A contact file with one other host, and an empty contact file, which
    loads as [None]. *)
Definition one_contact : Create.world :=
  boot Sample.calm
    (Sample.repo (Some ("hosts:" ++ PyStr.nl))
       (Some (YMap {[ "host_emails" :=
                        YMap {[ "web1.aopstest.com" := YStr "ops@example.com" ]} ]}))).

Definition empty_contacts : Create.world :=
  boot Sample.calm (Sample.repo (Some ("hosts:" ++ PyStr.nl)) (Some YNull)).

(** An outside where the variable [CI] is set to the word [false]. *)
Definition ci_env : outside :=
  {| environ := {[ "CI" := "false" ]}; home := "/home/ops"; script_dir := "/opt/corvid";
     uuid4_hex := "0123456789abcdef0123456789abcdef"; play_on_path := false;
     faults := fun _ => 0; probes := fun _ => true |}.

(** An outside with the API token set where the second process of the
    run, [terraform destroy] when both clones and the stack are there,
    exits with status 1. *)
Definition destroy_fails : outside :=
  {| environ := {[ "CLOUDFLARE_API_TOKEN" := "secret" ]}; home := "/home/ops";
     script_dir := "/opt/corvid";
     uuid4_hex := "0123456789abcdef0123456789abcdef"; play_on_path := false;
     faults := fun n => if Nat.eqb n 1 then 1 else 0; probes := fun _ => true |}.

(** An outside with the API token set where nothing fails. *)
Definition with_token : outside :=
  {| environ := {[ "CLOUDFLARE_API_TOKEN" := "secret" ]}; home := "/home/ops";
     script_dir := "/opt/corvid";
     uuid4_hex := "0123456789abcdef0123456789abcdef"; play_on_path := false;
     faults := fun _ => 0; probes := fun _ => true |}.

(** The working copy the destroy pipeline finds for the prefix [t1]
    when [ANSIBLE_CONFIG_ROOT] is not set, with the host in both
    files. *)
Definition cloned_with_t1 : Destroy.cfg_repo :=
  Sample.repo_at (PyPath.Path "/tmp/ansible-cfg-t1-01234567")
    (Some (YMap {[ "all" := YMap {[ "hosts" :=
                      YMap {[ "t1.aopstest.com" := YNull;
                              "web1.aopstest.com" := YNull ]} ]} ]}))
    (Some (YMap {[ "host_emails" :=
                     YMap {[ "t1.aopstest.com" := YStr "a@b.com";
                             "web1.aopstest.com" := YStr "ops@example.com" ]} ]})).

(** An outside where the first process of the run exits with status 2. *)
Definition query_fails : outside :=
  {| environ := ∅; home := "/home/ops"; script_dir := "/opt/corvid";
     uuid4_hex := "0123456789abcdef0123456789abcdef"; play_on_path := false;
     faults := fun n => if Nat.eqb n 0 then 2 else 0; probes := fun _ => true |}.

End Cases.

(* ===================================================================== *)
(** * Properties *)

(** ** Text *)

(** Let [simpl] compute the append of a text that starts with known
    characters. *)
Arguments String.append !_ _ : simpl nomatch.

Section TextFacts.

Import PyStr.

Lemma append_empty_r (s : string) : s ++ "" = s.
Proof. induction s as [|c s IH]; simpl; [reflexivity | now rewrite IH]. Qed.

Lemma append_assoc_s (a b c : string) : (a ++ b) ++ c = a ++ (b ++ c).
Proof. induction a as [|x a IH]; simpl; [reflexivity | now rewrite IH]. Qed.

Lemma length_append (a b : string) :
  String.length (a ++ b) = (String.length a + String.length b)%nat.
Proof. induction a as [|x a IH]; simpl; [reflexivity | now rewrite IH]. Qed.

Lemma join_cons (x : string) (xs : list string) : join (x :: xs) = x ++ join xs.
Proof.
  unfold join. destruct xs as [|y ys]; simpl.
  - now rewrite append_empty_r.
  - reflexivity.
Qed.

Lemma join_app (xs ys : list string) : join (xs ++ ys)%list = join xs ++ join ys.
Proof.
  induction xs as [|x xs IH].
  - reflexivity.
  - change ((x :: xs) ++ ys)%list with (x :: (xs ++ ys))%list.
    now rewrite !join_cons, IH, append_assoc_s.
Qed.

Lemma splitlines_nil : splitlines_keepends "" = [].
Proof. reflexivity. Qed.

Lemma splitlines_cons (c : ascii) (rest : string) :
  splitlines_keepends (String c rest) =
    if Ascii.eqb c CR then
      match rest with
      | String c2 rest' =>
          if Ascii.eqb c2 LF
          then String c (String c2 EmptyString) :: splitlines_keepends rest'
          else String c EmptyString :: splitlines_keepends rest
      | EmptyString => [String c EmptyString]
      end
    else if is_linebreak c then String c EmptyString :: splitlines_keepends rest
    else
      match splitlines_keepends rest with
      | [] => [String c EmptyString]
      | l :: ls => String c l :: ls
      end.
Proof. destruct rest; reflexivity. Qed.

(** Joining the lines that [splitlines(keepends=True)] returns gives
    the text back. *)
Lemma join_splitlines (s : string) : join (splitlines_keepends s) = s.
Proof.
  remember (String.length s) as n eqn:Hn.
  revert s Hn. induction n as [n IH] using lt_wf_ind. intros s Hn.
  destruct s as [|c rest]; [reflexivity|].
  rewrite splitlines_cons.
  assert (Hrest : join (splitlines_keepends rest) = rest).
  { apply (IH (String.length rest)); [subst n; simpl; lia | reflexivity]. }
  destruct (Ascii.eqb c CR).
  - destruct rest as [|c2 rest']; [reflexivity|].
    destruct (Ascii.eqb c2 LF).
    + rewrite join_cons. simpl. f_equal. f_equal.
      apply (IH (String.length rest')); [subst n; simpl; lia | reflexivity].
    + rewrite join_cons, Hrest. reflexivity.
  - destruct (is_linebreak c).
    + rewrite join_cons, Hrest. reflexivity.
    + destruct (splitlines_keepends rest) as [|l ls] eqn:E.
      * cbn in Hrest. now subst rest.
      * rewrite join_cons in *. simpl. now rewrite Hrest.
Qed.

Lemma prefix_append (sub post : string) : String.prefix sub (sub ++ post) = true.
Proof.
  induction sub as [|c sub IH]; simpl.
  - now destruct post.
  - destruct (Ascii.ascii_dec c c); [exact IH | congruence].
Qed.

Lemma prefix_weaken (sub a b : string) :
  String.prefix sub a = true -> String.prefix sub (a ++ b) = true.
Proof.
  revert a. induction sub as [|c sub IH]; intros a Ha; simpl.
  - now destruct (a ++ b).
  - destruct a as [|x a]; simpl in *; [discriminate|].
    destruct (Ascii.ascii_dec c x); [now apply IH | discriminate].
Qed.

Lemma contains_append_l (sub a b : string) :
  contains sub a = true -> contains sub (a ++ b) = true.
Proof.
  induction a as [|x a IH]; intros Ha.
  - simpl in Ha. rewrite orb_false_r in Ha.
    destruct sub; [|discriminate]. now destruct b.
  - cbn [contains] in Ha. apply orb_true_iff in Ha as [Ha|Ha].
    + change (String x a ++ b) with (String x (a ++ b)).
      cbn [contains]. apply orb_true_iff. left.
      now apply (prefix_weaken _ (String x a) b).
    + change (String x a ++ b) with (String x (a ++ b)).
      cbn [contains]. apply orb_true_iff. right. now apply IH.
Qed.

Lemma contains_append_r (sub a b : string) :
  contains sub b = true -> contains sub (a ++ b) = true.
Proof.
  intros Hb. induction a as [|x a IH]; [exact Hb|].
  change (String x a ++ b) with (String x (a ++ b)).
  cbn [contains]. apply orb_true_iff. now right.
Qed.

Lemma contains_unfold (sub s : string) :
  contains sub s =
    String.prefix sub s ||
    match s with
    | EmptyString => false
    | String _ s' => contains sub s'
    end.
Proof. destruct s; reflexivity. Qed.

Lemma contains_middle (sub pre post : string) :
  contains sub (pre ++ sub ++ post) = true.
Proof.
  apply contains_append_r. now rewrite contains_unfold, prefix_append.
Qed.

End TextFacts.

Example splitlines_crlf :
  PyStr.splitlines_keepends
    ("a" ++ String PyStr.CR PyStr.nl ++ "b" ++ PyStr.nl ++ String PyStr.CR "c")
  = ["a" ++ String PyStr.CR PyStr.nl; "b" ++ PyStr.nl; String PyStr.CR ""; "c"].
Proof. reflexivity. Qed.

Example splitlines_no_final_newline :
  PyStr.splitlines_keepends "hosts:" = ["hosts:"].
Proof. reflexivity. Qed.

Example strip_indented_key :
  PyStr.strip ("    hosts:  " ++ PyStr.nl) = "hosts:".
Proof. reflexivity. Qed.

Example isalnum_examples :
  PyStr.isalnum "t1" = true /\ PyStr.isalnum "" = false
  /\ PyStr.isalnum "a_b" = false /\ PyStr.isalnum "a b" = false.
Proof. repeat split. Qed.

Example path_join_example :
  PyPath.str (PyPath.Path "/tmp//x/./y/" // "stacks/accounts" // "h.aopstest.com")
  = "/tmp/x/y/stacks/accounts/h.aopstest.com".
Proof. reflexivity. Qed.

Example path_join_absolute :
  PyPath.str (PyPath.Path "/tmp/x" // "/etc.aopstest.com") = "/etc.aopstest.com".
Proof. reflexivity. Qed.

(** ** The text the create script splices into the host list *)

Section SpliceFacts.

Import PyStr.
Variable H : string.

Lemma splice_after_insert (out : list string) (line : string) :
  Create.splice H (out, true) line = ((out ++ [line])%list, true).
Proof. reflexivity. Qed.

Lemma fold_splice_inserted (lines out : list string) :
  fold_left (Create.splice H) lines (out, true) = ((out ++ lines)%list, true).
Proof.
  revert out. induction lines as [|l lines IH]; intros out.
  - simpl. now rewrite app_nil_r.
  - cbn [fold_left]. rewrite splice_after_insert, IH.
    now rewrite <- app_assoc.
Qed.

(** Without a line that strips to [hosts:] the loop copies its input. *)
Lemma fold_splice_none (lines out : list string) (inserted : bool) :
  Forall (fun l => strip l <> "hosts:") lines ->
  fold_left (Create.splice H) lines (out, inserted)
  = ((out ++ lines)%list, inserted).
Proof.
  intros Hall. revert out. induction Hall as [|l lines Hl _ IH]; intros out.
  - simpl. now rewrite app_nil_r.
  - cbn [fold_left]. unfold Create.splice at 2.
    apply String.eqb_neq in Hl. rewrite Hl, andb_false_r.
    rewrite IH. now rewrite <- app_assoc.
Qed.

(** Otherwise the output holds the new key line. *)
Lemma fold_splice_cases (lines out : list string) :
  Forall (fun l => strip l <> "hosts:") lines
  \/ exists pre indent post,
       fst (fold_left (Create.splice H) lines (out, false))
       = (pre ++ Create.key_line H indent :: post)%list.
Proof.
  revert out. induction lines as [|l lines IH]; intros out.
  - left. constructor.
  - destruct (String.eqb (strip l) "hosts:") eqn:E.
    + right. cbn [fold_left]. unfold Create.splice at 2. rewrite E. cbn [negb andb].
      rewrite fold_splice_inserted. cbn [fst].
      exists (out ++ [l])%list, (len l - len (lstrip l) + 2)%nat, lines.
      now rewrite <- app_assoc.
    + destruct (IH (out ++ [l])%list) as [Hall | (pre & n & post & Hfold)].
      * left. constructor; [now apply String.eqb_neq | exact Hall].
      * right. cbn [fold_left]. unfold Create.splice at 2.
        rewrite E, andb_false_r. eauto.
Qed.

Lemma spliced_text_without_hosts_key (text : string) :
  Forall (fun l => strip l <> "hosts:") (splitlines_keepends text) ->
  Create.spliced_text H text = text.
Proof.
  intros Hall. unfold Create.spliced_text.
  rewrite (fold_splice_none [] false Hall). cbn [fst app].
  apply join_splitlines.
Qed.

Lemma key_line_contains (indent : nat) : contains (H ++ ":") (Create.key_line H indent) = true.
Proof.
  unfold Create.key_line.
  replace (spaces indent ++ H ++ ":" ++ nl)
    with (spaces indent ++ (H ++ ":") ++ nl)
    by now rewrite (append_assoc_s H ":" nl).
  apply contains_middle.
Qed.

(** After the splice the presence test of [ensure_host] succeeds, or the
    text is the one that was read. *)
Lemma spliced_text_settled (text : string) :
  contains (H ++ ":") (Create.spliced_text H text) = true
  \/ Create.spliced_text H text = text.
Proof.
  destruct (fold_splice_cases (splitlines_keepends text) [])
    as [Hall | (pre & n & post & Hfold)].
  - right. now apply spliced_text_without_hosts_key.
  - left. unfold Create.spliced_text. rewrite Hfold.
    rewrite join_app, join_cons.
    apply contains_append_r, contains_append_l, key_line_contains.
Qed.

End SpliceFacts.

(** ** Running monadic code *)

Section MonadFacts.

Context {W A B : Type}.

Lemma bind_Return (m : M W A) (k : A -> M W B) w a w' :
  m w = (Return a, w') -> bind m k w = k a w'.
Proof. unfold bind. now intros ->. Qed.

Lemma bind_Raise (m : M W A) (k : A -> M W B) w e w' :
  m w = (Raise e, w') -> bind m k w = (Raise e, w').
Proof. unfold bind. now intros ->. Qed.

Lemma bind_SysExit (m : M W A) (k : A -> M W B) w c w' :
  m w = (SysExit c, w') -> bind m k w = (SysExit c, w').
Proof. unfold bind. now intros ->. Qed.

End MonadFacts.

Section PathFacts.

Import PyPath.

Lemma joinpath_inventory (r : path) :
  r // "inventory.yml" = {| anchor := anchor r; parts := parts r ++ ["inventory.yml"] |}.
Proof. reflexivity. Qed.

Lemma joinpath_emails (r : path) :
  r // "group_vars/all/emails.yml"
  = {| anchor := anchor r; parts := parts r ++ ["group_vars"; "all"; "emails.yml"] |}.
Proof. reflexivity. Qed.

Lemma joinpath_inventory_inj (r r' : path) :
  r // "inventory.yml" = r' // "inventory.yml" -> r = r'.
Proof.
  rewrite !joinpath_inventory. destruct r, r'; cbn. intros [= -> Hp].
  apply app_inv_tail in Hp. now subst.
Qed.

End PathFacts.

(** ** The world record *)

Section WorldFacts.

Context {I : Type}.

Lemma set_cfg_same (w : world I) : set_cfg (cfg w) w = w.
Proof. now destruct w. Qed.

Lemma set_inventory_same (c : cfg_repo I) t :
  inventory_yml c = t -> set_inventory t c = c.
Proof. destruct c; cbn; now intros ->. Qed.

Lemma set_emails_same (c : cfg_repo I) d :
  emails_yml c = d -> set_emails d c = c.
Proof. destruct c; cbn; now intros ->. Qed.

Lemma run_unfold (exec : tool I) cmd dir check debug :
  run exec cmd dir check debug =
    (r <- spawn exec cmd dir check ;;
     if check && negb (fst r =? 0) then
       stderr_print (complaint cmd) ;;;
       raise (CalledProcessError (fst r) cmd)
     else ret (fst r)).
Proof. now destruct debug. Qed.

End WorldFacts.

(** ** The inventory manager of the create script *)

Section CreateInventoryFacts.


Variables H E : string.

(** A manager set up on another directory than the working copy finds
    no host list. *)
Lemma ensure_host_elsewhere r (w : Create.world) :
  r <> root (cfg w) ->
  Create.ensure_host (Create.InventoryManager_init r) H E w
  = (Raise (FileNotFoundError (PyPath.str (r // "inventory.yml"))), w).
Proof.
  intros Hr. unfold Create.ensure_host. apply bind_Raise.
  unfold read_inventory. cbn [Create.inventory_file Create.InventoryManager_init].
  rewrite decide_False; [reflexivity|].
  intros Heq. apply Hr. now apply joinpath_inventory_inj.
Qed.

Lemma add_email_for_host_spec (w : Create.world) :
  Create.add_email_for_host (Create.InventoryManager_init (root (cfg w))) H E w =
    match emails_yml (cfg w) with
    | None =>
        (Raise (FileNotFoundError (PyPath.str (emails_path (cfg w)))), w)
    | Some d =>
        match Create.email_step H E d with
        | Return (true, d') =>
            (Return true, set_cfg (set_emails (Some d') (cfg w)) w)
        | Return (false, _) => (Return false, w)
        | Raise e => (Raise e, w)
        | SysExit c => (SysExit c, w)
        end
    end.
Proof.
  unfold Create.add_email_for_host, bind, safe_load, safe_dump, lift, ret.
  cbn [Create.emails_file Create.InventoryManager_init]. fold (emails_path (cfg w)).
  rewrite decide_True by reflexivity.
  destruct (emails_yml (cfg w)) as [d|]; [|reflexivity].
  destruct d as [| b | z | s | l | m]; cbn; try reflexivity.
  - destruct (PyStr.contains "host_emails" s); reflexivity.
  - destruct (existsb (PyYaml.is_str "host_emails") l); reflexivity.
  - destruct (m !! "host_emails") as [v|] eqn:Hsec; cbn.
    + rewrite Hsec.
      destruct v as [| b | z | s | l | hm]; cbn; try reflexivity.
      * destruct (PyStr.contains H s); reflexivity.
      * destruct (existsb (PyYaml.is_str H) l); reflexivity.
      * destruct (hm !! H) as [x|] eqn:Hx; cbn; [reflexivity|].
        rewrite decide_True by reflexivity. reflexivity.
    + rewrite lookup_insert_eq. cbn. rewrite lookup_empty. cbn.
      rewrite decide_True by reflexivity. now rewrite insert_insert_eq.
Qed.


Lemma inventory_part_spec (w : Create.world) :
  let self := Create.InventoryManager_init (root (cfg w)) in
  (inventory_lines <- read_inventory (Create.inventory_file self) ;;
   if negb (PyStr.contains (H ++ ":") inventory_lines)
   then Create.add_host_to_inventory self H
   else ret tt) w
  = match inventory_yml (cfg w) with
    | None => (Raise (FileNotFoundError (PyPath.str (inventory_path (cfg w)))), w)
    | Some t =>
        (Return tt, set_cfg (set_inventory (Some (Create.text_after H t)) (cfg w)) w)
    end.
Proof.
  cbn zeta. unfold Create.add_host_to_inventory, bind, read_inventory, write_inventory, ret.
  cbn [Create.inventory_file Create.InventoryManager_init]. fold (inventory_path (cfg w)).
  rewrite decide_True by reflexivity.
  destruct (inventory_yml (cfg w)) as [t|] eqn:Ht; [|reflexivity].
  unfold Create.text_after. destruct (PyStr.contains (H ++ ":") t); cbn [negb].
  - now rewrite set_inventory_same, set_cfg_same.
  - rewrite decide_True by reflexivity. rewrite Ht.
    now rewrite decide_True by reflexivity.
Qed.

(** [Create.ensure_host] is the inventory part, then the contact part, then the
    three git commands. *)
Lemma ensure_host_spec (w : Create.world) :
  let self := Create.InventoryManager_init (root (cfg w)) in
  Create.ensure_host self H E w =
    match inventory_yml (cfg w) with
    | None => (Raise (FileNotFoundError (PyPath.str (inventory_path (cfg w)))), w)
    | Some t =>
        let w1 := set_cfg (set_inventory (Some (Create.text_after H t)) (cfg w)) w in
        match emails_yml (cfg w) with
        | None => (Raise (FileNotFoundError (PyPath.str (emails_path (cfg w)))), w1)
        | Some d =>
            match Create.email_step H E d with
            | Return (true, d') =>
                Create.commit_and_push self H (set_cfg (set_emails (Some d') (cfg w1)) w1)
            | Return (false, _) => Create.commit_and_push self H w1
            | Raise e => (Raise e, w1)
            | SysExit c => (SysExit c, w1)
            end
        end
    end.
Proof.
  cbn zeta.
  set (self := Create.InventoryManager_init (root (cfg w))).
  assert (Hparts :
    Create.ensure_host self H E w =
      bind (inventory_lines <- read_inventory (Create.inventory_file self) ;;
            if negb (PyStr.contains (H ++ ":") inventory_lines)
            then Create.add_host_to_inventory self H
            else ret tt)
           (fun _ => bind (Create.add_email_for_host self H E)
                          (fun _ => Create.commit_and_push self H)) w).
  { unfold Create.ensure_host, Create.commit_and_push, bind.
    destruct (read_inventory _ w) as [[t|e|c] w0]; reflexivity. }
  rewrite Hparts. clear Hparts. unfold bind at 1.
  pose proof (inventory_part_spec w) as Hinv. cbn zeta in Hinv. fold self in Hinv.
  rewrite Hinv. clear Hinv.
  destruct (inventory_yml (cfg w)) as [t|]; [|reflexivity].
  set (w1 := set_cfg _ w).
  pose proof (add_email_for_host_spec w1) as Hmail.
  change (root (cfg w1)) with (root (cfg w)) in Hmail. fold self in Hmail.
  unfold bind at 1. rewrite Hmail. clear Hmail.
  change (emails_yml (cfg w1)) with (emails_yml (cfg w)).
  change (emails_path (cfg w1)) with (emails_path (cfg w)).
  destruct (emails_yml (cfg w)) as [d|]; [|reflexivity].
  destruct (Create.email_step H E d) as [[[|] d'] | e | c]; reflexivity.
Qed.

End CreateInventoryFacts.

(** ** The three git commands of [ensure_host] *)

Section CreateGitFacts.

Variable H : string.

Lemma commit_and_push_eval (w : Create.world) :
  let self := Create.InventoryManager_init (root (cfg w)) in
  let dir := Some (PyPath.str (root (cfg w))) in
  let add := ["git"; "add"; PyPath.str (Create.inventory_file self);
              PyPath.str (Create.emails_file self)] in
  let msg := "Add " ++ H ++ " to inventory and emails.yml" in
  let commit := ["git"; "commit"; "-m"; msg] in
  let push := ["git"; "push"; "origin"; "simple"] in
  Create.commit_and_push self H w =
    let f0 := faults (out w) (length (trace w)) in
    if f0 =? 0 then
      let c1 := staged (cfg w) in
      let w1 := logged (mkInvocation add dir true 0) c1 w in
      let f1 := faults (out w) (length (trace w1)) in
      let r := if f1 =? 0
               then if decide (index c1 = head c1) then (1, c1)
                    else (0, committed msg c1)
               else (f1, c1) in
      let w2 := logged (mkInvocation commit dir false (fst r)) (snd r) w1 in
      let f2 := faults (out w) (length (trace w2)) in
      if f2 =? 0 then
        (Return PyNone, logged (mkInvocation push dir true 0) (snd r) w2)
      else
        (Raise (CalledProcessError f2 push),
         complained (complaint push)
           (logged (mkInvocation push dir true f2) (snd r) w2))
    else
      (Raise (CalledProcessError f0 add),
       complained (complaint add)
         (logged (mkInvocation add dir true f0) (cfg w) w)).
Proof.
  destruct w as [o dbg pr [rt inv em idx hd cm] tr err pm].
  cbn zeta.
  unfold Create.commit_and_push, Create.run, run, bind, get_debug, spawn,
    stderr_print, raise, ret, Create.exec, git.
  cbn [cfg root out trace DEBUG_MODE Create.ansible_config_root
       Create.inventory_file Create.emails_file Create.InventoryManager_init].
  destruct dbg.
  all: cbn [cfg root out trace DEBUG_MODE].
  all: destruct (faults o (length tr) =? 0) eqn:F0;
    [ rewrite decide_True by reflexivity
    | cbn [fst snd andb negb]; rewrite F0; reflexivity ].
  all: cbn [fst snd andb negb Z.eqb logged cfg out trace root staged index head].
  all: destruct (faults o (length (tr ++ [_])) =? 0) eqn:F1.
  all: try (rewrite decide_True by reflexivity).
  all: try destruct (decide (working_files _ = hd)).
  all: cbn [fst snd andb negb Z.eqb logged cfg out trace root staged index head committed].
  all: destruct (faults o (length ((tr ++ [_]) ++ [_])) =? 0) eqn:F2.
  all: try (rewrite decide_True by reflexivity).
  all: cbn [fst snd andb negb Z.eqb]; try (rewrite F2); reflexivity.
Qed.

End CreateGitFacts.

Section CreateGitConsequences.

Variable H : string.

Ltac git_cases w :=
  rewrite (commit_and_push_eval H w); cbn zeta;
  destruct (faults (out w) (length (trace w)) =? 0) eqn:F0; [|cbn];
  [ destruct (faults (out w) (length (trace (logged _ (staged (cfg w)) w))) =? 0) eqn:F1;
    [ destruct (decide (index (staged (cfg w)) = head (staged (cfg w)))) as [Hclean|Hdirty] | ];
    cbn [fst snd];
    match goal with
    | |- context [faults ?o (length (trace (logged ?i ?c (logged ?j ?d w)))) =? 0] =>
        destruct (faults o (length (trace (logged i c (logged j d w)))) =? 0) eqn:F2
    end; cbn
  | ].

(** The git commands leave the two files alone. *)
Lemma commit_and_push_files (w : Create.world) :
  let w' := snd (Create.commit_and_push (Create.InventoryManager_init (root (cfg w))) H w) in
  root (cfg w') = root (cfg w)
  /\ inventory_yml (cfg w') = inventory_yml (cfg w)
  /\ emails_yml (cfg w') = emails_yml (cfg w).
Proof. cbn zeta. git_cases w; auto. Qed.

(** With nothing changed since the last commit, no commit is made. *)
Lemma commit_and_push_nothing_new (w : Create.world) :
  head (cfg w) = working_files (cfg w) ->
  commits (cfg (snd (Create.commit_and_push
                       (Create.InventoryManager_init (root (cfg w))) H w)))
  = commits (cfg w).
Proof.
  intros Hhead. git_cases w; auto.
  all: exfalso; apply Hdirty; cbn; now rewrite Hhead.
Qed.

(** After the three commands went through, with the commit not made to
    fail from outside, the last commit holds the files as they are. *)
Lemma commit_and_push_settles (w : Create.world) :
  let res := Create.commit_and_push (Create.InventoryManager_init (root (cfg w))) H w in
  fst res = Return PyNone ->
  faults (out w) (S (length (trace w))) = 0 ->
  head (cfg (snd res)) = working_files (cfg (snd res)).
Proof.
  cbn zeta. intros Hres Hcommit. revert Hres.
  git_cases w; intros Hres; try discriminate Hres.
  - symmetry. exact Hclean.
  - reflexivity.
  - exfalso. revert F1. cbn [logged trace]. rewrite length_app. cbn [length].
    rewrite Nat.add_1_r, Hcommit. discriminate.
Qed.

End CreateGitConsequences.

(** ** [ensure_host] on the two files *)

Section CreateEnsureFiles.

Variables H E : string.

Lemma text_after_again (t : string) :
  Create.text_after H (Create.text_after H t) = Create.text_after H t.
Proof.
  assert (Hyes : forall u, PyStr.contains (H ++ ":") u = true -> Create.text_after H u = u).
  { intros u Hu. unfold Create.text_after. now rewrite Hu. }
  destruct (PyStr.contains (H ++ ":") t) eqn:Hin.
  - now rewrite !(Hyes t Hin).
  - assert (Hno : Create.text_after H t = Create.spliced_text H t).
    { unfold Create.text_after. now rewrite Hin. }
    rewrite Hno.
    destruct (spliced_text_settled H t) as [Hnow | Hsame].
    + now apply Hyes.
    + rewrite Hsame, Hno. exact Hsame.
Qed.

Lemma email_step_unchanged (d d0 : yaml) :
  Create.email_step H E d = Return (false, d0) -> d0 = d.
Proof.
  unfold Create.email_step.
  destruct d as [| b | z | s | l | m]; try discriminate.
  destruct (m !! "host_emails") as [[| b | z | s | l | hm]|]; cbn; try discriminate.
  - destruct (PyStr.contains H s); [now intros [= <-] | discriminate].
  - destruct (existsb _ l); [now intros [= <-] | discriminate].
  - destruct (bool_decide _); [now intros [= <-] | discriminate].
Qed.

Lemma email_step_again (d d' : yaml) :
  Create.email_step H E d = Return (true, d') ->
  Create.email_step H E d' = Return (false, d').
Proof.
  unfold Create.email_step at 1.
  destruct d as [| b | z | s | l | m]; try discriminate.
  destruct (m !! "host_emails") as [[| b | z | s | l | hm]|]; cbn; try discriminate.
  - destruct (PyStr.contains H s); discriminate.
  - destruct (existsb _ l); discriminate.
  - destruct (bool_decide _); [discriminate|]. intros [= <-].
    unfold Create.email_step. rewrite lookup_insert_eq.
    rewrite bool_decide_eq_true_2; [reflexivity|].
    rewrite lookup_insert_eq. eauto.
  - intros [= <-].
    unfold Create.email_step. rewrite lookup_insert_eq.
    rewrite bool_decide_eq_true_2; [reflexivity|].
    rewrite lookup_insert_eq. eauto.
Qed.

(** The contact document [ensure_host] leaves for the one it found. *)
Lemma ensure_host_files (w : Create.world) :
  let w' := snd (Create.ensure_host (Create.InventoryManager_init (root (cfg w))) H E w) in
  root (cfg w') = root (cfg w)
  /\ inventory_yml (cfg w') = option_map (Create.text_after H) (inventory_yml (cfg w))
  /\ emails_yml (cfg w') =
       match inventory_yml (cfg w), emails_yml (cfg w) with
       | Some _, Some d =>
           Some match Create.email_step H E d with
                | Return (true, d') => d'
                | _ => d
                end
       | _, e => e
       end.
Proof.
  cbn zeta. rewrite ensure_host_spec. cbn zeta.
  destruct (inventory_yml (cfg w)) as [t|] eqn:Hinv; [|now rewrite ?Hinv].
  destruct (emails_yml (cfg w)) as [d|] eqn:Hmail; [|now cbn].
  destruct (Create.email_step H E d) as [[[|] d'] | e | c]; cbn [snd]; try (now cbn).
  - match goal with |- context [Create.commit_and_push _ H ?w2] =>
      pose proof (commit_and_push_files H w2) as (Hr & Hi & He) end.
    cbn zeta in *. cbn [cfg set_cfg set_emails set_inventory root] in Hr, Hi, He.
    cbn [cfg set_cfg set_emails set_inventory root].
    rewrite Hr, Hi, He. cbn. auto.
  - match goal with |- context [Create.commit_and_push _ H ?w2] =>
      pose proof (commit_and_push_files H w2) as (Hr & Hi & He) end.
    cbn zeta in *. cbn [cfg set_cfg set_emails set_inventory root] in Hr, Hi, He.
    rewrite Hr, Hi, He. cbn. rewrite Hmail. auto.
Qed.

End CreateEnsureFiles.

Section CreateEnsureTwice.

Variables H E : string.

(** With the host in both files, [ensure_host] only runs the git
    commands. *)
Lemma ensure_host_settled (w : Create.world) (t : string) (d d0 : yaml) :
  inventory_yml (cfg w) = Some t ->
  Create.text_after H t = t ->
  emails_yml (cfg w) = Some d ->
  Create.email_step H E d = Return (false, d0) ->
  Create.ensure_host (Create.InventoryManager_init (root (cfg w))) H E w
  = Create.commit_and_push (Create.InventoryManager_init (root (cfg w))) H w.
Proof.
  intros Hinv Ht Hmail Hstep. rewrite ensure_host_spec. cbn zeta.
  rewrite Hinv, Hmail, Hstep, Ht.
  now rewrite (set_inventory_same _ Hinv), set_cfg_same.
Qed.

(** A call that returns leaves through the git commands, run on the
    world with both files brought up to date. *)
Lemma ensure_host_returns (w : Create.world) (v : pyvalue) :
  fst (Create.ensure_host (Create.InventoryManager_init (root (cfg w))) H E w) = Return v ->
  exists w2 : Create.world,
    Create.ensure_host (Create.InventoryManager_init (root (cfg w))) H E w
    = Create.commit_and_push (Create.InventoryManager_init (root (cfg w2))) H w2
    /\ out w2 = out w /\ trace w2 = trace w /\ root (cfg w2) = root (cfg w)
    /\ exists t d, inventory_yml (cfg w2) = Some t /\ Create.text_after H t = t
         /\ emails_yml (cfg w2) = Some d
         /\ Create.email_step H E d = Return (false, d).
Proof.
  rewrite ensure_host_spec. cbn zeta.
  destruct (inventory_yml (cfg w)) as [t|] eqn:Hinv; [|discriminate].
  destruct (emails_yml (cfg w)) as [d|] eqn:Hmail; [|discriminate].
  destruct (Create.email_step H E d) as [[[|] d'] | e | c] eqn:Hstep;
    try discriminate; intros _.
  - match goal with |- context [Create.commit_and_push _ H ?w2 = _] => exists w2 end.
    split; [reflexivity|]. cbn. repeat split.
    exists (Create.text_after H t), d'. repeat split.
    + apply text_after_again.
    + exact (email_step_again _ _ _ Hstep).
  - match goal with |- context [Create.commit_and_push _ H ?w2 = _] => exists w2 end.
    split; [reflexivity|]. cbn. repeat split.
    exists (Create.text_after H t), d. repeat split.
    + apply text_after_again.
    + exact Hmail.
    + rewrite Hstep. f_equal. f_equal. exact (email_step_unchanged _ _ _ Hstep).
Qed.

(** A second call right after a first one leaves both files as the
    first call left them. *)
Lemma ensure_host_again_files (r : PyPath.path) (w : Create.world) :
  let self := Create.InventoryManager_init r in
  let first := Create.ensure_host self H E w in
  let second := Create.ensure_host self H E (snd first) in
  inventory_yml (cfg (snd second)) = inventory_yml (cfg (snd first))
  /\ emails_yml (cfg (snd second)) = emails_yml (cfg (snd first)).
Proof.
  cbn zeta. destruct (decide (r = root (cfg w))) as [-> | Helse].
  2:{ rewrite (ensure_host_elsewhere H E w Helse). cbn [fst snd].
      rewrite (ensure_host_elsewhere H E w Helse). cbn [fst snd].
      split; reflexivity. }
  set (first := Create.ensure_host _ H E w).
  pose proof (ensure_host_files H E w) as (Hr & Hi & He).
  cbn zeta in Hr, Hi, He. fold first in Hr, Hi, He.
  rewrite <- Hr.
  pose proof (ensure_host_files H E (snd first)) as (_ & Hi2 & He2).
  cbn zeta in Hi2, He2. rewrite Hi2, He2, Hi, He. clear.
  destruct (inventory_yml (cfg w)) as [t|]; cbn [option_map].
  - split; [now rewrite text_after_again|].
    destruct (emails_yml (cfg w)) as [d|]; [|reflexivity].
    f_equal.
    destruct (Create.email_step H E d) as [[[|] d'] | e | c] eqn:Hstep;
      try now rewrite Hstep.
    now rewrite (email_step_again _ _ _ Hstep).
  - split; reflexivity.
Qed.

(** When the first call returned and its commit was not made to fail
    from outside, the commit of the second call finds nothing to record. *)
Lemma ensure_host_again_commits (r : PyPath.path) (w : Create.world) :
  let self := Create.InventoryManager_init r in
  let first := Create.ensure_host self H E w in
  let second := Create.ensure_host self H E (snd first) in
  fst first = Return PyNone ->
  faults (out w) (S (length (trace w))) = 0 ->
  commits (cfg (snd second)) = commits (cfg (snd first)).
Proof.
  cbn zeta. destruct (decide (r = root (cfg w))) as [-> | Helse].
  2:{ rewrite (ensure_host_elsewhere H E w Helse). discriminate. }
  set (first := Create.ensure_host _ H E w).
  pose proof (ensure_host_files H E w) as (Hr & _).
  cbn zeta in Hr. fold first in Hr. rewrite <- Hr.
  intros Hret Hfault.
  destruct (ensure_host_returns w Hret)
    as (w2 & Hrun & Hout & Htrace & Hroot & t & d & Hinv2 & Ht & Hmail2 & Hstep).
  fold first in Hrun.
  pose proof (commit_and_push_files H w2) as (Hr3 & Hi3 & He3).
  cbn zeta in Hr3, Hi3, He3. rewrite <- Hrun in Hr3, Hi3, He3.
  rewrite Hinv2 in Hi3. rewrite Hmail2 in He3.
  rewrite (ensure_host_settled _ Hi3 Ht He3 Hstep).
  apply commit_and_push_nothing_new.
  rewrite Hrun.
  apply commit_and_push_settles.
  - rewrite <- Hrun. exact Hret.
  - now rewrite Hout, Htrace.
Qed.

End CreateEnsureTwice.


Section CreateGitTrace.

Variable H : string.

(** The processes the git part starts: [git add], and after it went
    through [git commit] and [git push]. *)
Lemma commit_and_push_trace (w : Create.world) :
  let self := Create.InventoryManager_init (root (cfg w)) in
  let res := Create.commit_and_push self H w in
  let add := ["git"; "add"; PyPath.str (Create.inventory_file self);
              PyPath.str (Create.emails_file self)] in
  let commit := ["git"; "commit"; "-m"; "Add " ++ H ++ " to inventory and emails.yml"] in
  let push := ["git"; "push"; "origin"; "simple"] in
  exists new,
    trace (snd res) = (trace w ++ new)%list
    /\ (map argv new = [add] \/ map argv new = [add; commit; push])
    /\ (faults (out w) (length (trace w)) = 0 -> map argv new = [add; commit; push]).
Proof.
  cbn zeta. rewrite (commit_and_push_eval H w). cbn zeta.
  destruct (faults (out w) (length (trace w)) =? 0) eqn:F0.
  - repeat match goal with
           | |- context [faults ?o ?n =? 0] => destruct (faults o n =? 0)
           | |- context [decide ?P] => destruct (decide P)
           end.
    all: eexists; cbn [snd fst complained logged trace];
      rewrite <- !app_assoc; cbn [app];
      (split; [reflexivity|]); (split; [now right | now intros _]).
  - eexists. cbn [snd complained logged trace]. split; [reflexivity|].
    split; [now left|]. intros Hzero. rewrite Hzero in F0. discriminate.
Qed.

End CreateGitTrace.

(* ===================================================================== *)
(** * The claims *)









(** ** The yq expressions of the destroy script *)

Section YqFacts.

Lemma drop_prefix_append (pre s : string) : Yq.drop_prefix pre (pre ++ s) = Some s.
Proof.
  induction pre as [|c pre IH]; [now destruct s|].
  cbn. now rewrite Ascii.eqb_refl.
Qed.

Lemma drop_suffix_unfold (suf s : string) :
  Yq.drop_suffix suf s =
    if String.eqb s suf then Some EmptyString
    else
      match s with
      | EmptyString => None
      | String c s' => option_map (String c) (Yq.drop_suffix suf s')
      end.
Proof. destruct s; reflexivity. Qed.

Lemma drop_suffix_append (suf key : string) :
  Yq.drop_suffix suf (key ++ suf) = Some key.
Proof.
  induction key as [|c key IH].
  - cbn [String.append]. rewrite drop_suffix_unfold. now rewrite String.eqb_refl.
  - change (String c key ++ suf) with (String c (key ++ suf)).
    rewrite drop_suffix_unfold.
    destruct (String.eqb (String c (key ++ suf)) suf) eqn:Heq.
    + apply String.eqb_eq in Heq. apply (f_equal String.length) in Heq.
      cbn in Heq. rewrite length_append in Heq. lia.
    + now rewrite IH.
Qed.

Lemma between_built (opening closing key : string) :
  Yq.plain key = true ->
  Yq.between opening closing (opening ++ key ++ closing) = Some key.
Proof.
  intros Hplain. unfold Yq.between.
  now rewrite drop_prefix_append, drop_suffix_append, Hplain.
Qed.

Variable key : string.
Hypothesis key_plain : Yq.plain key = true.

Lemma parse_has_hosts :
  Yq.parse (Yq.has_expr ".all.hosts" key) = Some (Yq.Has ["all"; "hosts"] key).
Proof.
  unfold Yq.parse.
  change (Yq.has_expr ".all.hosts" key)
    with ((".all.hosts | has(" ++ Yq.DQ) ++ key ++ (Yq.DQ ++ ")")).
  now rewrite between_built.
Qed.

Lemma parse_has_emails :
  Yq.parse (Yq.has_expr ".host_emails" key) = Some (Yq.Has ["host_emails"] key).
Proof.
  unfold Yq.parse.
  assert (Hfirst : Yq.between (".all.hosts | has(" ++ Yq.DQ) (Yq.DQ ++ ")")
                     (Yq.has_expr ".host_emails" key) = None) by reflexivity.
  rewrite Hfirst.
  change (Yq.has_expr ".host_emails" key)
    with ((".host_emails | has(" ++ Yq.DQ) ++ key ++ (Yq.DQ ++ ")")).
  now rewrite between_built.
Qed.

Lemma parse_del_hosts :
  Yq.parse (Yq.del_expr ".all.hosts" key) = Some (Yq.Del ["all"; "hosts"] key).
Proof.
  unfold Yq.parse.
  assert (H1 : Yq.between (".all.hosts | has(" ++ Yq.DQ) (Yq.DQ ++ ")")
                 (Yq.del_expr ".all.hosts" key) = None) by reflexivity.
  assert (H2 : Yq.between (".host_emails | has(" ++ Yq.DQ) (Yq.DQ ++ ")")
                 (Yq.del_expr ".all.hosts" key) = None) by reflexivity.
  rewrite H1, H2.
  change (Yq.del_expr ".all.hosts" key)
    with (("del(.all.hosts." ++ Yq.DQ) ++ key ++ (Yq.DQ ++ ")")).
  now rewrite between_built.
Qed.

Lemma parse_del_emails :
  Yq.parse (Yq.del_expr ".host_emails" key) = Some (Yq.Del ["host_emails"] key).
Proof.
  unfold Yq.parse.
  assert (H1 : Yq.between (".all.hosts | has(" ++ Yq.DQ) (Yq.DQ ++ ")")
                 (Yq.del_expr ".host_emails" key) = None) by reflexivity.
  assert (H2 : Yq.between (".host_emails | has(" ++ Yq.DQ) (Yq.DQ ++ ")")
                 (Yq.del_expr ".host_emails" key) = None) by reflexivity.
  assert (H3 : Yq.between ("del(.all.hosts." ++ Yq.DQ) (Yq.DQ ++ ")")
                 (Yq.del_expr ".host_emails" key) = None) by reflexivity.
  rewrite H1, H2, H3.
  change (Yq.del_expr ".host_emails" key)
    with (("del(.host_emails." ++ Yq.DQ) ++ key ++ (Yq.DQ ++ ")")).
  now rewrite between_built.
Qed.

(** What [has] prints holds [true] exactly for a key of the section. *)
Lemma eval_has_true (d : yaml) (section : list string) :
  PyStr.contains "true" (snd (Yq.eval_has d section key))
  = Yq.section_has d section key.
Proof.
  unfold Yq.eval_has, Yq.section_has.
  destruct (Yq.descend d section) as [[| | | | | m]|]; try reflexivity.
  destruct (bool_decide (is_Some (m !! key))); reflexivity.
Qed.

(** After [del] the section no longer has the key. *)
Lemma section_has_eval_del (section : list string) (d : yaml) :
  Yq.section_has (Yq.eval_del d section key) section key = false.
Proof.
  unfold Yq.section_has. revert d.
  induction section as [|k ks IH]; intros d.
  - cbn. destruct d as [| | | | | m]; try reflexivity.
    rewrite lookup_delete_eq. reflexivity.
  - cbn [Yq.eval_del]. destruct d as [| | | | | m]; try reflexivity.
    destruct (m !! k) as [v|] eqn:Hk.
    + cbn [Yq.descend]. rewrite lookup_insert_eq. apply IH.
    + cbn [Yq.descend]. rewrite Hk. reflexivity.
Qed.

End YqFacts.

Section PathStrings.

Import PyPath.

Lemma append_inj_l (a x y : string) : a ++ x = a ++ y -> x = y.
Proof.
  induction a as [|c a IH]; cbn; [trivial|]. intros [= Heq]. now apply IH.
Qed.

Lemma join_with_cons (sep x y : string) (l : list string) :
  PyStr.join_with sep (x :: y :: l) = x ++ sep ++ PyStr.join_with sep (y :: l).
Proof. reflexivity. Qed.

Lemma join_with_tail_differs (ps l1 l2 : list string) :
  l1 <> [] -> l2 <> [] ->
  PyStr.join_with "/" l1 <> PyStr.join_with "/" l2 ->
  PyStr.join_with "/" (ps ++ l1) <> PyStr.join_with "/" (ps ++ l2).
Proof.
  intros H1 H2 Hdiff. induction ps as [|p ps IH]; [exact Hdiff|].
  cbn [app].
  destruct (ps ++ l1)%list as [|a1 t1] eqn:E1.
  { destruct ps; [now destruct l1 | discriminate]. }
  destruct (ps ++ l2)%list as [|a2 t2] eqn:E2.
  { destruct ps; [now destruct l2 | discriminate]. }
  rewrite !join_with_cons. intros Heq. apply append_inj_l in Heq.
  apply IH. cbn in Heq. now injection Heq.
Qed.

Lemma str_with_parts (a : string) (ps : list string) :
  ps <> [] -> str (mkPath a ps) = a ++ PyStr.join_with "/" ps.
Proof.
  intros Hps. destruct ps as [|p ps]; [congruence|]. now destruct a.
Qed.

(** The two files of a working copy have different names. *)
Lemma emails_is_not_inventory (r : path) :
  String.eqb (str (r // "group_vars/all/emails.yml")) (str (r // "inventory.yml"))
  = false.
Proof.
  apply String.eqb_neq. rewrite joinpath_inventory, joinpath_emails.
  rewrite !str_with_parts by (now destruct (parts r)).
  intros Heq. apply append_inj_l in Heq. revert Heq.
  apply join_with_tail_differs; discriminate.
Qed.

End PathStrings.

(** ** One external command *)

Section RunFacts.

Context {I : Type}.
Variable exec : tool I.

Lemma spawn_eval cmd dir check (w : world I) :
  spawn exec cmd dir check w =
    let forced := faults (out w) (length (trace w)) in
    let r := if forced =? 0 then exec cmd dir (cfg w) else (forced, "", cfg w) in
    (Return (fst r), logged (mkInvocation cmd dir check (fst (fst r))) (snd r) w).
Proof.
  unfold spawn. cbn zeta.
  now destruct (if faults (out w) (length (trace w)) =? 0 then _ else _)
    as [[rc text] c].
Qed.

Lemma run_eval cmd dir check debug (w : world I) :
  run exec cmd dir check debug w =
    let forced := faults (out w) (length (trace w)) in
    let r := if forced =? 0 then exec cmd dir (cfg w) else (forced, "", cfg w) in
    let rc := fst (fst r) in
    let w' := logged (mkInvocation cmd dir check rc) (snd r) w in
    if check && negb (rc =? 0) then
      (Raise (CalledProcessError rc cmd), complained (complaint cmd) w')
    else (Return rc, w').
Proof.
  rewrite run_unfold. unfold bind. rewrite spawn_eval. cbn zeta.
  destruct (if faults (out w) (length (trace w)) =? 0 then _ else _)
    as [[rc text] c].
  cbn [fst snd]. destruct (check && negb (rc =? 0)); reflexivity.
Qed.

Lemma file_exists_inventory (w : world I) :
  file_exists (inventory_path (cfg w)) w
  = (Return (bool_decide (is_Some (inventory_yml (cfg w)))), w).
Proof. unfold file_exists. now rewrite decide_True. Qed.

Lemma file_exists_emails (w : world I) :
  file_exists (emails_path (cfg w)) w
  = (Return (bool_decide (is_Some (emails_yml (cfg w)))), w).
Proof.
  unfold file_exists. rewrite decide_False.
  - now rewrite decide_True.
  - unfold emails_path, inventory_path.
    rewrite joinpath_inventory, joinpath_emails. intros [= Heq].
    apply app_inv_head in Heq. discriminate.
Qed.

Lemma emails_path_is_not_inventory_path (c : cfg_repo I) :
  String.eqb (PyPath.str (emails_path c)) (PyPath.str (inventory_path c)) = false.
Proof. apply emails_is_not_inventory. Qed.

End RunFacts.

(** ** The inventory manager of the destroy script *)

Section DestroyToolFacts.

Variable key : string.
Hypothesis key_plain : Yq.plain key = true.

Lemma exec_has_hosts (c : Destroy.cfg_repo) (d : yaml) :
  inventory_yml c = Some d ->
  Destroy.exec ["yq"; "eval"; Yq.has_expr ".all.hosts" key;
                PyPath.str (inventory_path c)] None c
  = (Yq.eval_has d ["all"; "hosts"] key, c).
Proof.
  intros Hd. unfold Destroy.exec, Yq.yq.
  rewrite String.eqb_refl, Hd, parse_has_hosts by assumption.
  repeat match goal with
         | |- context [match ?x with _ => _ end] => destruct x; try reflexivity
         end.
Qed.

Lemma exec_del_hosts (c : Destroy.cfg_repo) (d : yaml) :
  inventory_yml c = Some d ->
  Destroy.exec ["yq"; "eval"; Yq.del_expr ".all.hosts" key; "-i";
                PyPath.str (inventory_path c)] None c
  = (0, "", set_inventory (Some (Yq.eval_del d ["all"; "hosts"] key)) c).
Proof.
  intros Hd. unfold Destroy.exec, Yq.yq.
  now rewrite parse_del_hosts, String.eqb_refl, Hd by assumption.
Qed.

Lemma exec_has_emails (c : Destroy.cfg_repo) (d : yaml) :
  emails_yml c = Some d ->
  Destroy.exec ["yq"; "eval"; Yq.has_expr ".host_emails" key;
                PyPath.str (emails_path c)] None c
  = (Yq.eval_has d ["host_emails"] key, c).
Proof.
  intros Hd. unfold Destroy.exec, Yq.yq.
  rewrite emails_path_is_not_inventory_path.
  rewrite String.eqb_refl, Hd, parse_has_emails by assumption.
  repeat match goal with
         | |- context [match ?x with _ => _ end] => destruct x; try reflexivity
         end.
Qed.

Lemma exec_del_emails (c : Destroy.cfg_repo) (d : yaml) :
  emails_yml c = Some d ->
  Destroy.exec ["yq"; "eval"; Yq.del_expr ".host_emails" key; "-i";
                PyPath.str (emails_path c)] None c
  = (0, "", set_emails (Some (Yq.eval_del d ["host_emails"] key)) c).
Proof.
  intros Hd. unfold Destroy.exec, Yq.yq. rewrite parse_del_emails by assumption.
  rewrite emails_path_is_not_inventory_path.
  now rewrite String.eqb_refl, Hd.
Qed.

End DestroyToolFacts.

Section DestroyInventoryFacts.

Variable key : string.
Hypothesis key_plain : Yq.plain key = true.

Lemma remove_host_from_inventory_eval (w : Destroy.world) :
  let self := Destroy.InventoryManager_init (root (cfg w)) in
  let file := PyPath.str (Destroy.inventory_file self) in
  let query := ["yq"; "eval"; Yq.has_expr ".all.hosts" key; file] in
  let del := ["yq"; "eval"; Yq.del_expr ".all.hosts" key; "-i"; file] in
  Destroy.remove_host_from_inventory self key w =
    match inventory_yml (cfg w) with
    | None => (Return false, w)
    | Some d =>
        let f0 := faults (out w) (length (trace w)) in
        let ans := if f0 =? 0 then Yq.eval_has d ["all"; "hosts"] key else (f0, "") in
        let w1 := logged (mkInvocation query None false (fst ans)) (cfg w) w in
        if PyStr.contains "true" (snd ans) then
          let f1 := faults (out w) (length (trace w1)) in
          if f1 =? 0 then
            (Return true,
             logged (mkInvocation del None true 0)
               (set_inventory (Some (Yq.eval_del d ["all"; "hosts"] key)) (cfg w)) w1)
          else
            (Raise (CalledProcessError f1 del),
             complained (complaint del)
               (logged (mkInvocation del None true f1) (cfg w) w1))
        else (Return false, w1)
    end.
Proof.
  cbn zeta. unfold Destroy.remove_host_from_inventory.
  cbn [Destroy.inventory_file Destroy.InventoryManager_init].
  fold (inventory_path (cfg w)).
  unfold bind at 1. rewrite file_exists_inventory.
  destruct (inventory_yml (cfg w)) as [d|] eqn:Hd.
  2:{ rewrite bool_decide_eq_false_2; [reflexivity|]. now intros [x Hx]. }
  rewrite bool_decide_eq_true_2 by eauto. cbn [negb].
  unfold bind at 1. unfold Destroy.subprocess_run.
  unfold bind at 1. rewrite spawn_eval. cbn zeta.
  destruct (faults (out w) (length (trace w)) =? 0) eqn:F0.
  - erewrite exec_has_hosts by eassumption. cbn [fst snd ret].
    destruct (PyStr.contains "true" (snd (Yq.eval_has d ["all"; "hosts"] key))); [|reflexivity].
    unfold bind at 1. unfold get_debug at 1. cbn [fst snd].
    unfold bind at 1. unfold Destroy.run. rewrite run_eval. cbn zeta.
    cbn [logged out trace cfg].
    destruct (faults (out w) (length (trace w ++ [_])) =? 0) eqn:F1.
    + erewrite exec_del_hosts by eassumption. cbn [fst snd andb negb Z.eqb ret].
      reflexivity.
    + cbn [fst snd andb negb]. rewrite F1. reflexivity.
  - cbn [fst snd ret]. reflexivity.
Qed.

Lemma remove_email_for_host_eval (w : Destroy.world) :
  let self := Destroy.InventoryManager_init (root (cfg w)) in
  let file := PyPath.str (Destroy.emails_file self) in
  let query := ["yq"; "eval"; Yq.has_expr ".host_emails" key; file] in
  let del := ["yq"; "eval"; Yq.del_expr ".host_emails" key; "-i"; file] in
  Destroy.remove_email_for_host self key w =
    match emails_yml (cfg w) with
    | None => (Return false, w)
    | Some d =>
        let f0 := faults (out w) (length (trace w)) in
        let ans := if f0 =? 0 then Yq.eval_has d ["host_emails"] key else (f0, "") in
        let w1 := logged (mkInvocation query None false (fst ans)) (cfg w) w in
        if PyStr.contains "true" (snd ans) then
          let f1 := faults (out w) (length (trace w1)) in
          if f1 =? 0 then
            (Return true,
             logged (mkInvocation del None true 0)
               (set_emails (Some (Yq.eval_del d ["host_emails"] key)) (cfg w)) w1)
          else
            (Raise (CalledProcessError f1 del),
             complained (complaint del)
               (logged (mkInvocation del None true f1) (cfg w) w1))
        else (Return false, w1)
    end.
Proof.
  cbn zeta. unfold Destroy.remove_email_for_host.
  cbn [Destroy.emails_file Destroy.InventoryManager_init].
  fold (emails_path (cfg w)).
  unfold bind at 1. rewrite file_exists_emails.
  destruct (emails_yml (cfg w)) as [d|] eqn:Hd.
  2:{ rewrite bool_decide_eq_false_2; [reflexivity|]. now intros [x Hx]. }
  rewrite bool_decide_eq_true_2 by eauto. cbn [negb].
  unfold bind at 1. unfold Destroy.subprocess_run.
  unfold bind at 1. rewrite spawn_eval. cbn zeta.
  destruct (faults (out w) (length (trace w)) =? 0) eqn:F0.
  - erewrite exec_has_emails by eassumption. cbn [fst snd ret].
    destruct (PyStr.contains "true" (snd (Yq.eval_has d ["host_emails"] key))); [|reflexivity].
    unfold bind at 1. unfold get_debug at 1. cbn [fst snd].
    unfold bind at 1. unfold Destroy.run. rewrite run_eval. cbn zeta.
    cbn [logged out trace cfg].
    destruct (faults (out w) (length (trace w ++ [_])) =? 0) eqn:F1.
    + erewrite exec_del_emails by eassumption. cbn [fst snd andb negb Z.eqb ret].
      reflexivity.
    + cbn [fst snd andb negb]. rewrite F1. reflexivity.
  - cbn [fst snd ret]. reflexivity.
Qed.

End DestroyInventoryFacts.

Section DestroyRemoveFacts.

Variable key : string.
Hypothesis key_plain : Yq.plain key = true.

Lemma remove_host_from_inventory_cases (w : Destroy.world) :
  let res := Destroy.remove_host_from_inventory
               (Destroy.InventoryManager_init (root (cfg w))) key w in
  out (snd res) = out w
  /\ root (cfg (snd res)) = root (cfg w)
  /\ emails_yml (cfg (snd res)) = emails_yml (cfg w)
  /\ (exists new, trace (snd res) = (trace w ++ new)%list
                  /\ Forall (fun i => runs ["yq"] i = true) new)
  /\ match fst res with
     | Return true =>
         Destroy.listed_in_inventory key (cfg w) = true
         /\ Destroy.listed_in_inventory key (cfg (snd res)) = false
     | Return false | Raise _ => cfg (snd res) = cfg w
     | SysExit _ => False
     end
  /\ (Destroy.listed_in_inventory key (cfg w) = false -> fst res = Return false).
Proof.
  cbn zeta. rewrite (@remove_host_from_inventory_eval key key_plain w). cbn zeta.
  unfold Destroy.listed_in_inventory.
  destruct (inventory_yml (cfg w)) as [d|] eqn:Hd.
  2:{ cbn [fst snd]. rewrite ?Hd. repeat split; auto.
      exists []. split; [now rewrite app_nil_r | constructor]. }
  destruct (faults (out w) (length (trace w)) =? 0) eqn:F0.
  - rewrite (eval_has_true key d ["all"; "hosts"]).
    destruct (Yq.section_has d ["all"; "hosts"] key) eqn:Hlisted.
    + cbn [logged trace out cfg].
      destruct (faults (out w) (length (trace w ++ [_])) =? 0) eqn:F1;
        cbn [fst snd logged complained trace out cfg set_inventory root
             emails_yml inventory_yml].
      * repeat split; auto.
        -- eexists. rewrite <- app_assoc. split; [reflexivity|].
           repeat constructor.
        -- apply section_has_eval_del.
        -- discriminate.
      * repeat split; auto.
        -- eexists. rewrite <- app_assoc. split; [reflexivity|].
           repeat constructor.
        -- discriminate.
    + cbn [fst snd logged trace out cfg]. repeat split; auto.
      eexists. split; [reflexivity|]. repeat constructor.
  - cbn [fst snd PyStr.contains String.prefix orb logged trace out cfg].
    repeat split; auto.
    eexists. split; [reflexivity|]. repeat constructor.
Qed.

Lemma remove_email_for_host_cases (w : Destroy.world) :
  let res := Destroy.remove_email_for_host
               (Destroy.InventoryManager_init (root (cfg w))) key w in
  out (snd res) = out w
  /\ root (cfg (snd res)) = root (cfg w)
  /\ inventory_yml (cfg (snd res)) = inventory_yml (cfg w)
  /\ (exists new, trace (snd res) = (trace w ++ new)%list
                  /\ Forall (fun i => runs ["yq"] i = true) new)
  /\ match fst res with
     | Return true =>
         Destroy.listed_in_emails key (cfg w) = true
         /\ Destroy.listed_in_emails key (cfg (snd res)) = false
     | Return false | Raise _ => cfg (snd res) = cfg w
     | SysExit _ => False
     end
  /\ (Destroy.listed_in_emails key (cfg w) = false -> fst res = Return false).
Proof.
  cbn zeta. rewrite (@remove_email_for_host_eval key key_plain w). cbn zeta.
  unfold Destroy.listed_in_emails.
  destruct (emails_yml (cfg w)) as [d|] eqn:Hd.
  2:{ cbn [fst snd]. rewrite ?Hd. repeat split; auto.
      exists []. split; [now rewrite app_nil_r | constructor]. }
  destruct (faults (out w) (length (trace w)) =? 0) eqn:F0.
  - rewrite (eval_has_true key d ["host_emails"]).
    destruct (Yq.section_has d ["host_emails"] key) eqn:Hlisted.
    + cbn [logged trace out cfg].
      destruct (faults (out w) (length (trace w ++ [_])) =? 0) eqn:F1;
        cbn [fst snd logged complained trace out cfg set_emails root
             emails_yml inventory_yml].
      * repeat split; auto.
        -- eexists. rewrite <- app_assoc. split; [reflexivity|].
           repeat constructor.
        -- apply section_has_eval_del.
        -- discriminate.
      * repeat split; auto.
        -- eexists. rewrite <- app_assoc. split; [reflexivity|].
           repeat constructor.
        -- discriminate.
    + cbn [fst snd logged trace out cfg]. repeat split; auto.
      eexists. split; [reflexivity|]. repeat constructor.
  - cbn [fst snd PyStr.contains String.prefix orb logged trace out cfg].
    repeat split; auto.
    eexists. split; [reflexivity|]. repeat constructor.
Qed.

End DestroyRemoveFacts.

(** ** The git commands of [remove_host] *)

Section DestroyGitFacts.

Variable key : string.

Lemma destroy_commit_and_push_eval (w : Destroy.world) :
  let self := Destroy.InventoryManager_init (root (cfg w)) in
  let dir := Some (PyPath.str (root (cfg w))) in
  let add := ["git"; "add"; PyPath.str (Destroy.inventory_file self);
              PyPath.str (Destroy.emails_file self)] in
  let msg := "Remove " ++ key ++ " from host_emails in emails.yml and inventory.yml" in
  let commit := ["git"; "commit"; "-m"; msg] in
  let push := ["git"; "push"; "origin"; "simple"] in
  Destroy.commit_and_push self key w =
    let f0 := faults (out w) (length (trace w)) in
    if f0 =? 0 then
      let c1 := staged (cfg w) in
      let w1 := logged (mkInvocation add dir true 0) c1 w in
      let f1 := faults (out w) (length (trace w1)) in
      let r := if f1 =? 0
               then if decide (index c1 = head c1) then (1, c1)
                    else (0, committed msg c1)
               else (f1, c1) in
      let w2 := logged (mkInvocation commit dir false (fst r)) (snd r) w1 in
      let f2 := faults (out w) (length (trace w2)) in
      if f2 =? 0 then
        (Return tt, logged (mkInvocation push dir true 0) (snd r) w2)
      else
        (Raise (CalledProcessError f2 push),
         complained (complaint push)
           (logged (mkInvocation push dir true f2) (snd r) w2))
    else
      (Raise (CalledProcessError f0 add),
       complained (complaint add)
         (logged (mkInvocation add dir true f0) (cfg w) w)).
Proof.
  destruct w as [o dbg pr [rt inv em idx hd cm] tr err pm].
  cbn zeta.
  unfold Destroy.commit_and_push, Destroy.run, run, bind, get_debug, spawn,
    stderr_print, raise, ret, Destroy.exec, git.
  cbn [cfg root out trace DEBUG_MODE Destroy.ansible_config_root
       Destroy.inventory_file Destroy.emails_file Destroy.InventoryManager_init].
  destruct dbg.
  all: cbn [cfg root out trace DEBUG_MODE].
  all: destruct (faults o (length tr) =? 0) eqn:F0;
    [ rewrite decide_True by reflexivity
    | cbn [fst snd andb negb]; rewrite F0; reflexivity ].
  all: cbn [fst snd andb negb Z.eqb logged cfg out trace root staged index head].
  all: destruct (faults o (length (tr ++ [_])) =? 0) eqn:F1.
  all: try (rewrite decide_True by reflexivity).
  all: try destruct (decide (working_files _ = hd)).
  all: cbn [fst snd andb negb Z.eqb logged cfg out trace root staged index head committed].
  all: destruct (faults o (length ((tr ++ [_]) ++ [_])) =? 0) eqn:F2.
  all: try (rewrite decide_True by reflexivity).
  all: cbn [fst snd andb negb Z.eqb]; try (rewrite F2); reflexivity.
Qed.

(** The git commands leave the two files alone and start only git. *)
Lemma destroy_commit_and_push_frame (w : Destroy.world) :
  let res := Destroy.commit_and_push (Destroy.InventoryManager_init (root (cfg w))) key w in
  inventory_yml (cfg (snd res)) = inventory_yml (cfg w)
  /\ emails_yml (cfg (snd res)) = emails_yml (cfg w)
  /\ (forall c, fst res <> SysExit c)
  /\ ((forall n, faults (out w) n = 0) ->
      fst res = Return tt
      /\ exists new, trace (snd res) = (trace w ++ new)%list
           /\ Exists (fun i => runs ["git"; "commit"] i = true) new
           /\ Exists (fun i => runs ["git"; "push"] i = true) new).
Proof.
  cbn zeta. rewrite destroy_commit_and_push_eval. cbn zeta.
  destruct (faults (out w) (length (trace w)) =? 0) eqn:F0.
  - repeat match goal with
           | |- context [faults ?o ?n =? 0] => destruct (faults o n =? 0) eqn:?
           | |- context [decide ?P] => destruct (decide P)
           end.
    all: cbn [fst snd complained logged trace cfg staged committed
              inventory_yml emails_yml].
    all: repeat split; auto; try discriminate; try (intros Hcalm).
    all: try (eexists; rewrite <- !app_assoc; cbn [app];
              split; [reflexivity|];
              split; [apply Exists_cons_tl, Exists_cons_hd; reflexivity
                     | apply Exists_cons_tl, Exists_cons_tl, Exists_cons_hd; reflexivity]).
    all: exfalso;
      match goal with
      | Hc : (forall n : nat, faults _ n = 0),
        Hf : (faults _ ?n =? 0) = false |- _ =>
          rewrite (Hc n) in Hf; discriminate
      end.
  - cbn [fst snd complained logged trace cfg]. repeat split; auto; try discriminate.
    all: match goal with
         | Hc : (forall n : nat, faults _ n = 0) |- _ =>
             rewrite Hc in F0; discriminate
         end.
Qed.

End DestroyGitFacts.

(** ** [remove_host] *)

Section DestroyRemoveHost.

Variable key : string.
Hypothesis key_plain : Yq.plain key = true.

Lemma yq_is_not_git (i : invocation) :
  runs ["yq"] i = true -> commit_or_push i = false.
Proof.
  unfold commit_or_push, runs. destruct (argv i) as [|a l]; [discriminate|].
  cbn [starts_with]. rewrite andb_true_r. intros Ha.
  apply String.eqb_eq in Ha. now subst a.
Qed.

(** [remove_host] is the two removals, then the git commands when one of
    them removed something; it ends with [None]. *)
Lemma remove_host_spec (w : Destroy.world) :
  let self := Destroy.InventoryManager_init (root (cfg w)) in
  Destroy.remove_host self key w =
    match Destroy.remove_host_from_inventory self key w with
    | (Return inventory_removed, w1) =>
        match Destroy.remove_email_for_host self key w1 with
        | (Return emails_removed, w2) =>
            if inventory_removed || emails_removed then
              match Destroy.commit_and_push self key w2 with
              | (Return _, w3) => (Return PyNone, w3)
              | (Raise e, w3) => (Raise e, w3)
              | (SysExit c, w3) => (SysExit c, w3)
              end
            else (Return PyNone, w2)
        | (Raise e, w2) => (Raise e, w2)
        | (SysExit c, w2) => (SysExit c, w2)
        end
    | (Raise e, w1) => (Raise e, w1)
    | (SysExit c, w1) => (SysExit c, w1)
    end.
Proof.
  cbn zeta. unfold Destroy.remove_host, Destroy.commit_and_push, bind.
  destruct (Destroy.remove_host_from_inventory _ key w) as [[bi | e | c] w1];
    try reflexivity.
  destruct (Destroy.remove_email_for_host _ key w1) as [[bm | e | c] w2];
    try reflexivity.
  destruct (bi || bm); [|reflexivity].
  unfold get_debug.
  repeat (match goal with
          | |- context [Destroy.run ?a ?b ?c ?d ?w0] =>
              destruct (Destroy.run a b c d w0) as [[?|?|?] ?]
          end; try reflexivity).
Qed.

(** Either only [yq] was started, or one of the two files lost the
    host; when the host is in neither file the call returns with the
    working copy as it was; and whenever it returns, it returns [None]. *)
Lemma remove_host_cases (w : Destroy.world) :
  let res := Destroy.remove_host (Destroy.InventoryManager_init (root (cfg w))) key w in
  ((exists new, trace (snd res) = (trace w ++ new)%list
                /\ Forall (fun i => runs ["yq"] i = true) new)
   \/ (Destroy.listed_in_inventory key (cfg w) = true
       /\ Destroy.listed_in_inventory key (cfg (snd res)) = false)
   \/ (Destroy.listed_in_emails key (cfg w) = true
       /\ Destroy.listed_in_emails key (cfg (snd res)) = false))
  /\ (Destroy.listed_in_inventory key (cfg w) = false ->
      Destroy.listed_in_emails key (cfg w) = false ->
      fst res = Return PyNone /\ cfg (snd res) = cfg w
      /\ exists new, trace (snd res) = (trace w ++ new)%list
                     /\ Forall (fun i => runs ["yq"] i = true) new)
  /\ (forall v, fst res = Return v -> v = PyNone).
Proof.
  cbn zeta. rewrite remove_host_spec. cbn zeta.
  pose proof (@remove_host_from_inventory_cases key key_plain w)
    as (Ho1 & Hr1 & He1 & (n1 & Ht1 & Hy1) & Hc1 & Ha1).
  cbn zeta in Ho1, Hr1, He1, Ht1, Hc1, Ha1.
  destruct (Destroy.remove_host_from_inventory _ key w) as [r1 w1].
  cbn [fst snd] in *.
  pose proof (@remove_email_for_host_cases key key_plain w1)
    as (Ho2 & Hr2 & Hi2 & (n2 & Ht2 & Hy2) & Hc2 & Ha2).
  cbn zeta in Ho2, Hr2, Hi2, Ht2, Hc2, Ha2. rewrite Hr1 in *.
  assert (Hyq12 : exists new, trace w1 = (trace w ++ new)%list
                    /\ Forall (fun i => runs ["yq"] i = true) new) by eauto.
  destruct r1 as [bi | e | c]; [| | contradiction].
  2:{ cbn [fst snd]. split; [now left|]. split; [|discriminate].
      intros Hno _. specialize (Ha1 Hno). discriminate. }
  destruct (Destroy.remove_email_for_host _ key w1) as [r2 w2].
  cbn [fst snd] in *.
  assert (Hyq : exists new, trace w2 = (trace w ++ new)%list
                  /\ Forall (fun i => runs ["yq"] i = true) new).
  { exists (n1 ++ n2)%list. rewrite Ht2, Ht1, <- app_assoc. split; [reflexivity|].
    now apply Forall_app. }
  destruct r2 as [bm | e | c]; [| | contradiction].
  2:{ cbn [fst snd]. split; [now left|]. split; [|discriminate].
      intros Hno1 Hno2. specialize (Ha1 Hno1). injection Ha1 as ->.
      rewrite Hc1 in Ha2. specialize (Ha2 Hno2). discriminate. }
  destruct (bi || bm) eqn:Hany.
  - pose proof (destroy_commit_and_push_frame key w2) as (Hi3 & He3 & Hx3 & _).
    cbn zeta in Hi3, He3, Hx3. rewrite Hr2 in *.
    destruct (Destroy.commit_and_push _ key w2) as [r3 w3]. cbn [fst snd] in *.
    assert (Hfiles3 : forall v : outcome pyvalue,
              (Destroy.listed_in_inventory key (cfg w) = true
               /\ Destroy.listed_in_inventory key (cfg w3) = false)
              \/ (Destroy.listed_in_emails key (cfg w) = true
                  /\ Destroy.listed_in_emails key (cfg w3) = false)).
    { intros _. destruct bi.
      - left. destruct Hc1 as [Hb Ha]. split; [exact Hb|].
        unfold Destroy.listed_in_inventory in *. now rewrite Hi3, Hi2.
      - right. destruct bm; [|discriminate]. destruct Hc2 as [Hb Ha].
        unfold Destroy.listed_in_emails in *. rewrite He3. split; [|exact Ha].
        now rewrite <- He1. }
    assert (Habsent : Destroy.listed_in_inventory key (cfg w) = false ->
                      Destroy.listed_in_emails key (cfg w) = false -> False).
    { intros Hno1 Hno2. specialize (Ha1 Hno1). injection Ha1 as ->.
      rewrite Hc1 in Ha2. specialize (Ha2 Hno2). injection Ha2 as ->.
      discriminate. }
    destruct r3 as [[] | e | c]; cbn [fst snd].
    + split; [right; exact (Hfiles3 (Return PyNone))|].
      split; [intros Hno1 Hno2; destruct (Habsent Hno1 Hno2)|].
      now intros v [= <-].
    + split; [right; exact (Hfiles3 (Return PyNone))|].
      split; [intros Hno1 Hno2; destruct (Habsent Hno1 Hno2) | discriminate].
    + destruct (Hx3 c eq_refl).
  - cbn [fst snd]. split; [now left|]. split; [|now intros v [= <-]].
    intros _ _. split; [reflexivity|]. split; [|exact Hyq].
    apply orb_false_iff in Hany as [-> ->]. now rewrite Hc2, Hc1.
Qed.

End DestroyRemoveHost.

Section DestroyContactOnly.

Variable key : string.
Hypothesis key_plain : Yq.plain key = true.

Lemma remove_email_for_host_calm (w : Destroy.world) :
  Destroy.listed_in_emails key (cfg w) = true ->
  (forall n, faults (out w) n = 0) ->
  fst (Destroy.remove_email_for_host
         (Destroy.InventoryManager_init (root (cfg w))) key w) = Return true.
Proof.
  intros Hlisted Hcalm. rewrite (@remove_email_for_host_eval key key_plain w).
  cbn zeta. unfold Destroy.listed_in_emails in Hlisted.
  destruct (emails_yml (cfg w)) as [d|]; [|discriminate].
  rewrite !Hcalm. cbn [Z.eqb]. rewrite eval_has_true, Hlisted. reflexivity.
Qed.

(** With the host only in the contact file and no failure forced from
    outside: the contact entry goes, the host list stays, the git
    commands run, and the call returns [None]. *)
Lemma remove_host_contact_only (w : Destroy.world) :
  Destroy.listed_in_inventory key (cfg w) = false ->
  Destroy.listed_in_emails key (cfg w) = true ->
  (forall n, faults (out w) n = 0) ->
  let res := Destroy.remove_host (Destroy.InventoryManager_init (root (cfg w))) key w in
  fst res = Return PyNone
  /\ inventory_yml (cfg (snd res)) = inventory_yml (cfg w)
  /\ Destroy.listed_in_emails key (cfg (snd res)) = false
  /\ exists new, trace (snd res) = (trace w ++ new)%list
       /\ Exists (fun i => runs ["git"; "commit"] i = true) new
       /\ Exists (fun i => runs ["git"; "push"] i = true) new.
Proof.
  intros Hno Hyes Hcalm. cbn zeta. rewrite remove_host_spec. cbn zeta.
  pose proof (@remove_host_from_inventory_cases key key_plain w)
    as (Ho1 & Hr1 & He1 & (n1 & Ht1 & _) & Hc1 & Ha1).
  cbn zeta in Ho1, Hr1, He1, Ht1, Hc1, Ha1. specialize (Ha1 Hno).
  destruct (Destroy.remove_host_from_inventory _ key w) as [r1 w1].
  cbn [fst snd] in *. subst r1.
  assert (Hyes1 : Destroy.listed_in_emails key (cfg w1) = true) by now rewrite Hc1.
  assert (Hcalm1 : forall n, faults (out w1) n = 0) by now rewrite Ho1.
  pose proof (remove_email_for_host_calm w1 Hyes1 Hcalm1) as Htrue.
  pose proof (@remove_email_for_host_cases key key_plain w1)
    as (Ho2 & Hr2 & Hi2 & (n2 & Ht2 & _) & Hc2 & _).
  cbn zeta in Ho2, Hr2, Hi2, Ht2, Hc2. rewrite Hr1 in *.
  destruct (Destroy.remove_email_for_host _ key w1) as [r2 w2].
  cbn [fst snd] in *. subst r2. cbn [orb].
  assert (Hcalm2 : forall n, faults (out w2) n = 0) by now rewrite Ho2.
  pose proof (destroy_commit_and_push_frame key w2) as (Hi3 & He3 & _ & Hrun).
  cbn zeta in Hi3, He3, Hrun. rewrite Hr2 in *.
  destruct (Hrun Hcalm2) as (Hret & n3 & Ht3 & Hcommit & Hpush).
  destruct (Destroy.commit_and_push _ key w2) as [r3 w3].
  cbn [fst snd] in *. subst r3. cbn [fst snd].
  split; [reflexivity|]. split; [now rewrite Hi3, Hi2, Hc1|].
  split.
  - destruct Hc2 as [_ Hafter]. unfold Destroy.listed_in_emails in *. now rewrite He3.
  - exists (n1 ++ n2 ++ n3)%list. rewrite Ht3, Ht2, Ht1, <- !app_assoc.
    split; [reflexivity|].
    split; apply Exists_app; right; apply Exists_app; right; assumption.
Qed.

End DestroyContactOnly.

(** C3. For a host that is a key neither of [.all.hosts] in the host
    list nor of [.host_emails] in the contact file, [remove_host] starts
    no [git commit] and no [git push], leaves the working copy as it is
    and returns; and in every case a [git commit] or [git push] is
    started only after one of the two files lost the host.  Hostnames
    are the keys [yq] reads back as written: no double quote and no
    backslash. *)
Theorem remove_host_commits_only_after_removal (key : string) (w : Destroy.world) :
  Yq.plain key = true ->
  let res := Destroy.remove_host (Destroy.InventoryManager_init (root (cfg w))) key w in
  (Destroy.listed_in_inventory key (cfg w) = false ->
   Destroy.listed_in_emails key (cfg w) = false ->
   fst res = Return PyNone /\ cfg (snd res) = cfg w
   /\ exists new, trace (snd res) = (trace w ++ new)%list
                  /\ Forall (fun i => commit_or_push i = false) new)
  /\ (forall new,
        trace (snd res) = (trace w ++ new)%list ->
        Exists (fun i => commit_or_push i = true) new ->
        (Destroy.listed_in_inventory key (cfg w) = true
         /\ Destroy.listed_in_inventory key (cfg (snd res)) = false)
        \/ (Destroy.listed_in_emails key (cfg w) = true
            /\ Destroy.listed_in_emails key (cfg (snd res)) = false)).
Proof.
  intros Hplain. cbn zeta.
  destruct (@remove_host_cases key Hplain w) as (Hcases & Habsent & _).
  cbn zeta in Hcases, Habsent. split.
  - intros Hno1 Hno2. destruct (Habsent Hno1 Hno2) as (Hret & Hcfg & new & Htrace & Hyq).
    split; [exact Hret|]. split; [exact Hcfg|]. exists new. split; [exact Htrace|].
    eapply Forall_impl; [exact Hyq | apply yq_is_not_git].
  - intros new Htrace Hgit.
    destruct Hcases as [(new' & Htrace' & Hyq) | Hremoved]; [|exact Hremoved].
    exfalso. rewrite Htrace in Htrace'. apply app_inv_head in Htrace'. subst new'.
    apply Exists_exists in Hgit as (i & Hin & Hi).
    rewrite Forall_forall in Hyq. apply Hyq, yq_is_not_git in Hin. congruence.
Qed.

Lemma remove_host_commits_only_after_removal_witness :
  let key := "t1.aopstest.com" in
  let w := Sample.gone in
  let res := Destroy.remove_host (Destroy.InventoryManager_init (root (cfg w))) key w in
  Yq.plain key = true
  /\ Destroy.listed_in_inventory key (cfg w) = false
  /\ Destroy.listed_in_emails key (cfg w) = false
  /\ fst res = Return PyNone /\ cfg (snd res) = cfg w
  /\ exists new, trace (snd res) = (trace w ++ new)%list
                 /\ Forall (fun i => commit_or_push i = false) new.
Proof.
  cbn zeta.
  destruct (remove_host_commits_only_after_removal "t1.aopstest.com" Sample.gone eq_refl)
    as [Habsent _].
  split; [reflexivity|]. split; [vm_compute; reflexivity|].
  split; [vm_compute; reflexivity|].
  apply Habsent; vm_compute; reflexivity.
Defined.

(** C8, as the script has it. [remove_host] has no return statement:
    whenever it returns, it returns [None], whether or not something
    was removed; the two removal flags only decide whether the git
    commands run.  In particular, with the host only in the contact
    file and no failure forced from outside, the contact entry is
    removed, the host list is left as it is, [git commit] and
    [git push] are run, and the call returns [None]. *)
Theorem remove_host_returns_none (key : string) (w : Destroy.world) :
  Yq.plain key = true ->
  let res := Destroy.remove_host (Destroy.InventoryManager_init (root (cfg w))) key w in
  (forall v, fst res = Return v -> v = PyNone)
  /\ (Destroy.listed_in_inventory key (cfg w) = false ->
      Destroy.listed_in_emails key (cfg w) = true ->
      (forall n, faults (out w) n = 0) ->
      fst res = Return PyNone
      /\ inventory_yml (cfg (snd res)) = inventory_yml (cfg w)
      /\ Destroy.listed_in_emails key (cfg (snd res)) = false
      /\ exists new, trace (snd res) = (trace w ++ new)%list
           /\ Exists (fun i => runs ["git"; "commit"] i = true) new
           /\ Exists (fun i => runs ["git"; "push"] i = true) new).
Proof.
  intros Hplain. cbn zeta. split.
  - now destruct (@remove_host_cases key Hplain w) as (_ & _ & Hnone).
  - intros Hno Hyes Hcalm. now apply remove_host_contact_only.
Qed.

Lemma remove_host_returns_none_witness :
  let key := "t1.aopstest.com" in
  let w := Sample.contact_only in
  let res := Destroy.remove_host (Destroy.InventoryManager_init (root (cfg w))) key w in
  Yq.plain key = true
  /\ Destroy.listed_in_inventory key (cfg w) = false
  /\ Destroy.listed_in_emails key (cfg w) = true
  /\ (forall n, faults (out w) n = 0)
  /\ fst res = Return PyNone
  /\ inventory_yml (cfg (snd res)) = inventory_yml (cfg w)
  /\ Destroy.listed_in_emails key (cfg (snd res)) = false.
Proof.
  cbn zeta.
  destruct (remove_host_returns_none "t1.aopstest.com" Sample.contact_only eq_refl)
    as [_ Honly].
  assert (Hno : Destroy.listed_in_inventory "t1.aopstest.com" (cfg Sample.contact_only) = false)
    by (vm_compute; reflexivity).
  assert (Hyes : Destroy.listed_in_emails "t1.aopstest.com" (cfg Sample.contact_only) = true)
    by (vm_compute; reflexivity).
  assert (Hcalm : forall n, faults (out Sample.contact_only) n = 0) by reflexivity.
  destruct (Honly Hno Hyes Hcalm) as (Hret & Hinv & Hmail & _).
  repeat split; assumption.
Defined.

(** C8, as stated, fails: with the host only in the contact file the
    entry is removed, yet the call returns [None], not [True]. *)
Lemma remove_host_contact_only_reports_nothing :
  let key := "t1.aopstest.com" in
  let w := Sample.contact_only in
  let res := Destroy.remove_host (Destroy.InventoryManager_init (root (cfg w))) key w in
  Destroy.listed_in_inventory key (cfg w) = false
  /\ Destroy.listed_in_emails key (cfg w) = true
  /\ Destroy.listed_in_emails key (cfg (snd res)) = false
  /\ fst res = Return PyNone
  /\ fst res <> Return (PyBool true)
  /\ truthy PyNone = false.
Proof.
  cbn zeta. repeat split; try (vm_compute; reflexivity).
  vm_compute. discriminate.
Qed.

(** ** The start of the destroy pipeline *)

Section DestroyMainFacts.

Variable args : Destroy.arguments.
Variable o : outside.
Variable c : Destroy.cfg_repo.

(** A malformed prefix ends the process before anything else is done. *)
Lemma destroy_main_malformed_prefix :
  Destroy.valid_prefix (Destroy.arg_prefix args) = false ->
  Destroy.main args (boot o c)
  = (SysExit 1,
     complained Destroy.prefix_error
       (snd (set_debug (Destroy.arg_debug args) (boot o c)))).
Proof.
  intros Hbad. unfold Destroy.main, bind, environ_get, set_debug.
  cbn [boot out]. rewrite Hbad. reflexivity.
Qed.

(** So does a missing or empty API token, once the prefix passed. *)
Lemma destroy_main_without_token :
  Destroy.valid_prefix (Destroy.arg_prefix args) = true ->
  environ o !! "CLOUDFLARE_API_TOKEN" = None
  \/ environ o !! "CLOUDFLARE_API_TOKEN" = Some "" ->
  Destroy.main args (boot o c)
  = (SysExit 1,
     complained "[red]ERROR: CLOUDFLARE_API_TOKEN is required but not set.[/red]"
       (snd (set_debug (Destroy.arg_debug args) (boot o c)))).
Proof.
  intros Hok Htoken. unfold Destroy.main, bind, environ_get, set_debug, get_env.
  cbn [boot out]. rewrite Hok. cbn [negb ret andb fst snd].
  unfold bind, environ_get. cbn [boot out andb ret].
  destruct Htoken as [-> | ->]; reflexivity.
Qed.

End DestroyMainFacts.



(** ** Hostname and stack path *)

Section StackPathFacts.

Import PyPath.

Lemma no_slash_append (a b : string) : no_slash a -> no_slash b -> no_slash (a ++ b).
Proof.
  unfold no_slash. intros Ha Hb. induction a as [|c a IH]; [exact Hb|].
  cbn in *. inversion Ha; subst. constructor; auto.
Qed.

Lemma all_alnum_no_slash (s : string) : PyStr.all_alnum s = true -> no_slash s.
Proof.
  unfold no_slash. induction s as [|c s IH]; cbn; [constructor|].
  intros Hall. apply andb_true_iff in Hall as [Hc Hs].
  constructor; [|now apply IH]. intros ->. discriminate.
Qed.

Lemma isalnum_no_slash (s : string) : PyStr.isalnum s = true -> no_slash s.
Proof. destruct s; [discriminate|]. apply all_alnum_no_slash. Qed.

Lemma valid_prefix_no_slash (s : string) : Destroy.valid_prefix s = true -> no_slash s.
Proof.
  unfold Destroy.valid_prefix. intros Hvalid.
  assert (Hall : PyStr.all_alnum
            (PyStr.replace (Ascii.ascii_of_N 45) ""
               (PyStr.replace (Ascii.ascii_of_N 95) "" s)) = true).
  { destruct (PyStr.replace _ _ _); [discriminate | exact Hvalid]. }
  clear Hvalid. unfold no_slash. induction s as [|c s IH]; [constructor|].
  cbn [list_ascii_of_string]. cbn [PyStr.replace] in Hall.
  destruct (Ascii.eqb c (Ascii.ascii_of_N 95)) eqn:Hu.
  - apply Ascii.eqb_eq in Hu. subst c. constructor; [discriminate | now apply IH].
  - cbn [PyStr.replace] in Hall.
    destruct (Ascii.eqb c (Ascii.ascii_of_N 45)) eqn:Hd.
    + apply Ascii.eqb_eq in Hd. subst c. constructor; [discriminate | now apply IH].
    + cbn [PyStr.all_alnum] in Hall. apply andb_true_iff in Hall as [Hc Hs].
      constructor; [|now apply IH]. intros ->. discriminate.
Qed.

Lemma split_no_slash (s : string) : no_slash s -> PyStr.split SLASH s = [s].
Proof.
  unfold no_slash. induction s as [|c s IH]; [reflexivity|].
  cbn [list_ascii_of_string]. intros Hall. inversion Hall as [|? ? Hc Hs]; subst.
  cbn [PyStr.split].
  destruct (Ascii.eqb c SLASH) eqn:Heq.
  - apply Ascii.eqb_eq in Heq. contradiction.
  - now rewrite (IH Hs).
Qed.

(** A name without slash that is neither empty nor a dot is one path
    component. *)
Lemma joinpath_component (base : path) (name : string) :
  no_slash name -> name <> "" -> name <> "." ->
  base // name = mkPath (anchor base) (parts base ++ [name]).
Proof.
  intros Hslash Hempty Hdot. unfold joinpath, Path.
  rewrite (split_no_slash Hslash).
  assert (Hanchor : parse_anchor name = "").
  { unfold parse_anchor. destruct name as [|c name]; [reflexivity|].
    cbn [leading_slashes]. unfold no_slash in Hslash. cbn in Hslash.
    inversion Hslash as [|? ? Hc _]; subst.
    destruct (Ascii.eqb c SLASH) eqn:Heq; [|reflexivity].
    apply Ascii.eqb_eq in Heq. contradiction. }
  rewrite Hanchor. cbn [anchor parts String.eqb List.filter].
  unfold keep_part. apply String.eqb_neq in Hempty, Hdot.
  now rewrite Hempty, Hdot.
Qed.

Lemma hostname_is_component (prefix : string) :
  no_slash prefix ->
  no_slash (prefix ++ ".aopstest.com")
  /\ prefix ++ ".aopstest.com" <> "" /\ prefix ++ ".aopstest.com" <> ".".
Proof.
  intros Hp. split; [|split].
  - apply no_slash_append; [exact Hp|]. unfold no_slash. cbn.
    repeat constructor; discriminate.
  - intros Heq. apply (f_equal String.length) in Heq.
    rewrite length_append in Heq. cbn in Heq. lia.
  - intros Heq. apply (f_equal String.length) in Heq.
    rewrite length_append in Heq. cbn in Heq. lia.
Qed.

Lemma join_with_snoc (ps : list string) (name : string) :
  ps <> [] ->
  PyStr.join_with "/" (ps ++ [name]) = PyStr.join_with "/" ps ++ "/" ++ name.
Proof.
  induction ps as [|p ps IH]; [congruence|]. intros _.
  destruct ps as [|q ps]; [reflexivity|].
  change ((p :: q :: ps) ++ [name])%list with (p :: q :: (ps ++ [name]))%list.
  rewrite !join_with_cons. change (q :: (ps ++ [name]))%list with ((q :: ps) ++ [name])%list.
  rewrite IH by discriminate. now rewrite !append_assoc_s.
Qed.

Lemma stack_path_shape (terramate_cloud_path : path) (prefix : string) :
  no_slash prefix ->
  let hostname := prefix ++ ".aopstest.com" in
  let base := Create.base_path_of terramate_cloud_path in
  Create.stack_path_of terramate_cloud_path prefix
  = mkPath (anchor base) (parts base ++ [hostname])
  /\ str (Create.stack_path_of terramate_cloud_path prefix)
     = str base ++ "/" ++ hostname.
Proof.
  intros Hp. cbn zeta.
  destruct (hostname_is_component Hp) as (Hs & He & Hd).
  unfold Create.stack_path_of, Create.full_hostname_of.
  rewrite (joinpath_component _ Hs He Hd). split; [reflexivity|].
  assert (Hbase : parts (Create.base_path_of terramate_cloud_path) <> []).
  { unfold Create.base_path_of. cbn. now destruct (parts terramate_cloud_path). }
  rewrite str_with_parts by (now destruct (parts (Create.base_path_of _))).
  destruct (Create.base_path_of terramate_cloud_path) as [a ps]. cbn [anchor parts] in *.
  rewrite str_with_parts by assumption.
  now rewrite join_with_snoc, append_assoc_s by assumption.
Qed.

End StackPathFacts.



(** ** Reasoning about the processes a computation starts *)

Section TraceFacts.

Lemma clean_snoc (tr : list invocation) (i : invocation) :
  clean tr -> failed i = false -> clean (tr ++ [i])%list.
Proof. intros Htr Hi. apply Forall_app. split; [exact Htr | now constructor]. Qed.

Lemma clean_failure_is_last (tr : list invocation) (i : invocation) :
  clean tr -> failure_is_last (tr ++ [i])%list.
Proof.
  intros Hclean pre j post Heq Hj.
  destruct post as [|k post]; [reflexivity|]. exfalso.
  revert tr Hclean Heq. induction pre as [|a pre IH]; intros tr Hclean Heq.
  - destruct tr as [|t tr]; cbn in Heq; [discriminate|].
    injection Heq as -> _. inversion Hclean; subst. congruence.
  - destruct tr as [|t tr]; cbn in Heq.
    + injection Heq as _ Heq. now destruct pre.
    + injection Heq as _ Heq. inversion Hclean; subst. now apply (IH tr).
Qed.

Lemma clean_stopped (tr : list invocation) : clean tr -> stopped tr.
Proof.
  intros Hclean. split.
  - intros pre j post Heq Hj. exfalso. unfold clean in Hclean.
    rewrite Forall_forall in Hclean.
    assert (Hin : j ∈ tr) by (rewrite Heq; apply list_elem_of_In, in_or_app; right; now left).
    apply Hclean in Hin. congruence.
  - intros Hex. exfalso. apply Exists_exists in Hex as (j & Hin & Hj).
    unfold clean in Hclean. rewrite Forall_forall in Hclean. apply Hclean in Hin.
    unfold apply_failed in Hj. apply andb_true_iff in Hj as [_ Hj]. congruence.
Qed.

Lemma early_stopped (tr : list invocation) : early tr -> stopped tr.
Proof. intros [Hclean _]. now apply clean_stopped. Qed.

Lemma early_clean (tr : list invocation) : early tr -> clean tr.
Proof. now intros [Hclean _]. Qed.

(** A command of the first two stages that fails stops an early run. *)
Lemma early_snoc_stopped (tr : list invocation) (i : invocation) :
  early tr -> late i = false -> stopped (tr ++ [i])%list.
Proof.
  intros [Hclean Hearly] Hi. split; [now apply clean_failure_is_last|].
  intros _. apply Forall_app. split; [exact Hearly | now constructor].
Qed.

(** A command other than the infra-apply command that fails stops a
    clean run. *)
Lemma clean_snoc_stopped (tr : list invocation) (i : invocation) :
  clean tr -> runs ["terraform"; "apply"] i = false -> stopped (tr ++ [i])%list.
Proof.
  intros Hclean Hi. split; [now apply clean_failure_is_last|].
  intros Hex. exfalso. apply Exists_app in Hex as [Hex | Hex].
  - apply Exists_exists in Hex as (j & Hin & Hj).
    unfold clean in Hclean. rewrite Forall_forall in Hclean. apply Hclean in Hin.
    unfold apply_failed in Hj. apply andb_true_iff in Hj as [_ Hj]. congruence.
  - inversion Hex as [? ? Hj | ? ? Hj]; subst; [|inversion Hj].
    unfold apply_failed in Hj. apply andb_true_iff in Hj as [Hj _]. congruence.
Qed.

End TraceFacts.

Section TripleFacts.

Context {I : Type}.

Lemma triple_ret {A} (P E : list invocation -> Prop) (a : A) :
  triple (I := I) P (ret a) P E.
Proof. intros w HP. exact HP. Qed.

Lemma triple_bind {A B} (P Q R E : list invocation -> Prop)
    (m : M (world I) A) (k : A -> M (world I) B) :
  triple P m Q E -> (forall a, triple Q (k a) R E) -> triple P (bind m k) R E.
Proof.
  intros Hm Hk w HP. unfold bind. specialize (Hm w HP).
  destruct (m w) as [[a | e | c] w']; [|exact Hm|exact Hm].
  exact (Hk a w' Hm).
Qed.

Lemma triple_pre {A} (P P' Q E : list invocation -> Prop) (m : M (world I) A) :
  (forall tr, P tr -> P' tr) -> triple P' m Q E -> triple P m Q E.
Proof. intros Himp Hm w HP. exact (Hm w (Himp _ HP)). Qed.

Lemma triple_quiet {A} (P E : list invocation -> Prop) (m : M (world I) A) :
  (forall tr, P tr -> E tr) -> quiet m -> triple P m P E.
Proof.
  intros Himp Hq w HP. destruct (Hq w) as [Htr Hexit].
  destruct (m w) as [[a | e | c] w']; cbn [fst snd] in *.
  - now rewrite Htr.
  - rewrite Htr. now apply Himp.
  - now apply (Hexit c).
Qed.

Lemma triple_dimmed {A} (P Q E : list invocation -> Prop) (func : M (world I) A) :
  triple P func Q E -> triple P (dimmed_timed_step func) Q E.
Proof.
  intros Hf w HP. unfold dimmed_timed_step, bind, get_debug.
  specialize (Hf w HP). destruct (DEBUG_MODE w); [exact Hf|].
  destruct (func w) as [[a | e | c] w']; exact Hf.
Qed.

Lemma triple_run (exec : tool I) (P Q E : list invocation -> Prop)
    cmd dir check debug :
  (forall tr rc, P tr -> check && negb (rc =? 0) = false ->
                 Q (tr ++ [mkInvocation cmd dir check rc])%list) ->
  (forall tr rc, P tr -> check && negb (rc =? 0) = true ->
                 E (tr ++ [mkInvocation cmd dir check rc])%list) ->
  triple P (run exec cmd dir check debug) Q E.
Proof.
  intros HQ HE w HP. rewrite run_eval. cbn zeta.
  destruct (if faults (out w) (length (trace w)) =? 0 then _ else _) as [[rc text] c'].
  cbn [fst snd].
  destruct (check && negb (rc =? 0)) eqn:Hfail; cbn [complained logged trace].
  - now apply HE.
  - now apply HQ.
Qed.

(** A command of the first two stages. *)
Lemma triple_run_early (exec : tool I) cmd dir check debug :
  starts_with ["ansible-playbook"] cmd = false ->
  starts_with ["ssh-import-db.sh"] cmd = false ->
  triple early (run exec cmd dir check debug) early stopped.
Proof.
  intros H1 H2.
  assert (Hlate : forall rc, late (mkInvocation cmd dir check rc) = false).
  { intros rc. unfold late, runs. cbn [argv]. now rewrite H1, H2. }
  apply triple_run; intros tr rc Htr Hfail.
  - destruct Htr as [Hclean Hearly]. split.
    + now apply clean_snoc.
    + apply Forall_app. split; [exact Hearly | now constructor].
  - now apply early_snoc_stopped.
Qed.

(** A command other than the infra-apply command. *)
Lemma triple_run_clean (exec : tool I) cmd dir check debug :
  starts_with ["terraform"; "apply"] cmd = false ->
  triple clean (run exec cmd dir check debug) clean stopped.
Proof.
  intros Hcmd. apply triple_run; intros tr rc Htr Hfail.
  - now apply clean_snoc.
  - now apply clean_snoc_stopped.
Qed.

(** [try: body except Exception: sys.exit(code)]. *)
Lemma try_except_exit {A} (P Q E : list invocation -> Prop)
    (body : M (world I) A) (code : Z) (w : world I) :
  triple P body Q E -> P (trace w) ->
  match try_except body (fun _ => sys_exit code) w with
  | (Return _, w') => Q (trace w')
  | (SysExit c, w') => c = code /\ E (trace w')
  | (Raise _, _) => False
  end.
Proof.
  intros Hbody HP. unfold try_except, sys_exit. specialize (Hbody w HP).
  destruct (body w) as [[a | e | c] w']; [exact Hbody | now split | destruct Hbody].
Qed.

End TripleFacts.

Section QuietFacts.

Context {I : Type}.

Lemma quiet_ret {A} (a : A) : quiet (I := I) (ret a).
Proof. intros w. split; [reflexivity | discriminate]. Qed.

Lemma quiet_raise {A} (e : exn) : quiet (I := I) (A := A) (raise e).
Proof. intros w. split; [reflexivity | discriminate]. Qed.

Lemma quiet_lift {A} (o : outcome A) :
  (forall c, o <> SysExit c) -> quiet (I := I) (lift o).
Proof. intros Ho w. split; [reflexivity | exact Ho]. Qed.

Lemma quiet_bind {A B} (m : M (world I) A) (k : A -> M (world I) B) :
  quiet m -> (forall a, quiet (k a)) -> quiet (bind m k).
Proof.
  intros Hm Hk w. unfold bind. destruct (Hm w) as [Htr Hexit].
  destruct (m w) as [[a | e | c] w']; cbn [fst snd] in *.
  - destruct (Hk a w') as [Htr' Hexit']. split; [congruence | exact Hexit'].
  - split; [exact Htr | discriminate].
  - now destruct (Hexit c).
Qed.

Lemma quiet_read_inventory p : quiet (read_inventory (I := I) p).
Proof.
  intros w. unfold read_inventory.
  destruct (decide _); [destruct (inventory_yml (cfg w))|]; split;
    first [reflexivity | discriminate].
Qed.

Lemma quiet_write_inventory p t : quiet (write_inventory (I := I) p t).
Proof.
  intros w. unfold write_inventory.
  destruct (decide _); split; first [reflexivity | discriminate].
Qed.

Lemma quiet_safe_load p : quiet (safe_load (I := I) p).
Proof.
  intros w. unfold safe_load.
  destruct (decide _); [destruct (emails_yml (cfg w))|]; split;
    first [reflexivity | discriminate].
Qed.

Lemma quiet_safe_dump d p : quiet (safe_dump (I := I) d p).
Proof.
  intros w. unfold safe_dump.
  destruct (decide _); split; first [reflexivity | discriminate].
Qed.

Lemma quiet_probe : quiet (probe (I := I)).
Proof. intros w. split; [reflexivity | discriminate]. Qed.

Lemma quiet_get_debug : quiet (get_debug (I := I)).
Proof. intros w. split; [reflexivity | discriminate]. Qed.

Lemma quiet_environ_get var : quiet (environ_get (I := I) var).
Proof. intros w. split; [reflexivity | discriminate]. Qed.

Lemma quiet_prompt_to_continue ci : quiet (prompt_to_continue (I := I) ci).
Proof. intros w. destruct ci; split; first [reflexivity | discriminate]. Qed.

End QuietFacts.

(** ** The stages of the create pipeline *)

Section CreateStages.

Ltac quiet_tac :=
  repeat first
    [ apply quiet_ret | apply quiet_raise | apply quiet_read_inventory
    | apply quiet_write_inventory | apply quiet_safe_load | apply quiet_safe_dump
    | apply quiet_probe | apply quiet_get_debug | apply quiet_environ_get
    | apply quiet_prompt_to_continue
    | apply quiet_bind; [|intros ?]
    | match goal with
      | |- quiet (if ?b then _ else _) => destruct b
      end ].

Lemma quiet_yaml_contains key obj :
  quiet (I := string) (lift (PyYaml.contains key obj)).
Proof. apply quiet_lift. intros c. now destruct obj. Qed.

Lemma quiet_yaml_getitem obj key :
  quiet (I := string) (lift (PyYaml.getitem obj key)).
Proof.
  apply quiet_lift. intros c. destruct obj as [| | | | |m]; try discriminate.
  cbn. now destruct (m !! key).
Qed.

Lemma quiet_yaml_setitem obj key v :
  quiet (I := string) (lift (PyYaml.setitem obj key v)).
Proof. apply quiet_lift. intros c. now destruct obj. Qed.

Lemma quiet_add_host_to_inventory self H :
  quiet (Create.add_host_to_inventory self H).
Proof. unfold Create.add_host_to_inventory. quiet_tac. Qed.

Lemma quiet_add_email_for_host self H E :
  quiet (Create.add_email_for_host self H E).
Proof.
  unfold Create.add_email_for_host.
  repeat first
    [ apply quiet_yaml_contains | apply quiet_yaml_getitem | apply quiet_yaml_setitem
    | apply quiet_ret | apply quiet_safe_load | apply quiet_safe_dump
    | apply quiet_bind; [|intros ?]
    | match goal with
      | |- quiet (if ?b then _ else _) => destruct b
      end ].
Qed.

Lemma quiet_copy_with_prefix src dst prefix :
  quiet (Create.copy_with_prefix src dst prefix).
Proof. unfold Create.copy_with_prefix. quiet_tac. Qed.

(** One step of a triple whose leaves keep the invariant. *)
Ltac early_step :=
  first
    [ apply triple_ret
    | apply triple_dimmed
    | apply triple_run_early; reflexivity
    | apply triple_quiet; [apply early_stopped | quiet_tac; fail]
    | apply triple_quiet; [apply early_stopped | apply quiet_copy_with_prefix]
    | eapply triple_bind; [|intros ?]
    | match goal with
      | |- triple _ (if ?b then _ else _) _ _ => destruct b
      end ].

Ltac clean_step :=
  first
    [ apply triple_ret
    | apply triple_dimmed
    | apply triple_run_clean; reflexivity
    | apply triple_quiet; [apply clean_stopped | quiet_tac; fail]
    | apply triple_quiet; [apply clean_stopped | apply quiet_add_host_to_inventory]
    | apply triple_quiet; [apply clean_stopped | apply quiet_add_email_for_host]
    | eapply triple_bind; [|intros ?]
    | match goal with
      | |- triple _ (if ?b then _ else _) _ _ => destruct b
      end ].

Lemma clone_terramate_repo_early url path :
  triple early (Create.clone_terramate_repo url path) early stopped.
Proof. unfold Create.clone_terramate_repo, Create.run. repeat early_step. Qed.

Lemma clone_ansible_repo_early url path branch :
  triple early (Create.clone_ansible_repo url path branch) early stopped.
Proof. unfold Create.clone_ansible_repo, Create.run. repeat early_step. Qed.

Lemma create_and_apply_early stack_path tcp prefix host template ci :
  triple early
    (Create.create_and_apply_terraform_stack stack_path tcp prefix host template ci)
    early stopped.
Proof.
  unfold Create.create_and_apply_terraform_stack, Create.run.
  destruct ci; repeat early_step.
Qed.

Lemma ensure_host_clean self H E :
  triple clean (Create.ensure_host self H E) clean stopped.
Proof. unfold Create.ensure_host, Create.run. repeat clean_step. Qed.

Lemma add_to_ansible_inventory_clean root H E :
  triple clean (Create.add_to_ansible_inventory root H E) clean stopped.
Proof.
  unfold Create.add_to_ansible_inventory. apply triple_dimmed.
  eapply triple_bind; [apply ensure_host_clean | intros ?; apply triple_ret].
Qed.

Lemma run_ansible_clean root H k1 k2 v :
  triple clean (Create.run_ansible root H k1 k2 v) clean stopped.
Proof. unfold Create.run_ansible, Create.run. repeat clean_step. Qed.

Lemma import_db_clean H : triple clean (Create.import_db H) clean stopped.
Proof. unfold Create.import_db, Create.run. repeat clean_step. Qed.

Lemma play_tones_clean freqs : triple clean (Create.play_tones freqs) clean stopped.
Proof.
  induction freqs as [|f freqs IH]; cbn [Create.play_tones].
  - apply triple_ret.
  - unfold Create.run. repeat clean_step. exact IH.
Qed.

End CreateStages.

Section CreateMain.

Variable args : Create.arguments.
Variable o : outside.
Variable c : Create.cfg_repo.

Ltac pipeline_step :=
  first
    [ apply clone_terramate_repo_early
    | apply clone_ansible_repo_early
    | apply create_and_apply_early
    | apply add_to_ansible_inventory_clean
    | apply run_ansible_clean
    | apply import_db_clean
    | apply play_tones_clean
    | apply triple_ret
    | apply triple_quiet;
        [apply early_stopped
        | first [apply quiet_environ_get | apply quiet_probe
                | apply quiet_prompt_to_continue | apply quiet_ret]]
    | apply triple_quiet;
        [apply clean_stopped
        | first [apply quiet_environ_get | apply quiet_probe
                | apply quiet_prompt_to_continue | apply quiet_ret]]
    | match goal with
      | |- triple early (bind (Create.add_to_ansible_inventory _ _ _) _) _ _ =>
          eapply triple_pre; [exact early_clean|]
      | |- triple _ (if ?b then _ else _) _ _ => destruct b
      | |- triple _ (bind _ _) _ _ => eapply triple_bind; [|intros ?]
      end ].

(** The whole pipeline: it returns with nothing failed, or it ends with
    [sys.exit(1)] in a stopped state. *)
Lemma create_main_outcome :
  match Create.main args (boot o c) with
  | (Return _, w') => clean (trace w')
  | (SysExit code, w') => code = 1 /\ stopped (trace w')
  | (Raise _, _) => False
  end.
Proof.
  unfold Create.main.
  unfold bind at 1, environ_get at 1. cbn [boot out].
  unfold bind at 1, set_debug at 1. cbn [boot out].
  unfold bind at 1. cbn [out].
  do 8 (unfold bind at 1, get_env at 1, bind at 1, environ_get at 1; cbn [out andb ret]).
  apply (try_except_exit (P := early) (Q := clean) (E := stopped)).
  - repeat pipeline_step.
  - split; constructor.
Qed.

End CreateMain.

(** C2. In every run of the create pipeline a command that exits
    non-zero under failure checking is the last process the run starts,
    whatever stage it belongs to, and the process then ends with exit
    status 1; in particular, when it is the infra-apply command, no
    command of the configuration-management stage or of the
    data-bootstrap stage is started in the run. *)
Theorem failing_command_stops_pipeline (args : Create.arguments) (o : outside)
    (c : Create.cfg_repo) :
  let res := Create.main args (boot o c) in
  (forall pre i post,
     trace (snd res) = (pre ++ i :: post)%list -> failed i = true ->
     post = [] /\ exit_status (fst res) = 1)
  /\ (forall i,
        In i (trace (snd res)) ->
        runs ["terraform"; "apply"] i = true -> failed i = true ->
        forall j, In j (trace (snd res)) ->
          runs ["ansible-playbook"] j = false
          /\ runs ["ssh-import-db.sh"] j = false).
Proof.
  cbn zeta. pose proof (create_main_outcome args o c) as Hout.
  destruct (Create.main args (boot o c)) as [[[] | e | code] w'];
    cbn [fst snd]; [| destruct Hout |].
  - split.
    + intros pre i post Heq Hi. exfalso. unfold clean in Hout.
      rewrite Forall_forall in Hout.
      assert (Hin : i ∈ trace w')
        by (rewrite Heq; apply list_elem_of_In, in_or_app; right; now left).
      apply Hout in Hin. congruence.
    + intros i Hin _ Hi. exfalso. unfold clean in Hout.
      rewrite Forall_forall in Hout. apply list_elem_of_In, Hout in Hin. congruence.
  - destruct Hout as [-> [Hlast Hearly]]. split.
    + intros pre i post Heq Hi. split; [exact (Hlast pre i post Heq Hi) | reflexivity].
    + intros i Hin Happly Hi j Hj.
      assert (Hex : Exists (fun i => apply_failed i = true) (trace w')).
      { apply Exists_exists. exists i. split; [now apply list_elem_of_In|].
        unfold apply_failed. now rewrite Happly, Hi. }
      specialize (Hearly Hex). rewrite Forall_forall in Hearly.
      apply list_elem_of_In, Hearly in Hj. unfold late in Hj.
      now apply orb_false_iff in Hj.
Qed.

(** A run in which the infra-apply command fails: five processes, the
    last of them [terraform apply], and exit status 1. *)
Example apply_failure_stops_run :
  let res := Create.main (Create.mkArgs "t1" true false false)
               (boot Sample.apply_fails (Sample.cloned_for "t1")) in
  exit_status (fst res) = 1
  /\ map argv (trace (snd res))
     = [["git"; "add"; "."];
        ["git"; "commit"; "-m"; "Create or update test instance t1.aopstest.com"];
        ["git"; "push"; "origin"; "main"];
        ["terraform"; "init"];
        ["terraform"; "apply"; "-auto-approve"]]
  /\ map returncode (trace (snd res)) = [0; 0; 0; 0; 1].
Proof. vm_compute. repeat split. Qed.

(** A run in which nothing fails goes through the five stages. *)
Example calm_run_completes :
  let res := Create.main (Create.mkArgs "t1" true false false)
               (boot Sample.calm (Sample.cloned_for "t1")) in
  exit_status (fst res) = 0
  /\ map (fun i => hd "" (argv i)) (trace (snd res))
     = ["git"; "git"; "git"; "terraform"; "terraform"; "git"; "git"; "git";
        "ansible-playbook"; "ansible-playbook"; "ssh-import-db.sh"]
  /\ inventory_yml (cfg (snd res))
     = Some ("hosts:" ++ PyStr.nl ++ "  t1.aopstest.com:" ++ PyStr.nl).
Proof. vm_compute. repeat split. Qed.

(** C7, the create script at a malformed prefix: the prefix is not
    alphanumeric, yet the pipeline starts its commands with it and ends
    with exit status 0. *)
Theorem create_runs_with_malformed_prefix :
  let args := Create.mkArgs "bad prefix!" true false false in
  let res := Create.main args (boot Sample.calm (Sample.cloned_for "bad prefix!")) in
  PyStr.isalnum (Create.arg_prefix args) = false
  /\ Destroy.valid_prefix (Create.arg_prefix args) = false
  /\ exit_status (fst res) = 0
  /\ length (trace (snd res)) = 11%nat
  /\ In ["ssh-import-db.sh"; "bad prefix!.aopstest.com"] (map argv (trace (snd res))).
Proof.
  cbn zeta. split; [reflexivity|]. split; [reflexivity|].
  split; [vm_compute; reflexivity|]. split; [vm_compute; reflexivity|].
  vm_compute. repeat (first [left; reflexivity | right]).
Qed.

(** The destroy script checks the prefix first: a malformed prefix ends
    the process with exit status 1 before any process is started. *)
Lemma destroy_rejects_malformed_prefix (args : Destroy.arguments) (o : outside)
    (c : Destroy.cfg_repo) :
  Destroy.valid_prefix (Destroy.arg_prefix args) = false ->
  let res := Destroy.main args (boot o c) in
  exit_status (fst res) = 1 /\ trace (snd res) = [] /\ probed (snd res) = 0%nat
  /\ cfg (snd res) = c /\ stderr (snd res) = [Destroy.prefix_error].
Proof.
  intros Hbad. cbn zeta. rewrite (@destroy_main_malformed_prefix args o c Hbad).
  now cbn.
Qed.

(* ===================================================================== *)
(** * Further properties of the two scripts *)

(** ** The prefix check of the destroy script *)

Section PrefixCheck.

Import PyStr.

Lemma without_marks_cons (c : ascii) (s : string) :
  replace "-" "" (replace "_" "" (String c s))
  = if Ascii.eqb c "_" || Ascii.eqb c "-" then replace "-" "" (replace "_" "" s)
    else String c (replace "-" "" (replace "_" "" s)).
Proof.
  cbn [replace].
  destruct (Ascii.eqb c "_") eqn:Hu; cbn [orb].
  - reflexivity.
  - cbn [replace]. now destruct (Ascii.eqb c "-").
Qed.

Lemma mark_not_alnum (c : ascii) :
  Ascii.eqb c "_" || Ascii.eqb c "-" = true -> isalnum_char c = false.
Proof.
  intros Hc. apply orb_true_iff in Hc as [Hc | Hc];
    apply Ascii.eqb_eq in Hc; subst c; reflexivity.
Qed.

Lemma all_alnum_without_marks (s : string) :
  all_alnum (replace "-" "" (replace "_" "" s)) = forallb prefix_char (list_ascii_of_string s).
Proof.
  induction s as [|c s IH]; [reflexivity|].
  rewrite without_marks_cons. cbn [list_ascii_of_string forallb]. unfold prefix_char at 1.
  destruct (Ascii.eqb c "_" || Ascii.eqb c "-") eqn:Hc.
  - rewrite IH, <- orb_assoc, Hc, orb_true_r. reflexivity.
  - cbn [all_alnum]. rewrite IH, <- orb_assoc, Hc, orb_false_r. reflexivity.
Qed.

Lemma isalnum_without_marks (s : string) :
  isalnum (replace "-" "" (replace "_" "" s))
  = forallb prefix_char (list_ascii_of_string s)
    && existsb isalnum_char (list_ascii_of_string s).
Proof.
  induction s as [|c s IH]; [reflexivity|].
  rewrite without_marks_cons. cbn [list_ascii_of_string forallb existsb].
  unfold prefix_char at 1.
  destruct (Ascii.eqb c "_" || Ascii.eqb c "-") eqn:Hc.
  - rewrite IH, <- orb_assoc, Hc, orb_true_r, (mark_not_alnum c Hc). reflexivity.
  - rewrite <- orb_assoc, Hc, orb_false_r. cbn [isalnum all_alnum].
    rewrite all_alnum_without_marks.
    destruct (isalnum_char c); cbn [andb orb]; [now rewrite andb_true_r | reflexivity].
Qed.

End PrefixCheck.

(** X1. The prefix check of the destroy script accepts exactly the
    prefixes made of alphanumeric characters, underscores and dashes
    that hold at least one alphanumeric character: the empty prefix and
    a prefix of underscores and dashes only are turned down. *)
Theorem valid_prefix_characterised (prefix : string) :
  Destroy.valid_prefix prefix
  = forallb prefix_char (list_ascii_of_string prefix)
    && existsb PyStr.isalnum_char (list_ascii_of_string prefix).
Proof. unfold Destroy.valid_prefix. apply isalnum_without_marks. Qed.

Example valid_prefix_examples :
  Destroy.valid_prefix "feature-12_b" = true
  /\ Destroy.valid_prefix "" = false
  /\ Destroy.valid_prefix "-_-" = false
  /\ Destroy.valid_prefix "a.b" = false
  /\ Destroy.valid_prefix "a b" = false.
Proof. repeat split. Qed.

(** ** Where [add_host_to_inventory] puts the new key *)

Section SpliceShape.

Import PyStr.
Variable H : string.

Lemma fold_splice_at_key (pre post : list string) (line : string) :
  Forall (fun l => strip l <> "hosts:") pre ->
  strip line = "hosts:" ->
  fst (fold_left (Create.splice H) (pre ++ line :: post)%list ([], false))
  = (pre ++ line :: Create.key_line H (len line - len (lstrip line) + 2) :: post)%list.
Proof.
  intros Hpre Hline. rewrite fold_left_app, (@fold_splice_none H pre [] false Hpre).
  cbn [fold_left app]. unfold Create.splice at 2.
  rewrite Hline. cbn [negb andb String.eqb Ascii.eqb Bool.eqb].
  rewrite fold_splice_inserted. cbn [fst].
  now rewrite <- !app_assoc.
Qed.

Lemma spliced_text_at_key (text : string) (pre post : list string) (line : string) :
  splitlines_keepends text = (pre ++ line :: post)%list ->
  Forall (fun l => strip l <> "hosts:") pre ->
  strip line = "hosts:" ->
  Create.spliced_text H text
  = join pre ++ line ++ Create.key_line H (len line - len (lstrip line) + 2) ++ join post.
Proof.
  intros Hlines Hpre Hline. unfold Create.spliced_text. cbn zeta.
  rewrite Hlines, (@fold_splice_at_key pre post line Hpre Hline).
  now rewrite join_app, !join_cons.
Qed.

(** *** Lines and text that is appended *)

Lemma splitlines_empty (s : string) : splitlines_keepends s = [] -> s = "".
Proof. intros Hs. rewrite <- (join_splitlines s), Hs. reflexivity. Qed.

Lemma linebreak_CR : is_linebreak CR = true.
Proof. reflexivity. Qed.

Lemma not_linebreak_not_CR (c : ascii) :
  is_linebreak c = false -> Ascii.eqb c CR = false.
Proof.
  intros Hc. destruct (Ascii.eqb c CR) eqn:E; [|reflexivity].
  apply Ascii.eqb_eq in E. subst c. discriminate.
Qed.

Lemma one_line_append (a b : string) :
  one_line (a ++ b) = one_line a && one_line b.
Proof.
  induction a as [|c a IH]; [reflexivity|].
  cbn [String.append one_line]. now rewrite IH, andb_assoc.
Qed.

Lemma one_line_spaces (n : nat) : one_line (spaces n) = true.
Proof. induction n as [|n IH]; [reflexivity | exact IH]. Qed.

(** A text without line boundary, closed by a newline, is one line. *)
Lemma splitlines_one_line (s : string) :
  one_line s = true -> splitlines_keepends (s ++ nl) = [s ++ nl].
Proof.
  induction s as [|c s IH]; intros Hs; [reflexivity|].
  cbn [one_line] in Hs. apply andb_true_iff in Hs as [Hc Hs].
  apply negb_true_iff in Hc.
  change (String c s ++ nl) with (String c (s ++ nl)).
  rewrite splitlines_cons, (not_linebreak_not_CR _ Hc), Hc, (IH Hs). reflexivity.
Qed.

Lemma one_line_head (c : ascii) (s : string) :
  one_line (String c s) = true -> is_linebreak c = false.
Proof. cbn [one_line]. intros Hs. apply andb_true_iff in Hs as [Hc _]. now apply negb_true_iff. Qed.

(** Text appended after a last line that is not closed goes on that
    line; the lines before it stay as they are. *)
Lemma splitlines_append_open (n : nat) :
  forall (a b : string) (pre : list string) (l : string),
    (String.length a <= n)%nat ->
    splitlines_keepends a = (pre ++ [l])%list -> one_line l = true ->
    splitlines_keepends (a ++ b) = (pre ++ splitlines_keepends (l ++ b))%list.
Proof.
  induction n as [|n IH]; intros a b pre l Hlen Ha Hl.
  - destruct a; [|cbn in Hlen; lia]. now destruct pre.
  - destruct a as [|c rest]; [now destruct pre|].
    cbn [String.length] in Hlen.
    rewrite splitlines_cons in Ha.
    change (String c rest ++ b) with (String c (rest ++ b)).
    rewrite splitlines_cons.
    destruct (Ascii.eqb c CR) eqn:Hcr.
    + apply Ascii.eqb_eq in Hcr. subst c.
      destruct rest as [|c2 rest'].
      * destruct pre as [|x pre]; cbn in Ha.
        -- injection Ha as <-. discriminate.
        -- injection Ha as _ Ha. now destruct pre.
      * change (String c2 rest' ++ b) with (String c2 (rest' ++ b)).
        destruct (Ascii.eqb c2 LF) eqn:Hlf.
        -- destruct pre as [|x pre]; cbn [app] in Ha.
           ++ injection Ha as <- _. discriminate.
           ++ injection Ha as <- Ha. cbn [app]. rewrite ?Hlf. f_equal.
              apply IH; [cbn [String.length] in Hlen; lia | exact Ha | exact Hl].
        -- destruct pre as [|x pre]; cbn [app] in Ha.
           ++ injection Ha as <- _. discriminate.
           ++ injection Ha as <- Ha. cbn [app]. rewrite ?Hlf. f_equal.
              change (String c2 (rest' ++ b)) with (String c2 rest' ++ b).
              apply IH; [lia | exact Ha | exact Hl].
    + destruct (is_linebreak c) eqn:Hlb.
      * destruct pre as [|x pre]; cbn [app] in Ha.
        -- injection Ha as <- _. cbn in Hl. rewrite Hlb in Hl. discriminate.
        -- injection Ha as <- Ha. cbn [app]. f_equal.
           apply IH; [lia | exact Ha | exact Hl].
      * destruct (splitlines_keepends rest) as [|l0 ls] eqn:Hrest.
        -- apply splitlines_empty in Hrest. subst rest.
           destruct pre as [|x pre]; cbn [app] in Ha.
           ++ injection Ha as <-. cbn [app String.append].
              now rewrite splitlines_cons, Hcr, Hlb.
           ++ injection Ha as _ Ha. now destruct pre.
        -- destruct pre as [|x pre]; cbn [app] in Ha.
           ++ injection Ha as <- ->. cbn [app].
              assert (Hr : rest = l0).
              { rewrite <- (join_splitlines rest), Hrest. reflexivity. }
              subst rest.
              change (String c l0 ++ b) with (String c (l0 ++ b)).
              now rewrite splitlines_cons, Hcr, Hlb.
           ++ injection Ha as <- ->.
              rewrite (IH rest b (l0 :: pre) l); [reflexivity | lia | exact Hrest | exact Hl].
Qed.

End SpliceShape.

Section AddHostFacts.

Import PyStr.
Variable H : string.

Lemma add_host_to_inventory_eval (w : Create.world) :
  Create.add_host_to_inventory (Create.InventoryManager_init (root (cfg w))) H w
  = match inventory_yml (cfg w) with
    | Some t =>
        (Return tt, set_cfg (set_inventory (Some (Create.spliced_text H t)) (cfg w)) w)
    | None => (Raise (FileNotFoundError (PyPath.str (inventory_path (cfg w)))), w)
    end.
Proof.
  unfold Create.add_host_to_inventory, bind, read_inventory, write_inventory.
  cbn [Create.inventory_file Create.InventoryManager_init].
  fold (inventory_path (cfg w)). rewrite decide_True by reflexivity.
  destruct (inventory_yml (cfg w)) as [t|]; [|reflexivity].
  now rewrite decide_True by reflexivity.
Qed.

Lemma key_line_closed (line : string) (n : nat) :
  one_line line = true -> one_line H = true ->
  splitlines_keepends (line ++ Create.key_line H n) = [line ++ Create.key_line H n].
Proof.
  intros Hline HH. unfold Create.key_line.
  replace (line ++ spaces n ++ H ++ ":" ++ nl)
    with ((line ++ spaces n ++ H ++ ":") ++ nl)
    by now rewrite !append_assoc_s.
  apply splitlines_one_line.
  now rewrite !one_line_append, Hline, one_line_spaces, HH.
Qed.

End AddHostFacts.



(** X3. When the line that strips to [hosts:] is the last line of the
    host list and is not closed by a line boundary, the key line is
    appended to the text as it is: the file ends with the [hosts:] key
    and the new key on one and the same line, and has as many lines as
    before. *)
Theorem add_host_after_unclosed_hosts_key (H : string) (w : Create.world)
    (text : string) (pre : list string) (line : string) :
  inventory_yml (cfg w) = Some text ->
  PyStr.splitlines_keepends text = (pre ++ [line])%list ->
  Forall (fun l => PyStr.strip l <> "hosts:") pre ->
  PyStr.strip line = "hosts:" ->
  one_line line = true ->
  one_line H = true ->
  let key := Create.key_line H (PyStr.len line - PyStr.len (PyStr.lstrip line) + 2) in
  let res := Create.add_host_to_inventory
               (Create.InventoryManager_init (root (cfg w))) H w in
  fst res = Return tt
  /\ inventory_yml (cfg (snd res)) = Some (text ++ key)
  /\ PyStr.splitlines_keepends (text ++ key) = (pre ++ [(line ++ key)%string])%list.
Proof.
  intros Hfile Hlines Hpre Hline Hopen HH. cbn zeta.
  rewrite add_host_to_inventory_eval, Hfile.
  rewrite (@spliced_text_at_key H text pre [] line Hlines Hpre Hline).
  cbn [fst snd set_cfg cfg set_inventory inventory_yml].
  split; [reflexivity|]. split.
  - f_equal. rewrite <- (join_splitlines text), Hlines, join_app.
    cbn [PyStr.join String.concat]. now rewrite append_empty_r, !append_assoc_s.
  - rewrite (@splitlines_append_open (String.length text) text _ pre line
               (Nat.le_refl _) Hlines Hopen).
    now rewrite key_line_closed.
Qed.

Lemma add_host_after_unclosed_hosts_key_witness :
  let nl := PyStr.nl in
  inventory_yml (cfg Cases.unclosed) = Some ("all:" ++ nl ++ "  hosts:")
  /\ inventory_yml
       (cfg (snd (Create.add_host_to_inventory
                    (Create.InventoryManager_init (root (cfg Cases.unclosed)))
                    "t1.aopstest.com" Cases.unclosed)))
     = Some ("all:" ++ nl ++ "  hosts:    t1.aopstest.com:" ++ nl)
  /\ PyStr.splitlines_keepends ("all:" ++ nl ++ "  hosts:    t1.aopstest.com:" ++ nl)
     = ["all:" ++ nl; "  hosts:    t1.aopstest.com:" ++ nl].
Proof.
  cbn zeta.
  destruct (@add_host_after_unclosed_hosts_key "t1.aopstest.com" Cases.unclosed
              ("all:" ++ PyStr.nl ++ "  hosts:") ["all:" ++ PyStr.nl] "  hosts:")
    as (_ & Hfile & Hlines); try reflexivity.
  - constructor; [vm_compute; discriminate | constructor].
  - split; [reflexivity|]. split; [exact Hfile | exact Hlines].
Defined.

(** ** The contact file *)

Section EmailStepFacts.

Variables H E : string.

Lemma email_step_keeps_entry (d : yaml) (v : yaml) :
  email_of H d = Some v -> Create.email_step H E d = Return (false, d).
Proof.
  unfold email_of, entry, Create.email_step.
  destruct d as [| | | | |m]; try discriminate.
  destruct (m !! "host_emails") as [[| | | | |hm]|]; try discriminate.
  intros Hv. rewrite bool_decide_eq_true_2; [reflexivity | now exists v].
Qed.

Lemma email_step_added (d d' : yaml) :
  Create.email_step H E d = Return (true, d') ->
  email_of H d = None
  /\ email_of H d' = Some (YStr E)
  /\ (forall h, h <> H -> email_of h d' = email_of h d)
  /\ (forall k, k <> "host_emails" -> entry k d' = entry k d).
Proof.
  unfold email_of, entry, Create.email_step.
  destruct d as [| | | | |m]; try discriminate.
  destruct (m !! "host_emails") as [[| b | z | s | l |hm]|] eqn:Hsec; cbn.
  - discriminate.
  - discriminate.
  - discriminate.
  - destruct (PyStr.contains H s); discriminate.
  - destruct (existsb (PyYaml.is_str H) l); discriminate.
  - destruct (hm !! H) as [x|] eqn:Hx.
    + rewrite bool_decide_eq_true_2 by now exists x. discriminate.
    + rewrite bool_decide_eq_false_2 by now intros [x Hx'].
      intros [= <-]. rewrite lookup_insert_eq. split; [reflexivity|].
      split; [apply lookup_insert_eq|]. split.
      * intros h Hh. now apply lookup_insert_ne.
      * intros k Hk. now apply lookup_insert_ne.
  - intros [= <-]. rewrite lookup_insert_eq. split; [reflexivity|].
    split; [apply lookup_insert_eq|]. split.
    + intros h Hh. rewrite lookup_insert_ne by easy. apply lookup_empty.
    + intros k Hk. now apply lookup_insert_ne.
Qed.

Lemma email_step_no_exit (d : yaml) (c : Z) :
  Create.email_step H E d <> SysExit c.
Proof.
  unfold Create.email_step.
  destruct d as [| | | | |m]; try discriminate.
  destruct (m !! "host_emails") as [[| b | z | s | l |hm]|]; cbn; try discriminate.
  - destruct (PyStr.contains H s); discriminate.
  - destruct (existsb (PyYaml.is_str H) l); discriminate.
  - destruct (bool_decide _); discriminate.
Qed.

End EmailStepFacts.



(** X5. [ensure_host] stops at the first file it cannot use, and does
    not undo what it did before.  Without a host-list file it raises
    before anything changed.  With a host list but a contact file that
    is missing, or whose document is not a mapping (an empty file loads
    as [None]), it raises after the host list has been rewritten, and
    starts no process: the change is left in the working copy, not
    committed. *)
Theorem ensure_host_stops_half_way (H E : string) (w : Create.world) :
  let self := Create.InventoryManager_init (root (cfg w)) in
  let res := Create.ensure_host self H E w in
  (inventory_yml (cfg w) = None ->
   res = (Raise (FileNotFoundError (PyPath.str (inventory_path (cfg w)))), w))
  /\ (forall t,
        inventory_yml (cfg w) = Some t ->
        let w1 := set_cfg (set_inventory (Some (Create.text_after H t)) (cfg w)) w in
        (emails_yml (cfg w) = None ->
         res = (Raise (FileNotFoundError (PyPath.str (emails_path (cfg w)))), w1))
        /\ (forall d, emails_yml (cfg w) = Some d ->
              (forall m, d <> YMap m) -> res = (Raise TypeError, w1))).
Proof.
  cbn zeta. rewrite ensure_host_spec. cbn zeta. split.
  - now intros ->.
  - intros t ->. split.
    + now intros ->.
    + intros d -> Hd. destruct d as [| | | | |m]; try reflexivity.
      now destruct (Hd m).
Qed.

Lemma ensure_host_stops_half_way_witness :
  let w := Cases.empty_contacts in
  let res := Create.ensure_host (Create.InventoryManager_init (root (cfg w)))
               "t1.aopstest.com" "a@b.com" w in
  fst res = Raise TypeError
  /\ inventory_yml (cfg (snd res))
     = Some ("hosts:" ++ PyStr.nl ++ "  t1.aopstest.com:" ++ PyStr.nl)
  /\ trace (snd res) = []
  /\ commits (cfg (snd res)) = [].
Proof.
  cbn zeta.
  destruct (ensure_host_stops_half_way "t1.aopstest.com" "a@b.com" Cases.empty_contacts)
    as [_ Hhalf].
  destruct (Hhalf ("hosts:" ++ PyStr.nl) eq_refl) as [_ Hdoc].
  rewrite (Hdoc YNull eq_refl); [|discriminate].
  repeat split.
Defined.

(** ** The command runner and the environment *)


(** X7. [get_env] with [required=True] never hands back a missing or
    empty value: it returns the non-empty value of the variable, or of
    the default when the variable is not set, and otherwise prints on
    stderr that the variable is required and ends the process with exit
    status 1.  A variable that is set to the empty string is not
    replaced by the default.  Either way no process is started. *)
Theorem get_env_required {I : Type} (var : string) (default : option string)
    (w : world I) :
  let res := get_env var default true w in
  match fst res with
  | Return v =>
      snd res = w
      /\ exists s, v = Some s /\ s <> ""
           /\ (environ (out w) !! var = Some s
               \/ (environ (out w) !! var = None /\ default = Some s))
  | SysExit code =>
      code = 1
      /\ snd res
         = complained ("[red]ERROR: " ++ var ++ " is required but not set.[/red]") w
      /\ (environ (out w) !! var = Some ""
          \/ (environ (out w) !! var = None
              /\ (default = None \/ default = Some "")))
  | Raise _ => False
  end.
Proof.
  cbn zeta. unfold get_env, bind, environ_get. cbn [andb].
  destruct (environ (out w) !! var) as [s|] eqn:Hvar.
  - destruct (String.eqb s "") eqn:Hs; cbn.
    + apply String.eqb_eq in Hs. subst s. repeat split. now left.
    + apply String.eqb_neq in Hs. split; [reflexivity|]. exists s. auto.
  - destruct default as [s|]; cbn.
    + destruct (String.eqb s "") eqn:Hs; cbn.
      * apply String.eqb_eq in Hs. subst s. repeat split. right. split; [reflexivity | now right].
      * apply String.eqb_neq in Hs. split; [reflexivity|]. exists s. auto.
    + repeat split. right. split; [reflexivity | now left].
Qed.

(** ** Reasoning about the worlds a computation goes through *)

Section HoareRules.

Context {I : Type}.

Lemma hoare_ret {A} (P E : world I -> Prop) (a : A) : hoare P (ret a) P E.
Proof. intros w HP. exact HP. Qed.

Lemma hoare_raise {A} (P Q : world I -> Prop) (e : exn) :
  hoare (A := A) P (raise e) Q P.
Proof. intros w HP. exact HP. Qed.

Lemma hoare_bind {A B} (P Q R E : world I -> Prop)
    (m : M (world I) A) (k : A -> M (world I) B) :
  hoare P m Q E -> (forall a, hoare Q (k a) R E) -> hoare P (bind m k) R E.
Proof.
  intros Hm Hk w HP. unfold bind. specialize (Hm w HP).
  destruct (m w) as [[a | e | c] w']; [|exact Hm|exact Hm].
  exact (Hk a w' Hm).
Qed.

Lemma hoare_pre {A} (P P' Q E : world I -> Prop) (m : M (world I) A) :
  (forall w, P w -> P' w) -> hoare P' m Q E -> hoare P m Q E.
Proof. intros Himp Hm w HP. exact (Hm w (Himp _ HP)). Qed.

Lemma hoare_post {A} (P Q Q' E E' : world I -> Prop) (m : M (world I) A) :
  hoare P m Q E -> (forall w, Q w -> Q' w) -> (forall w, E w -> E' w) ->
  hoare P m Q' E'.
Proof.
  intros Hm HQ HE w HP. specialize (Hm w HP).
  destruct (m w) as [[a | e | c] w']; auto.
Qed.

Lemma hoare_dimmed {A} (P Q E : world I -> Prop) (func : M (world I) A) :
  hoare P func Q E -> hoare P (dimmed_timed_step func) Q E.
Proof.
  intros Hf w HP. unfold dimmed_timed_step, bind, get_debug.
  specialize (Hf w HP). destruct (DEBUG_MODE w); [exact Hf|].
  destruct (func w) as [[a | e | c] w']; exact Hf.
Qed.

(** A computation that reads the world without changing it. *)
Lemma hoare_reader {A} (P E : world I -> Prop) (m : M (world I) A) :
  (forall w, snd (m w) = w /\ forall c, fst (m w) <> SysExit c) ->
  (forall w, P w -> E w) -> hoare P m P E.
Proof.
  intros Hm HE w HP. destruct (Hm w) as [Hw Hexit].
  destruct (m w) as [[a | e | c] w']; cbn [fst snd] in *; subst w'; auto.
  now apply (Hexit c).
Qed.

Lemma hoare_get_debug (P E : world I -> Prop) : hoare P get_debug P E.
Proof. intros w HP. exact HP. Qed.

Lemma hoare_environ_get (P E : world I -> Prop) var : hoare P (environ_get var) P E.
Proof. intros w HP. exact HP. Qed.

Lemma hoare_probe (P Q E : world I -> Prop) :
  (forall w, P w -> Q (asked w)) -> hoare P probe Q E.
Proof. intros HQ w HP. exact (HQ w HP). Qed.

(** A question about a path whose answer is known. *)
Lemma hoare_bind_probe {B} (b : bool) (P R E : world I -> Prop)
    (k : bool -> M (world I) B) :
  (forall w, P w -> probes (out w) (probed w) = b) ->
  (forall w, P w -> P (asked w)) ->
  hoare P (k b) R E -> hoare P (bind probe k) R E.
Proof.
  intros Hb Hasked Hk w HP. unfold bind, probe. rewrite (Hb w HP).
  exact (Hk _ (Hasked w HP)).
Qed.

(** A variable of the environment whose value is known. *)
Lemma hoare_bind_environ {B} (v : option string) (P R E : world I -> Prop) var
    (k : option string -> M (world I) B) :
  (forall w, P w -> environ (out w) !! var = v) ->
  hoare P (k v) R E -> hoare P (bind (environ_get var) k) R E.
Proof.
  intros Hv Hk w HP. unfold bind, environ_get. rewrite (Hv w HP).
  exact (Hk w HP).
Qed.

Lemma hoare_prompt (P Q E : world I -> Prop) (ci : bool) :
  (forall w, P w -> Q w) ->
  (ci = false -> forall w, P w -> Q (snd (prompt_ask w))) ->
  hoare P (prompt_to_continue ci) Q E.
Proof.
  intros Hsame Hask w HP. destruct ci; cbn.
  - now apply Hsame.
  - now apply (Hask eq_refl w).
Qed.

Lemma result_of_cases (exec : tool I) cmd dir (w : world I) :
  (faults (out w) (length (trace w)) = 0
   /\ result_of exec cmd dir w
      = (fst (fst (exec cmd dir (cfg w))), snd (exec cmd dir (cfg w))))
  \/ (faults (out w) (length (trace w)) <> 0
      /\ result_of exec cmd dir w = (faults (out w) (length (trace w)), cfg w)).
Proof.
  unfold result_of. cbn zeta.
  destruct (faults (out w) (length (trace w)) =? 0) eqn:Hf.
  - left. apply Z.eqb_eq in Hf. auto.
  - right. apply Z.eqb_neq in Hf. auto.
Qed.

Lemma spawn_result (exec : tool I) cmd dir check (w : world I) :
  exists text,
    spawn exec cmd dir check w
    = (Return (fst (result_of exec cmd dir w), text),
       logged (mkInvocation cmd dir check (fst (result_of exec cmd dir w)))
         (snd (result_of exec cmd dir w)) w).
Proof.
  unfold spawn, result_of. cbn zeta.
  destruct (faults (out w) (length (trace w)) =? 0).
  - destruct (exec cmd dir (cfg w)) as [[rc text] c]. now exists text.
  - now exists "".
Qed.

Lemma run_result (exec : tool I) cmd dir check debug (w : world I) :
  let rc := fst (result_of exec cmd dir w) in
  let w' := logged (mkInvocation cmd dir check rc) (snd (result_of exec cmd dir w)) w in
  run exec cmd dir check debug w
  = if check && negb (rc =? 0)
    then (Raise (CalledProcessError rc cmd), complained (complaint cmd) w')
    else (Return rc, w').
Proof.
  cbn zeta. rewrite run_eval. unfold result_of. cbn zeta.
  destruct (faults (out w) (length (trace w)) =? 0); [|reflexivity].
  now destruct (exec cmd dir (cfg w)) as [[rc text] c].
Qed.

Lemma hoare_run (exec : tool I) (P Q E : world I -> Prop) cmd dir check debug :
  (forall w, P w ->
     let rc := fst (result_of exec cmd dir w) in
     let w' := logged (mkInvocation cmd dir check rc)
                 (snd (result_of exec cmd dir w)) w in
     if check && negb (rc =? 0) then E (complained (complaint cmd) w') else Q w') ->
  hoare P (run exec cmd dir check debug) Q E.
Proof.
  intros Hrun w HP. specialize (Hrun w HP). cbn zeta in Hrun.
  rewrite run_result. cbn zeta.
  now destruct (check && negb (fst (result_of exec cmd dir w) =? 0)).
Qed.

Lemma hoare_spawn (exec : tool I) (P Q E : world I -> Prop) cmd dir check :
  (forall w, P w ->
     Q (logged (mkInvocation cmd dir check (fst (result_of exec cmd dir w)))
          (snd (result_of exec cmd dir w)) w)) ->
  hoare P (spawn exec cmd dir check) Q E.
Proof.
  intros Hrun w HP. destruct (spawn_result exec cmd dir check w) as [text ->].
  now apply Hrun.
Qed.

(** [try: body except Exception: sys.exit(code)]. *)
Lemma hoare_try_exit {A} (P Q E : world I -> Prop)
    (body : M (world I) A) (code : Z) (w : world I) :
  hoare P body Q E -> P w ->
  match try_except body (fun _ => sys_exit code) w with
  | (Return _, w') => Q w'
  | (SysExit c, w') => c = code /\ E w'
  | (Raise _, _) => False
  end.
Proof.
  intros Hbody HP. unfold try_except, sys_exit. specialize (Hbody w HP).
  destruct (body w) as [[a | e | c] w']; [exact Hbody | now split | destruct Hbody].
Qed.

End HoareRules.

Section InertFacts.

Context {I : Type}.

Lemma same_but_probed_refl (w : world I) : same_but_probed w w.
Proof. now repeat split. Qed.

Lemma same_but_probed_trans (w1 w2 w3 : world I) :
  same_but_probed w1 w2 -> same_but_probed w2 w3 -> same_but_probed w1 w3.
Proof.
  intros (Ha & Hb & Hc & Hd & He & Hf) (Ha' & Hb' & Hc' & Hd' & He' & Hf').
  repeat split; congruence.
Qed.

Lemma inert_ret {A} (a : A) : inert (I := I) (ret a).
Proof. intros w. split; [apply same_but_probed_refl | discriminate]. Qed.

Lemma inert_raise {A} (e : exn) : inert (I := I) (A := A) (raise e).
Proof. intros w. split; [apply same_but_probed_refl | discriminate]. Qed.

Lemma inert_lift {A} (o : outcome A) :
  (forall c, o <> SysExit c) -> inert (I := I) (lift o).
Proof. intros Ho w. split; [apply same_but_probed_refl | exact Ho]. Qed.

Lemma inert_bind {A B} (m : M (world I) A) (k : A -> M (world I) B) :
  inert m -> (forall a, inert (k a)) -> inert (bind m k).
Proof.
  intros Hm Hk w. unfold bind. destruct (Hm w) as [Hw Hexit].
  destruct (m w) as [[a | e | c] w']; cbn [fst snd] in *.
  - destruct (Hk a w') as [Hw' Hexit']. split; [|exact Hexit'].
    now apply (same_but_probed_trans Hw).
  - split; [exact Hw | discriminate].
  - now destruct (Hexit c).
Qed.

Lemma inert_probe : inert (probe (I := I)).
Proof. intros w. split; [now repeat split | discriminate]. Qed.

Lemma inert_get_debug : inert (get_debug (I := I)).
Proof. intros w. split; [apply same_but_probed_refl | discriminate]. Qed.

Lemma inert_environ_get var : inert (environ_get (I := I) var).
Proof. intros w. split; [apply same_but_probed_refl | discriminate]. Qed.

Lemma inert_read_inventory `{EqDecision I} p : inert (read_inventory (I := I) p).
Proof.
  intros w. unfold read_inventory.
  destruct (decide _); [destruct (inventory_yml (cfg w))|]; split;
    first [apply same_but_probed_refl | discriminate].
Qed.

Lemma inert_safe_load p : inert (safe_load (I := I) p).
Proof.
  intros w. unfold safe_load.
  destruct (decide _); [destruct (emails_yml (cfg w))|]; split;
    first [apply same_but_probed_refl | discriminate].
Qed.

Lemma inert_file_exists p : inert (file_exists (I := I) p).
Proof.
  intros w. unfold file_exists.
  destruct (decide _); [|destruct (decide _)]; split;
    first [apply same_but_probed_refl | discriminate].
Qed.

Lemma hoare_inert {A} (P E : world I -> Prop) (m : M (world I) A) :
  inert m -> blind P -> (forall w, P w -> E w) -> hoare P m P E.
Proof.
  intros Hm HP HE w Hw. destruct (Hm w) as [Hsame Hexit].
  destruct (m w) as [[a | e | c] w']; cbn [fst snd] in *.
  - exact (HP _ _ Hsame Hw).
  - apply HE. exact (HP _ _ Hsame Hw).
  - now apply (Hexit c).
Qed.

Lemma hoare_write_inventory `{EqDecision I} (P E : world I -> Prop) p t :
  cfg_blind P -> (forall w, P w -> E w) -> hoare P (write_inventory p t) P E.
Proof.
  intros HP HE w Hw. unfold write_inventory.
  destruct (decide _); [now apply HP | now apply HE].
Qed.

Lemma hoare_safe_dump (P E : world I -> Prop) d p :
  cfg_blind P -> (forall w, P w -> E w) -> hoare P (safe_dump d p) P E.
Proof.
  intros HP HE w Hw. unfold safe_dump.
  destruct (decide _); [now apply HP | now apply HE].
Qed.

End InertFacts.

Lemma inert_yaml_contains {I : Type} key obj :
  inert (I := I) (lift (PyYaml.contains key obj)).
Proof. apply inert_lift. intros c. now destruct obj. Qed.

Lemma inert_yaml_getitem {I : Type} obj key :
  inert (I := I) (lift (PyYaml.getitem obj key)).
Proof.
  apply inert_lift. intros c. destruct obj as [| | | | |m]; try discriminate.
  cbn. now destruct (m !! key).
Qed.

Lemma inert_yaml_setitem {I : Type} obj key v :
  inert (I := I) (lift (PyYaml.setitem obj key v)).
Proof. apply inert_lift. intros c. now destruct obj. Qed.

(** Steps that every invariant of the kind above goes through. *)
Ltac inert_tac :=
  repeat first
    [ apply inert_ret | apply inert_raise | apply inert_probe | apply inert_get_debug
    | apply inert_environ_get | apply inert_read_inventory | apply inert_safe_load
    | apply inert_file_exists | apply inert_yaml_contains | apply inert_yaml_getitem
    | apply inert_yaml_setitem
    | apply inert_bind; [|intros ?]
    | match goal with
      | |- inert (if ?b then _ else _) => destruct b
      end ].

(** ** Invariants of the two pipelines *)

Lemma hoare_then {I A B : Type} (P R E : world I -> Prop)
    (m : M (world I) A) (k : A -> M (world I) B) :
  hoare P m P E -> (forall a, hoare P (k a) R E) -> hoare P (bind m k) R E.
Proof. apply hoare_bind. Qed.

(** Walk through a computation whose steps all keep the invariant;
    [leaf] settles the steps that start a process or write a file, and
    [switch] the places where the invariant changes. *)
Ltac hoare_walk_with switch leaf :=
  repeat first
    [ switch
    | match goal with
      | |- hoare _ (bind _ _) _ _ => apply hoare_then; [|intros ?]
      | |- hoare _ (if ?b then _ else _) _ _ => destruct b
      | |- hoare _ (dimmed_timed_step _) _ _ => apply hoare_dimmed
      | |- hoare _ (ret _) _ _ => apply hoare_ret
      | |- hoare _ get_debug _ _ => apply hoare_get_debug
      | |- hoare _ (environ_get _) _ _ => apply hoare_environ_get
      | |- hoare _ _ _ _ => leaf
      end ].

Ltac hoare_walk leaf := hoare_walk_with fail leaf.

Ltac unfold_create :=
  unfold Create.clone_terramate_repo, Create.clone_ansible_repo,
    Create.create_and_apply_terraform_stack, Create.copy_with_prefix,
    Create.add_to_ansible_inventory, Create.ensure_host,
    Create.add_host_to_inventory, Create.add_email_for_host,
    Create.run_ansible, Create.import_db, Create.run;
  cbn [Create.play_tones].

Ltac unfold_destroy :=
  unfold Destroy.clone_terramate_repo, Destroy.clone_ansible_repo,
    Destroy.destroy_terraform_stack, Destroy.rmtree,
    Destroy.remove_from_ansible_inventory, Destroy.remove_host,
    Destroy.remove_host_from_inventory, Destroy.remove_email_for_host,
    Destroy.subprocess_run, Destroy.run;
  cbn [Destroy.play_tones].

(** Go through the settings [main] of the create script reads before its
    [try] block. *)
Ltac enter_create_main :=
  unfold Create.main;
  unfold bind at 1, environ_get at 1; cbn [boot out];
  unfold bind at 1, set_debug at 1; cbn [boot out];
  unfold bind at 1; cbn [out];
  do 8 (unfold bind at 1, get_env at 1, bind at 1, environ_get at 1; cbn [out andb ret]).

Section NoPrompt.

Context {I : Type}.

Lemma unasked_blind : blind (I := I) unasked.
Proof. intros w w' (_ & _ & _ & _ & _ & Hp) Hw. unfold unasked in *. congruence. Qed.

Lemma unasked_cfg_blind : cfg_blind (I := I) unasked.
Proof. intros c w Hw. exact Hw. Qed.

End NoPrompt.

Ltac unasked_leaf :=
  first
    [ apply hoare_inert; [inert_tac; fail | apply unasked_blind | auto]
    | apply hoare_write_inventory; [apply unasked_cfg_blind | auto]
    | apply hoare_safe_dump; [apply unasked_cfg_blind | auto]
    | apply hoare_prompt; [auto | discriminate]
    | apply hoare_run; intros w Hw; cbn zeta;
      match goal with |- if ?b then _ else _ => destruct b end; exact Hw
    | apply hoare_spawn; intros w Hw; exact Hw ].

Lemma create_main_ci (args : Create.arguments) (o : outside) (c : Create.cfg_repo) :
  ci_mode (Create.arg_ci args) o = true ->
  prompts (snd (Create.main args (boot o c))) = 0%nat.
Proof.
  intros Hci. enter_create_main. unfold ci_mode in Hci. rewrite Hci.
  match goal with
  | |- context [try_except ?body ?h ?w] =>
      pose proof (@hoare_try_exit _ _ unasked unasked unasked body 1 w) as Hrun
  end.
  cbn beta in Hrun.
  match type of Hrun with
  | ?A -> ?B -> _ => assert (Hbody : A); [|assert (Hstart : B); [reflexivity|]]
  end.
  - unfold_create. hoare_walk unasked_leaf.
  - specialize (Hrun Hbody Hstart).
    destruct (try_except _ _ _) as [[a | e | code] w']; cbn [snd];
      [exact Hrun | destruct Hrun | exact (proj2 Hrun)].
Qed.

(** Go through the checks and settings [main] of the destroy script
    goes through before its [try] block, for a prefix that passes and a
    token that is set. *)
Ltac enter_destroy_main Hprefix Htoken Hs :=
  unfold Destroy.main;
  unfold bind at 1, environ_get at 1; cbn [boot out];
  unfold bind at 1, set_debug at 1; cbn [boot out];
  unfold bind at 1; rewrite Hprefix; cbn [negb ret];
  unfold bind at 1; cbn [out];
  do 3 (unfold bind at 1, get_env at 1, bind at 1, environ_get at 1; cbn [out andb ret]);
  unfold bind at 1, get_env at 1, bind at 1, environ_get at 1; cbn [out];
  rewrite Htoken, Hs; cbn [andb ret];
  unfold bind at 1; rewrite Hs; cbn [ret].

Lemma destroy_main_ci (args : Destroy.arguments) (o : outside) (c : Destroy.cfg_repo) :
  ci_mode (Destroy.arg_ci args) o = true ->
  prompts (snd (Destroy.main args (boot o c))) = 0%nat.
Proof.
  intros Hci.
  destruct (Destroy.valid_prefix (Destroy.arg_prefix args)) eqn:Hprefix.
  2:{ now rewrite (@destroy_main_malformed_prefix args o c Hprefix). }
  destruct (environ o !! "CLOUDFLARE_API_TOKEN") as [s|] eqn:Htoken.
  2:{ rewrite (@destroy_main_without_token args o c Hprefix); [reflexivity | now left]. }
  destruct (String.eqb s "") eqn:Hs.
  { apply String.eqb_eq in Hs. subst s.
    rewrite (@destroy_main_without_token args o c Hprefix); [reflexivity | now right]. }
  enter_destroy_main Hprefix Htoken Hs.
  unfold ci_mode in Hci. rewrite Hci.
  match goal with
  | |- context [try_except ?body ?h ?w] =>
      pose proof (@hoare_try_exit _ _ unasked unasked unasked body 1 w) as Hrun
  end.
  cbn beta in Hrun.
  match type of Hrun with
  | ?A -> ?B -> _ => assert (Hbody : A); [|assert (Hstart : B); [reflexivity|]]
  end.
  - unfold_destroy. hoare_walk unasked_leaf.
  - specialize (Hrun Hbody Hstart).
    destruct (try_except _ _ _) as [[a | e | code] w']; cbn [snd];
      [exact Hrun | destruct Hrun | exact (proj2 Hrun)].
Qed.

(** X8. In CI mode, that is with [--ci] or with the environment
    variable [CI] set to anything but the empty string, neither pipeline
    ever asks the operator to press Enter, however the run goes. *)
Theorem ci_runs_never_prompt (o : outside) :
  (forall (args : Create.arguments) (c : Create.cfg_repo),
     ci_mode (Create.arg_ci args) o = true ->
     prompts (snd (Create.main args (boot o c))) = 0%nat)
  /\ (forall (args : Destroy.arguments) (c : Destroy.cfg_repo),
        ci_mode (Destroy.arg_ci args) o = true ->
        prompts (snd (Destroy.main args (boot o c))) = 0%nat).
Proof.
  split; intros args c Hci; [now apply create_main_ci | now apply destroy_main_ci].
Qed.

Lemma ci_runs_never_prompt_witness :
  ci_mode false Cases.ci_env = true
  /\ prompts (snd (Create.main (Create.mkArgs "t1" false false false)
                     (boot Cases.ci_env (Sample.cloned_for "t1")))) = 0%nat.
Proof.
  split; [reflexivity|].
  apply (proj1 (ci_runs_never_prompt Cases.ci_env)). reflexivity.
Defined.

(** Without CI mode a run that completes has asked four times. *)
Example calm_run_prompts :
  prompts (snd (Create.main (Create.mkArgs "t1" false false false)
                  (boot Sample.calm (Sample.cloned_for "t1")))) = 4%nat.
Proof. vm_compute. reflexivity. Qed.

(** ** What the pipelines print on stderr *)

Section Reported.

Context {I : Type}.

Lemma reported_blind : blind (I := I) reported.
Proof.
  intros w w' (_ & _ & _ & Ht & He & _) Hw. unfold reported in *. congruence.
Qed.

Lemma reported_cfg_blind : cfg_blind (I := I) reported.
Proof. intros c w Hw. exact Hw. Qed.

Lemma reported_logged (w : world I) i c :
  reported w -> failed i = false -> reported (logged i c w).
Proof.
  unfold reported. cbn [logged stderr trace]. intros Hw Hi.
  rewrite List.filter_app, map_app. cbn [List.filter]. rewrite Hi. cbn [map].
  now rewrite app_nil_r.
Qed.

Lemma reported_complained (w : world I) i c :
  reported w -> failed i = true ->
  reported (complained (complaint (argv i)) (logged i c w)).
Proof.
  unfold reported. cbn [complained logged stderr trace]. intros Hw Hi.
  rewrite List.filter_app, map_app. cbn [List.filter]. rewrite Hi. cbn [map].
  now rewrite Hw.
Qed.

Lemma hoare_run_reported (exec : tool I) cmd dir check debug :
  hoare reported (run exec cmd dir check debug) reported reported.
Proof.
  apply hoare_run. intros w Hw. cbn zeta.
  destruct (check && negb (fst (result_of exec cmd dir w) =? 0)) eqn:Hfail.
  - now apply (@reported_complained w (mkInvocation cmd dir check _)).
  - now apply reported_logged.
Qed.

Lemma hoare_spawn_reported (exec : tool I) cmd dir :
  hoare reported (spawn exec cmd dir false) reported reported.
Proof. apply hoare_spawn. intros w Hw. now apply reported_logged. Qed.

End Reported.

Ltac reported_leaf :=
  first
    [ apply hoare_run_reported
    | apply hoare_spawn_reported
    | apply hoare_inert; [inert_tac; fail | apply reported_blind | auto]
    | apply hoare_write_inventory; [apply reported_cfg_blind | auto]
    | apply hoare_safe_dump; [apply reported_cfg_blind | auto]
    | apply hoare_prompt; [auto | intros _ w Hw; exact Hw] ].

Lemma create_main_reported (args : Create.arguments) (o : outside) (c : Create.cfg_repo) :
  reported (snd (Create.main args (boot o c))).
Proof.
  enter_create_main.
  match goal with
  | |- context [try_except ?body ?h ?w] =>
      pose proof (@hoare_try_exit _ _ reported reported reported body 1 w) as Hrun
  end.
  cbn beta in Hrun.
  match type of Hrun with
  | ?A -> ?B -> _ => assert (Hbody : A); [|assert (Hstart : B); [reflexivity|]]
  end.
  - unfold_create. hoare_walk reported_leaf.
  - specialize (Hrun Hbody Hstart).
    destruct (try_except _ _ _) as [[a | e | code] w']; cbn [snd];
      [exact Hrun | destruct Hrun | exact (proj2 Hrun)].
Qed.

Lemma destroy_main_reported (args : Destroy.arguments) (o : outside)
    (c : Destroy.cfg_repo) (s : string) :
  Destroy.valid_prefix (Destroy.arg_prefix args) = true ->
  environ o !! "CLOUDFLARE_API_TOKEN" = Some s -> s <> "" ->
  reported (snd (Destroy.main args (boot o c))).
Proof.
  intros Hprefix Htoken Hs. apply String.eqb_neq in Hs.
  enter_destroy_main Hprefix Htoken Hs.
  match goal with
  | |- context [try_except ?body ?h ?w] =>
      pose proof (@hoare_try_exit _ _ reported reported reported body 1 w) as Hrun
  end.
  cbn beta in Hrun.
  match type of Hrun with
  | ?A -> ?B -> _ => assert (Hbody : A); [|assert (Hstart : B); [reflexivity|]]
  end.
  - unfold_destroy. hoare_walk reported_leaf.
  - specialize (Hrun Hbody Hstart).
    destruct (try_except _ _ _) as [[a | e | code] w']; cbn [snd];
      [exact Hrun | destruct Hrun | exact (proj2 Hrun)].
Qed.


Example create_stderr_after_failed_apply :
  stderr (snd (Create.main (Create.mkArgs "t1" true false false)
                 (boot Sample.apply_fails (Sample.cloned_for "t1"))))
  = ["[red]Command failed: terraform apply -auto-approve[/red]"].
Proof. vm_compute. reflexivity. Qed.

Lemma complaint_is_not_token_error (cmd : list string) :
  complaint cmd <> Destroy.token_error.
Proof. unfold complaint, Destroy.token_error. cbn. discriminate. Qed.


(** ** What the tools leave of the working copy *)

(** Take a [match] on a command line apart, one character at a time. *)
Ltac crack :=
  repeat match goal with
         | |- context [match ?x with _ => _ end] => is_var x; destruct x; try (cbn; auto; fail)
         end.

Section ToolFacts.

Lemma git_keeps_files {I : Type} `{EqDecision I} (cmd : list string)
    (dir : option string) (c : cfg_repo I) :
  working_files (snd (git cmd dir c)) = working_files c
  /\ root (snd (git cmd dir c)) = root c.
Proof.
  unfold git. destruct (decide (dir = Some (PyPath.str (root c)))); [|auto].
  crack. destruct (decide (index c = head c)); auto.
Qed.

Lemma exec_not_yq (cmd : list string) (dir : option string) (c : Destroy.cfg_repo) :
  starts_with ["yq"] cmd = false -> Destroy.exec cmd dir c = git cmd dir c.
Proof.
  unfold Destroy.exec. intros Hcmd.
  destruct cmd as [|a cmd]; [reflexivity|].
  cbn [starts_with] in Hcmd. rewrite andb_true_r in Hcmd. apply String.eqb_neq in Hcmd.
  crack. now destruct Hcmd.
Qed.

End ToolFacts.

(** ** A failure before the inventory stage of the destroy pipeline *)

Section DestroySafety.

Variable f : snapshot yaml.

Lemma sound_blind {I : Type} : blind (I := I) sound.
Proof. intros w w' (_ & _ & _ & Ht & _) Hw. unfold sound in *. now rewrite Ht. Qed.

Lemma held_blind : blind (held f).
Proof.
  intros w w' (_ & _ & Hc & Ht & _) [Hclean [Hfiles Hyq]].
  unfold held, untouched. now rewrite Hc, Ht.
Qed.

Lemma held_sound (w : Destroy.world) : held f w -> sound w.
Proof. now intros [Hclean _]. Qed.

Lemma held_halted (w : Destroy.world) : held f w -> halted f w.
Proof.
  intros [Hclean Hsame]. split; [|now intros _].
  now apply clean_stopped.
Qed.

Lemma clean_no_infra_failed (tr : list invocation) :
  clean tr -> ~ Exists (fun i => infra_failed i = true) tr.
Proof.
  intros Hclean Hex. apply Exists_exists in Hex as (j & Hin & Hj).
  unfold clean in Hclean. rewrite Forall_forall in Hclean. apply Hclean in Hin.
  unfold infra_failed in Hj. apply andb_true_iff in Hj as [_ Hj]. congruence.
Qed.

Lemma sound_halted (w : Destroy.world) : sound w -> halted f w.
Proof.
  intros Hclean. split; [now apply clean_stopped|].
  intros Hex. now destruct (clean_no_infra_failed Hclean).
Qed.

(** A process of the first two stages: whatever it is, as long as it
    is not [yq], it leaves the two files alone. *)
Lemma hoare_run_held cmd dir check debug :
  starts_with ["yq"] cmd = false ->
  hoare (held f) (run Destroy.exec cmd dir check debug) (held f) (halted f).
Proof.
  intros Hcmd. apply hoare_run. intros w [Hclean [Hfiles Hyq]]. cbn zeta.
  assert (Hkeep : working_files (snd (result_of Destroy.exec cmd dir w)) = f).
  { destruct (result_of_cases Destroy.exec cmd dir w) as [[_ ->] | [_ ->]]; cbn [snd].
    - rewrite (exec_not_yq _ _ _ Hcmd). now rewrite (proj1 (git_keeps_files _ _ _)).
    - exact Hfiles. }
  assert (Hyq' : Forall (fun i => runs ["yq"] i = false)
                   (trace w ++ [mkInvocation cmd dir check
                                  (fst (result_of Destroy.exec cmd dir w))])).
  { apply Forall_app. split; [exact Hyq | now constructor]. }
  destruct (check && negb (fst (result_of Destroy.exec cmd dir w) =? 0)) eqn:Hfail.
  - split; cbn [complained logged trace cfg].
    + now apply clean_failure_is_last.
    + intros _. now split.
  - split; cbn [logged trace cfg].
    + now apply clean_snoc.
    + now split.
Qed.

(** A process of the inventory stage. *)
Lemma hoare_run_sound cmd dir check debug :
  infra_command (mkInvocation cmd dir check 0) = false ->
  hoare sound (run Destroy.exec cmd dir check debug) sound (halted f).
Proof.
  intros Hcmd. apply hoare_run. intros w Hclean. cbn zeta.
  destruct (check && negb (fst (result_of Destroy.exec cmd dir w) =? 0)) eqn:Hfail.
  - split; cbn [complained logged trace cfg].
    + now apply clean_failure_is_last.
    + intros Hex. exfalso. apply Exists_app in Hex as [Hex | Hex].
      * now apply (clean_no_infra_failed Hclean).
      * inversion Hex as [? ? Hj | ? ? Hj]; subst; [|inversion Hj].
        unfold infra_failed in Hj. apply andb_true_iff in Hj as [Hj _].
        unfold infra_command, runs in *. cbn [argv] in *. congruence.
  - unfold sound. cbn [logged trace]. now apply clean_snoc.
Qed.

Lemma hoare_spawn_sound cmd dir :
  hoare sound (spawn Destroy.exec cmd dir false) sound (halted f).
Proof.
  apply hoare_spawn. intros w Hclean. unfold sound. cbn [logged trace].
  now apply clean_snoc.
Qed.

End DestroySafety.

Ltac held_leaf :=
  first
    [ apply hoare_run_held; reflexivity
    | apply hoare_inert; [inert_tac; fail | apply held_blind | apply held_halted]
    | apply hoare_prompt; [auto | intros _ w Hw; exact Hw]
    | eapply hoare_pre; [apply held_sound | apply hoare_ret] ].

Ltac sound_leaf :=
  first
    [ apply hoare_run_sound; reflexivity
    | apply hoare_spawn_sound
    | apply hoare_inert; [inert_tac; fail | apply sound_blind | apply sound_halted]
    | apply hoare_prompt; [auto | intros _ w Hw; exact Hw] ].

Lemma remove_from_ansible_inventory_sound f r h :
  hoare sound (Destroy.remove_from_ansible_inventory r h) sound (halted f).
Proof. unfold_destroy. hoare_walk sound_leaf. Qed.

Lemma destroy_play_tones_sound f freqs :
  hoare sound (Destroy.play_tones freqs) sound (halted f).
Proof.
  induction freqs as [|fr freqs IH]; cbn [Destroy.play_tones].
  - apply hoare_ret.
  - unfold Destroy.run. hoare_walk sound_leaf. exact IH.
Qed.

Ltac to_inventory_stage :=
  idtac;
  match goal with
  | |- hoare (held _) (bind (Destroy.remove_from_ansible_inventory _ _) _) _ _ =>
      eapply hoare_pre; [apply held_sound|];
      apply hoare_then; [apply remove_from_ansible_inventory_sound | intros ?]
  | |- hoare sound (Destroy.play_tones _) _ _ => apply destroy_play_tones_sound
  end.

Ltac stage_leaf := first [held_leaf | sound_leaf].

Lemma destroy_main_outcome (args : Destroy.arguments) (o : outside)
    (c : Destroy.cfg_repo) :
  match Destroy.main args (boot o c) with
  | (Return _, w') => sound w'
  | (SysExit code, w') => code = 1 /\ halted (working_files c) w'
  | (Raise _, _) => False
  end.
Proof.
  assert (Hstart : forall msg,
            halted (working_files c)
              (complained msg (snd (set_debug (Destroy.arg_debug args) (boot o c))))).
  { intros msg. apply held_halted. repeat split; constructor. }
  destruct (Destroy.valid_prefix (Destroy.arg_prefix args)) eqn:Hprefix.
  2:{ rewrite (@destroy_main_malformed_prefix args o c Hprefix). auto. }
  destruct (environ o !! "CLOUDFLARE_API_TOKEN") as [s|] eqn:Htoken.
  2:{ rewrite (@destroy_main_without_token args o c Hprefix); [auto | now left]. }
  destruct (String.eqb s "") eqn:Hs.
  { apply String.eqb_eq in Hs. subst s.
    rewrite (@destroy_main_without_token args o c Hprefix); [auto | now right]. }
  enter_destroy_main Hprefix Htoken Hs.
  apply (hoare_try_exit (P := held (working_files c)) (Q := sound)
           (E := halted (working_files c))).
  - unfold Destroy.clone_terramate_repo, Destroy.clone_ansible_repo,
      Destroy.destroy_terraform_stack, Destroy.rmtree, Destroy.run.
    hoare_walk_with to_inventory_stage stage_leaf.
  - repeat split; constructor.
Qed.

(** X11. In every run of the destroy pipeline a process that fails
    under failure checking is the last process of the run, and the
    process then ends with exit status 1.  When the process that failed
    is a clone, the checkout, a terraform command or the push of the
    infrastructure repository, the host is still where it was: the host
    list and the contact file are as they were at the start, and no
    [yq] process was started. *)
Theorem destroy_failure_leaves_inventory (args : Destroy.arguments) (o : outside)
    (c : Destroy.cfg_repo) :
  let res := Destroy.main args (boot o c) in
  (forall pre i post,
     trace (snd res) = (pre ++ i :: post)%list -> failed i = true ->
     post = [] /\ exit_status (fst res) = 1)
  /\ (forall i,
        In i (trace (snd res)) -> infra_command i = true -> failed i = true ->
        inventory_yml (cfg (snd res)) = inventory_yml c
        /\ emails_yml (cfg (snd res)) = emails_yml c
        /\ forall j, In j (trace (snd res)) -> runs ["yq"] j = false).
Proof.
  cbn zeta. pose proof (destroy_main_outcome args o c) as Hout.
  destruct (Destroy.main args (boot o c)) as [[[] | e | code] w'];
    cbn [fst snd]; [| destruct Hout |].
  - unfold sound, clean in Hout. rewrite Forall_forall in Hout. split.
    + intros pre i post Heq Hi. exfalso.
      assert (Hin : i ∈ trace w')
        by (rewrite Heq; apply list_elem_of_In, in_or_app; right; now left).
      apply Hout in Hin. congruence.
    + intros i Hin _ Hi. exfalso. apply list_elem_of_In, Hout in Hin. congruence.
  - destruct Hout as [-> [Hlast Hsafe]]. split.
    + intros pre i post Heq Hi. split; [exact (Hlast pre i post Heq Hi) | reflexivity].
    + intros i Hin Hinfra Hi.
      assert (Hex : Exists (fun i => infra_failed i = true) (trace w')).
      { apply Exists_exists. exists i. split; [now apply list_elem_of_In|].
        unfold infra_failed. now rewrite Hinfra, Hi. }
      destruct (Hsafe Hex) as [Hfiles Hyq].
      unfold working_files in Hfiles. injection Hfiles as Hinv Hmail.
      split; [exact Hinv|]. split; [exact Hmail|].
      intros j Hj. rewrite Forall_forall in Hyq. now apply Hyq, list_elem_of_In.
Qed.

(** A run in which [terraform destroy] fails: two processes, exit
    status 1, and the host still in both files. *)
Example destroy_failure_example :
  let res := Destroy.main (Destroy.mkArgs "t1" true false false)
               (boot Cases.destroy_fails Cases.cloned_with_t1) in
  exit_status (fst res) = 1
  /\ map argv (trace (snd res))
     = [["terraform"; "init"]; ["terraform"; "destroy"; "-auto-approve"]]
  /\ Destroy.listed_in_inventory "t1.aopstest.com" (cfg (snd res)) = true
  /\ Destroy.listed_in_emails "t1.aopstest.com" (cfg (snd res)) = true.
Proof. vm_compute. repeat split. Qed.

(** A run in which nothing fails: the stack is destroyed and the host
    removed from both files, the other host kept. *)
Example destroy_run_completes :
  let res := Destroy.main (Destroy.mkArgs "t1" true false false)
               (boot Cases.with_token Cases.cloned_with_t1) in
  exit_status (fst res) = 0
  /\ map (fun i => hd "-" (argv i)) (trace (snd res))
     = ["terraform"; "terraform"; "git"; "git"; "git";
        "yq"; "yq"; "yq"; "yq"; "git"; "git"; "git"]
  /\ Destroy.listed_in_inventory "t1.aopstest.com" (cfg (snd res)) = false
  /\ Destroy.listed_in_emails "t1.aopstest.com" (cfg (snd res)) = false
  /\ Destroy.listed_in_inventory "web1.aopstest.com" (cfg (snd res)) = true
  /\ Destroy.listed_in_emails "web1.aopstest.com" (cfg (snd res)) = true
  /\ commits (cfg (snd res))
     = ["Remove t1.aopstest.com from host_emails in emails.yml and inventory.yml"].
Proof. vm_compute. repeat split. Qed.

(** ** What the create pipeline does to the two files *)

Section CreateFrame.

Variables H E : string.
Variable f : snapshot string.

Lemma files_only_blind {I : Type} (P : world I -> Prop) : files_only P -> blind P.
Proof. intros HP w w' (_ & _ & Hc & _) Hw. apply (HP w); [now rewrite Hc | exact Hw]. Qed.

Lemma kept_files_only {I : Type} (g : snapshot I) : files_only (kept g).
Proof. intros w w' Hsame Hw. unfold kept in *. congruence. Qed.

Lemma grown_files_only : files_only (grown H E f).
Proof.
  intros w w' Hsame Hw. unfold working_files in Hsame. injection Hsame as Hi He.
  unfold grown in *. now rewrite Hi, He.
Qed.

Lemma kept_grown (w : Create.world) : kept f w -> grown H E f w.
Proof. intros <-. split; now left. Qed.

(** A process of the create script leaves the two files alone. *)
Lemma hoare_run_files (P Q : Create.world -> Prop) cmd dir check debug :
  files_only P -> files_only Q -> (forall w, P w -> Q w) ->
  hoare P (run Create.exec cmd dir check debug) P Q.
Proof.
  intros HP HQ Himp. apply hoare_run. intros w Hw. cbn zeta.
  assert (Hkeep : working_files (snd (result_of Create.exec cmd dir w))
                  = working_files (cfg w)).
  { destruct (result_of_cases Create.exec cmd dir w) as [[_ ->] | [_ ->]]; cbn [snd].
    - apply git_keeps_files.
    - reflexivity. }
  destruct (check && negb (fst (result_of Create.exec cmd dir w) =? 0)).
  - apply (HQ w); auto.
  - apply (HP w); auto.
Qed.

End CreateFrame.

Ltac files_leaf :=
  first
    [ apply hoare_run_files;
        [ first [apply kept_files_only | apply grown_files_only]
        | apply grown_files_only
        | first [apply kept_grown | auto] ]
    | apply hoare_inert;
        [inert_tac; fail
        | apply files_only_blind; first [apply kept_files_only | apply grown_files_only]
        | first [apply kept_grown | auto]]
    | apply hoare_prompt; [auto | intros _ w Hw; exact Hw] ].

Section CreateFrameStages.

Variables H E : string.
Variable f : snapshot string.

Lemma commit_and_push_grown self g :
  hoare (grown H E g) (Create.commit_and_push self H) (grown H E g) (grown H E g).
Proof. unfold Create.commit_and_push, Create.run. hoare_walk files_leaf. Qed.

Lemma grown_host_list (t : string) (e : option yaml) (w1 : Create.world) :
  inventory_yml (cfg w1) = Some (Create.text_after H t) ->
  emails_yml (cfg w1) = e ->
  grown H E (mkSnapshot (Some t) e) w1.
Proof.
  intros Hi He. split; cbn [snap_inventory snap_emails]; [|now left].
  unfold Create.text_after in Hi.
  destruct (PyStr.contains (H ++ ":") t) eqn:Hin; [now left|].
  right. exists t. auto.
Qed.

Lemma grown_both (t : string) (d d1 : yaml) (w1 : Create.world) :
  inventory_yml (cfg w1) = Some (Create.text_after H t) ->
  emails_yml (cfg w1) = Some d1 ->
  Create.email_step H E d = Return (true, d1) ->
  grown H E (mkSnapshot (Some t) (Some d)) w1.
Proof.
  intros Hi He Hstep. split; cbn [snap_inventory snap_emails].
  - destruct (@grown_host_list t _ w1 Hi He) as [Hinv _]. exact Hinv.
  - right. exists d, d1.
    destruct (email_step_added _ _ _ Hstep) as (Ha & Hb & Hc & Hd').
    repeat split; auto.
Qed.

Lemma ensure_host_grown r :
  hoare (kept f) (Create.ensure_host (Create.InventoryManager_init r) H E)
    (grown H E f) (grown H E f).
Proof.
  intros w Hw. destruct (decide (r = root (cfg w))) as [-> | Hne].
  2:{ rewrite ensure_host_elsewhere by exact Hne. now apply kept_grown. }
  rewrite ensure_host_spec. cbn zeta. unfold kept in Hw. subst f.
  change (working_files (cfg w))
    with (mkSnapshot (inventory_yml (cfg w)) (emails_yml (cfg w))).
  destruct (inventory_yml (cfg w)) as [t|] eqn:Ht.
  2:{ split; now left. }
  destruct (emails_yml (cfg w)) as [d|] eqn:Hd.
  2:{ now apply grown_host_list. }
  destruct (Create.email_step H E d) as [[[] d'] | e | code] eqn:Hstep.
  - apply (commit_and_push_grown (Create.InventoryManager_init (root (cfg w)))).
    now apply (@grown_both t d d').
  - apply (commit_and_push_grown (Create.InventoryManager_init (root (cfg w)))).
    now apply grown_host_list.
  - now apply grown_host_list.
  - exact (email_step_no_exit _ _ _ Hstep).
Qed.

Lemma add_to_ansible_inventory_grown r :
  hoare (kept f) (Create.add_to_ansible_inventory r H E) (grown H E f) (grown H E f).
Proof.
  unfold Create.add_to_ansible_inventory. apply hoare_dimmed.
  eapply hoare_bind; [apply ensure_host_grown | intros ?; apply hoare_ret].
Qed.

Lemma create_play_tones_grown freqs :
  hoare (grown H E f) (Create.play_tones freqs) (grown H E f) (grown H E f).
Proof.
  induction freqs as [|fr freqs IH]; cbn [Create.play_tones].
  - apply hoare_ret.
  - unfold Create.run. hoare_walk files_leaf. exact IH.
Qed.

End CreateFrameStages.

Ltac to_grown :=
  idtac;
  match goal with
  | |- hoare (kept _) (bind (Create.add_to_ansible_inventory _ _ _) _) _ _ =>
      eapply hoare_bind; [apply add_to_ansible_inventory_grown | intros ?]
  end.

Lemma create_main_grown (args : Create.arguments) (o : outside) (c : Create.cfg_repo) :
  grown (Create.full_hostname_of (Create.arg_prefix args))
    (default Create.DEFAULT_EMAIL (environ o !! "EMAIL"))
    (working_files c) (snd (Create.main args (boot o c))).
Proof.
  enter_create_main.
  set (H := Create.full_hostname_of (Create.arg_prefix args)).
  set (E := default Create.DEFAULT_EMAIL (environ o !! "EMAIL")).
  replace (Create.strval match environ o !! "EMAIL" with
                         | Some s => Some s
                         | None => Some Create.DEFAULT_EMAIL
                         end) with E
    by (unfold E; now destruct (environ o !! "EMAIL")).
  match goal with
  | |- context [try_except ?body ?h ?w] =>
      pose proof (@hoare_try_exit _ _ (kept (working_files c))
                    (grown H E (working_files c)) (grown H E (working_files c))
                    body 1 w) as Hrun
  end.
  cbn beta in Hrun.
  match type of Hrun with
  | ?A -> ?B -> _ => assert (Hbody : A); [|assert (Hstart : B); [reflexivity|]]
  end.
  - unfold Create.clone_terramate_repo, Create.clone_ansible_repo,
      Create.create_and_apply_terraform_stack, Create.copy_with_prefix,
      Create.run_ansible, Create.import_db, Create.run.
    cbn [Create.play_tones].
    hoare_walk_with to_grown files_leaf.
  - specialize (Hrun Hbody Hstart).
    destruct (try_except _ _ _) as [[a | e | code] w']; cbn [snd];
      [exact Hrun | destruct Hrun | exact (proj2 Hrun)].
Qed.


(** ** A run of the create pipeline in which nothing fails *)

Section GitOnCleanCheckout.

Context {I : Type} `{EqDecision I}.

Lemma staged_clean (c : cfg_repo I) : clean_checkout c -> staged c = c.
Proof.
  intros [Hi Hh]. unfold staged. rewrite <- Hi. now destruct c.
Qed.

(** On a working copy with nothing to commit, git changes nothing. *)
Lemma git_on_clean (cmd : list string) (dir : option string) (c : cfg_repo I) :
  clean_checkout c -> snd (git cmd dir c) = c.
Proof.
  intros Hc. pose proof (staged_clean Hc) as Hs. destruct Hc as [Hi Hh].
  unfold git. destruct (decide (dir = Some (PyPath.str (root c)))); [|auto].
  repeat match goal with
         | |- context [match ?x with _ => _ end] =>
             is_var x; destruct x; try (cbn [snd fst]; auto; fail)
         end.
  rewrite decide_True by congruence. reflexivity.
Qed.

(** Every git command but a commit ends with status 0. *)
Lemma git_status (cmd : list string) (dir : option string) (c : cfg_repo I) :
  starts_with ["git"; "commit"; "-m"] cmd = false -> fst (fst (git cmd dir c)) = 0.
Proof.
  intros Hcmd. unfold git.
  destruct (decide (dir = Some (PyPath.str (root c)))); [|reflexivity].
  revert Hcmd. cbn [starts_with]. crack.
  cbn. discriminate.
Qed.

End GitOnCleanCheckout.

Section Recorded.

Context {I : Type} `{EqDecision I}.
Variable msg : string.

Lemma recorded_files (c : cfg_repo I) :
  root (recorded msg c) = root c
  /\ inventory_yml (recorded msg c) = inventory_yml c
  /\ emails_yml (recorded msg c) = emails_yml c.
Proof. unfold recorded. now destruct (decide _). Qed.

Lemma recorded_clean (c : cfg_repo I) : clean_checkout (recorded msg c).
Proof.
  unfold recorded, clean_checkout. destruct (decide _) as [Heq | Hne].
  - split; [reflexivity | now rewrite <- Heq].
  - split; reflexivity.
Qed.

Lemma recorded_commits (c : cfg_repo I) :
  commits (recorded msg c)
  = if decide (working_files c = head c) then commits c else msg :: commits c.
Proof.
  unfold recorded. cbn [staged index head].
  destruct (decide (working_files c = head c)); reflexivity.
Qed.

End Recorded.

Section CreateCalm.

Variable o : outside.
Hypothesis o_calm : calm_outside o.

Lemma at_rest_blind {I : Type} (c : cfg_repo I) : blind (at_rest o c).
Proof.
  intros w w' (Ho & _ & Hc & Ht & He & _) (Ho' & Hc' & Hcl & He').
  unfold at_rest. now rewrite Ho, Hc, Ht, He.
Qed.

Lemma at_rest_asked {I : Type} (c : cfg_repo I) (w : world I) :
  at_rest o c w -> at_rest o c (asked w).
Proof. intros Hw. exact Hw. Qed.

Lemma at_rest_probe {I : Type} (c : cfg_repo I) (w : world I) :
  at_rest o c w -> probes (out w) (probed w) = true.
Proof. intros (-> & _). apply o_calm. Qed.

Lemma at_rest_environ {I : Type} (c : cfg_repo I) var (w : world I) :
  at_rest o c w -> environ (out w) !! var = environ o !! var.
Proof. now intros (-> & _). Qed.

(** A process on a working copy with nothing to commit, in the create
    script: it is not made to fail, it changes nothing, and unless it
    is a commit it ends with status 0. *)
Lemma hoare_run_at_rest (c : Create.cfg_repo) cmd dir check debug :
  clean_checkout c ->
  check && starts_with ["git"; "commit"; "-m"] cmd = false ->
  hoare (at_rest o c) (run Create.exec cmd dir check debug) (at_rest o c)
    (fun _ => False).
Proof.
  intros Hc Hcmd. apply hoare_run. intros w (Ho & Hcfg & Hclean & Herr). cbn zeta.
  destruct (result_of_cases Create.exec cmd dir w) as [[_ Hres] | [Hforced _]].
  2:{ destruct Hforced. rewrite Ho. apply o_calm. }
  rewrite Hres. cbn [fst snd]. rewrite Hcfg.
  unfold Create.exec. rewrite (git_on_clean cmd dir Hc).
  assert (Hok : check && negb (fst (fst (git cmd dir c)) =? 0) = false).
  { destruct check; [|reflexivity]. cbn [andb] in *.
    now rewrite (git_status cmd dir c Hcmd). }
  rewrite Hok. repeat split; cbn [logged out cfg trace stderr]; auto.
  apply clean_snoc; [exact Hclean|]. unfold failed. cbn [checked returncode]. exact Hok.
Qed.

Lemma hoare_prompt_at_rest {I : Type} (c : cfg_repo I) ci :
  hoare (at_rest o c) (prompt_to_continue ci) (at_rest o c) (fun _ => False).
Proof. apply hoare_prompt; [auto | intros _ w Hw; exact Hw]. Qed.

End CreateCalm.

Section EnsureHostCalm.

Variables H E : string.
Variable o : outside.
Hypothesis o_calm : calm_outside o.

Lemma commit_and_push_calm (w : Create.world) :
  out w = o ->
  let msg := "Add " ++ H ++ " to inventory and emails.yml" in
  exists w',
    Create.commit_and_push (Create.InventoryManager_init (root (cfg w))) H w
    = (Return PyNone, w')
    /\ out w' = o /\ stderr w' = stderr w /\ cfg w' = recorded msg (cfg w)
    /\ exists new, trace w' = (trace w ++ new)%list /\ clean new.
Proof.
  intros Ho. cbn zeta. rewrite commit_and_push_eval. cbn zeta.
  destruct o_calm as [Hfaults _]. rewrite Ho.
  rewrite !Hfaults. cbn [Z.eqb fst snd].
  eexists. split; [reflexivity|].
  cbn [logged out stderr cfg trace]. split; [exact Ho|]. split; [reflexivity|].
  split.
  - unfold recorded. now destruct (decide _).
  - rewrite <- !app_assoc. eexists. split; [reflexivity|].
    repeat constructor. 
Qed.

Lemma ensure_host_calm (w : Create.world) (t : string) (d d' : yaml) (b : bool) :
  out w = o ->
  inventory_yml (cfg w) = Some t ->
  emails_yml (cfg w) = Some d ->
  Create.email_step H E d = Return (b, d') ->
  let msg := "Add " ++ H ++ " to inventory and emails.yml" in
  let c1 := set_emails (Some d') (set_inventory (Some (Create.text_after H t)) (cfg w)) in
  exists w',
    Create.ensure_host (Create.InventoryManager_init (root (cfg w))) H E w
    = (Return PyNone, w')
    /\ out w' = o /\ stderr w' = stderr w /\ cfg w' = recorded msg c1
    /\ exists new, trace w' = (trace w ++ new)%list /\ clean new.
Proof.
  intros Ho Hi He Hstep. cbn zeta. rewrite ensure_host_spec. cbn zeta.
  rewrite Hi, He, Hstep. destruct b.
  - match goal with
    | |- context [Create.commit_and_push _ H ?w2] =>
        destruct (commit_and_push_calm w2 Ho) as (w' & Hrun & Hfacts)
    end.
    exists w'. split; [exact Hrun | exact Hfacts].
  - apply email_step_unchanged in Hstep. subst d'.
    match goal with
    | |- context [Create.commit_and_push _ H ?w2] =>
        destruct (commit_and_push_calm w2 Ho) as (w' & Hrun & Hfacts)
    end.
    exists w'. split; [exact Hrun|].
    cbn [cfg set_cfg] in Hfacts.
    rewrite (set_emails_same (set_inventory (Some (Create.text_after H t)) (cfg w))
               (d := Some d)) by exact He.
    exact Hfacts.
Qed.

End EnsureHostCalm.

Section CreateRun.

Variable args : Create.arguments.
Variable o : outside.
Variable c : Create.cfg_repo.
Variables (t : string) (d d' : yaml) (b : bool).

Variables (H E msg : string) (c1 : Create.cfg_repo).
Hypothesis H_is : H = Create.full_hostname_of (Create.arg_prefix args).
Hypothesis E_is : E = default Create.DEFAULT_EMAIL (environ o !! "EMAIL").
Hypothesis msg_is : msg = "Add " ++ H ++ " to inventory and emails.yml".
Hypothesis c1_is :
  c1 = set_emails (Some d') (set_inventory (Some (Create.text_after H t)) c).

Hypothesis o_calm : calm_outside o.
Hypothesis c_root : root c = config_root_of (Create.arg_prefix args) o.
Hypothesis c_clean : clean_checkout c.
Hypothesis c_inventory : inventory_yml c = Some t.
Hypothesis c_emails : emails_yml c = Some d.
Hypothesis d_step : Create.email_step H E d = Return (b, d').

Lemma add_to_ansible_inventory_at_rest (r : PyPath.path) :
  root c = r ->
  hoare (at_rest o c) (Create.add_to_ansible_inventory r H E)
    (at_rest o (recorded msg c1)) (fun _ => False).
Proof.
  intros <-. unfold Create.add_to_ansible_inventory. apply hoare_dimmed.
  eapply hoare_bind; [|intros ?; apply hoare_ret].
  intros w (Ho & Hcfg & Hclean & Herr).
  assert (Hi : inventory_yml (cfg w) = Some t) by now rewrite Hcfg.
  assert (He : emails_yml (cfg w) = Some d) by now rewrite Hcfg.
  destruct (ensure_host_calm H E o_calm w Ho Hi He d_step)
    as (w' & Hrun & Ho' & Herr' & Hcfg' & new & Htrace & Hnew).
  rewrite <- Hcfg, Hrun. repeat split.
  - exact Ho'.
  - rewrite Hcfg', c1_is, msg_is. now rewrite Hcfg.
  - rewrite Htrace. apply Forall_app. now split.
  - now rewrite Herr'.
Qed.

Ltac create_calm_switch :=
  idtac;
  match goal with
  | |- hoare (at_rest _ _) (bind (environ_get ?var) _) _ _ =>
      apply (hoare_bind_environ (v := environ o !! var));
      [intros ? ?; eapply at_rest_environ; eassumption | cbv beta]
  | |- hoare (at_rest _ _) (bind probe _) _ _ =>
      apply (hoare_bind_probe (b := true));
      [intros ? ?; eapply at_rest_probe; eauto | intros ? ?; assumption
      | cbv beta; cbn [negb]]
  | |- hoare _ (run _ (if ?ci then _ else _) _ _ _) _ _ => destruct ci
  | |- hoare (at_rest _ c) (bind (Create.add_to_ansible_inventory _ _ _) _) _ _ =>
      eapply hoare_bind;
        [apply add_to_ansible_inventory_at_rest; exact c_root | intros ?]
  end.

Ltac create_calm_leaf :=
  first
    [ apply hoare_run_at_rest;
        [ exact o_calm
        | first [exact c_clean | apply recorded_clean]
        | reflexivity ]
    | apply hoare_prompt_at_rest ].

Lemma create_main_at_rest :
  match Create.main args (boot o c) with
  | (Return _, w') => at_rest o (recorded msg c1) w'
  | _ => False
  end.
Proof.
  enter_create_main.
  replace (Create.strval match environ o !! "EMAIL" with
                         | Some s => Some s
                         | None => Some Create.DEFAULT_EMAIL
                         end) with E
    by (rewrite E_is; now destruct (environ o !! "EMAIL")).
  rewrite <- H_is.
  match goal with
  | |- context [try_except ?body ?h ?w] =>
      pose proof (@hoare_try_exit _ _ (at_rest o c) (at_rest o (recorded msg c1))
                    (fun _ => False) body 1 w) as Hrun
  end.
  cbn beta in Hrun.
  match type of Hrun with
  | ?A -> ?B -> _ => assert (Hbody : A); [|assert (Hstart : B)]
  end.
  - unfold Create.clone_terramate_repo, Create.clone_ansible_repo,
      Create.create_and_apply_terraform_stack, Create.copy_with_prefix,
      Create.run_ansible, Create.import_db, Create.run.
    cbn [Create.play_tones].
    hoare_walk_with create_calm_switch create_calm_leaf.
  - repeat split; constructor.
  - specialize (Hrun Hbody Hstart).
    destruct (try_except _ _ _) as [[a | e | code] w'];
      [exact Hrun | destruct Hrun | exact (proj2 Hrun)].
Qed.

End CreateRun.



(** ** The removals of the destroy script, one by one *)



(** ** [remove_host] when nothing is made to fail *)

Section YqOtherKeys.

Variables key other : string.
Hypothesis other_key : other <> key.

Lemma section_has_eval_del_other (section : list string) (d : yaml) :
  Yq.section_has (Yq.eval_del d section key) section other
  = Yq.section_has d section other.
Proof.
  unfold Yq.section_has. revert d.
  induction section as [|k ks IH]; intros d.
  - cbn. destruct d as [| | | | | m]; try reflexivity.
    now rewrite lookup_delete_ne.
  - cbn [Yq.eval_del]. destruct d as [| | | | | m]; try reflexivity.
    destruct (m !! k) as [v|] eqn:Hk; [|reflexivity].
    cbn [Yq.descend]. rewrite lookup_insert_eq, Hk. apply IH.
Qed.

Lemma email_of_eval_del_other (d : yaml) :
  email_of other (Yq.eval_del d ["host_emails"] key) = email_of other d.
Proof.
  unfold email_of, entry. cbn [Yq.eval_del].
  destruct d as [| | | | | m]; try reflexivity.
  destruct (m !! "host_emails") as [v|] eqn:Hk; [|now rewrite Hk].
  rewrite lookup_insert_eq.
  destruct v as [| | | | | hm]; try reflexivity.
  now rewrite lookup_delete_ne.
Qed.

Lemma pruned_listed_other (section : list string) (doc : option yaml) :
  match pruned key section doc with
  | Some d => Yq.section_has d section other
  | None => false
  end
  = match doc with
    | Some d => Yq.section_has d section other
    | None => false
    end.
Proof.
  destruct doc as [d|]; [|reflexivity]. cbn.
  destruct (Yq.section_has d section key); [|reflexivity].
  apply section_has_eval_del_other.
Qed.

End YqOtherKeys.

Lemma pruned_not_listed (key : string) (section : list string) (doc : option yaml) :
  match pruned key section doc with
  | Some d => Yq.section_has d section key
  | None => false
  end = false.
Proof.
  destruct doc as [d|]; [|reflexivity]. cbn.
  destruct (Yq.section_has d section key) eqn:Hd; [|exact Hd].
  apply section_has_eval_del.
Qed.

Section RemoveHostCalm.

Variable key : string.
Hypothesis key_plain : Yq.plain key = true.

Lemma remove_host_from_inventory_calm (w : Destroy.world) :
  (forall n, faults (out w) n = 0) ->
  exists w',
    Destroy.remove_host_from_inventory (Destroy.InventoryManager_init (root (cfg w))) key w
    = (Return (Destroy.listed_in_inventory key (cfg w)), w')
    /\ out w' = out w /\ stderr w' = stderr w
    /\ cfg w' = set_inventory (pruned key ["all"; "hosts"] (inventory_yml (cfg w))) (cfg w)
    /\ exists new, trace w' = (trace w ++ new)%list /\ clean new.
Proof.
  intros Hcalm. rewrite (@remove_host_from_inventory_eval key key_plain w). cbn zeta.
  unfold Destroy.listed_in_inventory, pruned.
  destruct (inventory_yml (cfg w)) as [d|] eqn:Hd; cbn [option_map].
  2:{ exists w. repeat split; [now rewrite set_inventory_same|].
      exists []. split; [now rewrite app_nil_r | constructor]. }
  rewrite !Hcalm. cbn [Z.eqb]. rewrite eval_has_true.
  destruct (Yq.section_has d ["all"; "hosts"] key) eqn:Hlisted.
  - eexists. split; [reflexivity|]. cbn [logged out stderr cfg trace].
    repeat split. rewrite <- app_assoc. eexists. split; [reflexivity|].
    repeat constructor.
  - eexists. split; [reflexivity|]. cbn [logged out stderr cfg trace].
    repeat split; [now rewrite set_inventory_same|].
    eexists. split; [reflexivity|]. repeat constructor.
Qed.

Lemma remove_email_for_host_calm_eval (w : Destroy.world) :
  (forall n, faults (out w) n = 0) ->
  exists w',
    Destroy.remove_email_for_host (Destroy.InventoryManager_init (root (cfg w))) key w
    = (Return (Destroy.listed_in_emails key (cfg w)), w')
    /\ out w' = out w /\ stderr w' = stderr w
    /\ cfg w' = set_emails (pruned key ["host_emails"] (emails_yml (cfg w))) (cfg w)
    /\ exists new, trace w' = (trace w ++ new)%list /\ clean new.
Proof.
  intros Hcalm. rewrite (@remove_email_for_host_eval key key_plain w). cbn zeta.
  unfold Destroy.listed_in_emails, pruned.
  destruct (emails_yml (cfg w)) as [d|] eqn:Hd; cbn [option_map].
  2:{ exists w. repeat split; [now rewrite set_emails_same|].
      exists []. split; [now rewrite app_nil_r | constructor]. }
  rewrite !Hcalm. cbn [Z.eqb]. rewrite eval_has_true.
  destruct (Yq.section_has d ["host_emails"] key) eqn:Hlisted.
  - eexists. split; [reflexivity|]. cbn [logged out stderr cfg trace].
    repeat split. rewrite <- app_assoc. eexists. split; [reflexivity|].
    repeat constructor.
  - eexists. split; [reflexivity|]. cbn [logged out stderr cfg trace].
    repeat split; [now rewrite set_emails_same|].
    eexists. split; [reflexivity|]. repeat constructor.
Qed.

Lemma destroy_commit_and_push_calm (w : Destroy.world) :
  (forall n, faults (out w) n = 0) ->
  let msg := "Remove " ++ key ++ " from host_emails in emails.yml and inventory.yml" in
  exists w',
    Destroy.commit_and_push (Destroy.InventoryManager_init (root (cfg w))) key w
    = (Return tt, w')
    /\ out w' = out w /\ stderr w' = stderr w /\ cfg w' = recorded msg (cfg w)
    /\ exists new, trace w' = (trace w ++ new)%list /\ clean new.
Proof.
  intros Hcalm. cbn zeta. rewrite destroy_commit_and_push_eval. cbn zeta.
  rewrite !Hcalm. cbn [Z.eqb fst snd].
  eexists. split; [reflexivity|].
  cbn [logged out stderr cfg trace]. split; [reflexivity|]. split; [reflexivity|].
  split.
  - unfold recorded. now destruct (decide _).
  - rewrite <- !app_assoc. eexists. split; [reflexivity|].
    repeat constructor.
Qed.

(** Without a forced failure [remove_host] returns, and leaves the
    working copy without the host: committed when a file changed, as it
    stands otherwise. *)
Lemma remove_host_calm (w : Destroy.world) :
  (forall n, faults (out w) n = 0) ->
  let msg := "Remove " ++ key ++ " from host_emails in emails.yml and inventory.yml" in
  let removed := Destroy.listed_in_inventory key (cfg w)
                 || Destroy.listed_in_emails key (cfg w) in
  exists w',
    Destroy.remove_host (Destroy.InventoryManager_init (root (cfg w))) key w
    = (Return PyNone, w')
    /\ out w' = out w /\ stderr w' = stderr w
    /\ cfg w' = (if removed then recorded msg (without_host key (cfg w))
                 else without_host key (cfg w))
    /\ exists new, trace w' = (trace w ++ new)%list /\ clean new.
Proof.
  intros Hcalm. cbn zeta. rewrite remove_host_spec by exact key_plain. cbn zeta.
  destruct (remove_host_from_inventory_calm w Hcalm)
    as (w1 & -> & Ho1 & He1 & Hc1 & n1 & Ht1 & Hn1).
  assert (Hroot1 : root (cfg w1) = root (cfg w)) by now rewrite Hc1.
  assert (Hcalm1 : forall n, faults (out w1) n = 0) by now rewrite Ho1.
  destruct (remove_email_for_host_calm_eval w1 Hcalm1)
    as (w2 & Hrun2 & Ho2 & He2 & Hc2 & n2 & Ht2 & Hn2).
  rewrite Hroot1 in Hrun2. rewrite Hrun2.
  assert (Hlisted : Destroy.listed_in_emails key (cfg w1)
                    = Destroy.listed_in_emails key (cfg w))
    by (unfold Destroy.listed_in_emails; now rewrite Hc1).
  assert (Hcfg2 : cfg w2 = without_host key (cfg w)).
  { rewrite Hc2, Hc1. reflexivity. }
  rewrite Hlisted.
  destruct (Destroy.listed_in_inventory key (cfg w) || Destroy.listed_in_emails key (cfg w)).
  - assert (Hroot2 : root (cfg w2) = root (cfg w)) by now rewrite Hcfg2.
    assert (Hcalm2 : forall n, faults (out w2) n = 0) by now rewrite Ho2.
    destruct (destroy_commit_and_push_calm w2 Hcalm2)
      as (w3 & Hrun3 & Ho3 & He3 & Hc3 & n3 & Ht3 & Hn3).
    rewrite Hroot2 in Hrun3. rewrite Hrun3.
    exists w3. split; [reflexivity|]. split; [congruence|]. split; [congruence|].
    split; [now rewrite Hc3, Hcfg2|].
    exists (n1 ++ n2 ++ n3)%list. rewrite Ht3, Ht2, Ht1, <- !app_assoc.
    split; [reflexivity|]. repeat (apply Forall_app; split); assumption.
  - exists w2. split; [reflexivity|]. split; [congruence|]. split; [congruence|].
    split; [exact Hcfg2|].
    exists (n1 ++ n2)%list. rewrite Ht2, Ht1, <- !app_assoc.
    split; [reflexivity|]. now apply Forall_app.
Qed.

End RemoveHostCalm.

Section RemoveHostFacts.

Variable key : string.
Hypothesis key_plain : Yq.plain key = true.

Lemma without_host_files (c : Destroy.cfg_repo) :
  root (without_host key c) = root c
  /\ inventory_yml (without_host key c) = pruned key ["all"; "hosts"] (inventory_yml c)
  /\ emails_yml (without_host key c) = pruned key ["host_emails"] (emails_yml c)
  /\ index (without_host key c) = index c
  /\ head (without_host key c) = head c
  /\ commits (without_host key c) = commits c.
Proof. now repeat split. Qed.

Lemma remove_host_calm_files (w : Destroy.world) :
  (forall n, faults (out w) n = 0) ->
  let res := Destroy.remove_host (Destroy.InventoryManager_init (root (cfg w))) key w in
  fst res = Return PyNone
  /\ out (snd res) = out w
  /\ stderr (snd res) = stderr w
  /\ root (cfg (snd res)) = root (cfg w)
  /\ inventory_yml (cfg (snd res)) = pruned key ["all"; "hosts"] (inventory_yml (cfg w))
  /\ emails_yml (cfg (snd res)) = pruned key ["host_emails"] (emails_yml (cfg w)).
Proof.
  intros Hcalm. cbn zeta.
  destruct (@remove_host_calm key key_plain w Hcalm) as (w' & -> & Ho & He & Hc & _).
  cbn zeta in Hc. cbn [fst snd]. rewrite Hc.
  split; [reflexivity|]. split; [exact Ho|]. split; [exact He|].
  destruct (_ || _).
  - destruct (recorded_files
                ("Remove " ++ key ++ " from host_emails in emails.yml and inventory.yml")
                (without_host key (cfg w))) as (-> & -> & ->).
    now repeat split.
  - now repeat split.
Qed.

End RemoveHostFacts.



(** X16. [remove_host] a second time finds nothing to do: after a call
    that nothing from outside made fail, a second call for the same
    host returns, leaves the working copy as the first call left it and
    starts [yq] processes only, so that no commit is made and nothing
    is pushed. *)
Theorem remove_host_twice (key : string) (w : Destroy.world) :
  Yq.plain key = true ->
  (forall n, faults (out w) n = 0) ->
  let self := Destroy.InventoryManager_init (root (cfg w)) in
  let w1 := snd (Destroy.remove_host self key w) in
  let res := Destroy.remove_host self key w1 in
  fst res = Return PyNone
  /\ cfg (snd res) = cfg w1
  /\ exists new, trace (snd res) = (trace w1 ++ new)%list
       /\ Forall (fun i => runs ["yq"] i = true) new.
Proof.
  intros Hplain Hcalm. cbn zeta.
  destruct (@remove_host_calm_files key Hplain w Hcalm) as (_ & _ & _ & Hroot & _).
  destruct (@remove_host_calm_files key Hplain w Hcalm) as (_ & _ & _ & _ & Hi & He).
  cbn zeta in Hroot, Hi, He.
  assert (Hinv : Destroy.listed_in_inventory key
                   (cfg (snd (Destroy.remove_host
                                (Destroy.InventoryManager_init (root (cfg w))) key w)))
                 = false).
  { unfold Destroy.listed_in_inventory. rewrite Hi. apply pruned_not_listed. }
  assert (Hmail : Destroy.listed_in_emails key
                    (cfg (snd (Destroy.remove_host
                                 (Destroy.InventoryManager_init (root (cfg w))) key w)))
                  = false).
  { unfold Destroy.listed_in_emails. rewrite He. apply pruned_not_listed. }
  set (w1 := snd (Destroy.remove_host (Destroy.InventoryManager_init (root (cfg w))) key w))
    in *.
  rewrite <- Hroot.
  destruct (@remove_host_cases key Hplain w1) as (_ & Habsent & _).
  exact (Habsent Hinv Hmail).
Qed.

Lemma remove_host_twice_witness :
  let w := boot Cases.with_token Cases.cloned_with_t1 in
  let self := Destroy.InventoryManager_init (root (cfg w)) in
  let w1 := snd (Destroy.remove_host self "t1.aopstest.com" w) in
  let res := Destroy.remove_host self "t1.aopstest.com" w1 in
  commits (cfg w1)
  = ["Remove t1.aopstest.com from host_emails in emails.yml and inventory.yml"]
  /\ fst res = Return PyNone
  /\ cfg (snd res) = cfg w1.
Proof.
  cbn zeta. split; [vm_compute; reflexivity|].
  destruct (@remove_host_twice "t1.aopstest.com"
              (boot Cases.with_token Cases.cloned_with_t1) eq_refl (fun n => eq_refl))
    as (Hret & Hcfg & _).
  split; [exact Hret | exact Hcfg].
Defined.

(** ** A run of the destroy pipeline in which nothing fails *)

Section PlainHostname.

Lemma plain_append (a b : string) : Yq.plain (a ++ b) = Yq.plain a && Yq.plain b.
Proof.
  induction a as [|c a IH]; [reflexivity|].
  cbn [String.append Yq.plain]. now rewrite IH, andb_assoc.
Qed.

Lemma prefix_char_plain (c : ascii) :
  prefix_char c = true ->
  negb (Ascii.eqb c Yq.DQUOTE) && negb (Ascii.eqb c Yq.BACKSLASH) = true.
Proof.
  intros Hc.
  destruct (Ascii.eqb c Yq.DQUOTE) eqn:Hq.
  { apply Ascii.eqb_eq in Hq. subst c. discriminate. }
  destruct (Ascii.eqb c Yq.BACKSLASH) eqn:Hb.
  { apply Ascii.eqb_eq in Hb. subst c. discriminate. }
  reflexivity.
Qed.

Lemma prefix_chars_plain (s : string) :
  forallb prefix_char (list_ascii_of_string s) = true -> Yq.plain s = true.
Proof.
  induction s as [|c s IH]; [reflexivity|].
  cbn [list_ascii_of_string forallb Yq.plain]. intros Hs.
  apply andb_true_iff in Hs as [Hc Hs].
  now rewrite (prefix_char_plain c Hc), (IH Hs).
Qed.

(** The hostname of a prefix that passes the check is a key [yq] reads
    back as written. *)
Lemma valid_prefix_plain (prefix : string) :
  Destroy.valid_prefix prefix = true ->
  Yq.plain (Destroy.full_hostname_of prefix) = true.
Proof.
  unfold Destroy.valid_prefix. rewrite isalnum_without_marks. intros Hp.
  apply andb_true_iff in Hp as [Hp _].
  unfold Destroy.full_hostname_of. rewrite plain_append, (prefix_chars_plain _ Hp).
  reflexivity.
Qed.

End PlainHostname.

Section DestroyCalm.

Variable o : outside.
Hypothesis o_calm : calm_outside o.

(** A process of the destroy script other than [yq], on a working copy
    with nothing to commit. *)
Lemma hoare_run_at_rest_destroy (c : Destroy.cfg_repo) cmd dir check debug :
  clean_checkout c ->
  starts_with ["yq"] cmd = false ->
  check && starts_with ["git"; "commit"; "-m"] cmd = false ->
  hoare (at_rest o c) (run Destroy.exec cmd dir check debug) (at_rest o c)
    (fun _ => False).
Proof.
  intros Hc Hyq Hcmd. apply hoare_run. intros w (Ho & Hcfg & Hclean & Herr). cbn zeta.
  destruct (result_of_cases Destroy.exec cmd dir w) as [[_ Hres] | [Hforced _]].
  2:{ destruct Hforced. rewrite Ho. apply o_calm. }
  rewrite Hres. cbn [fst snd]. rewrite Hcfg.
  rewrite (exec_not_yq _ _ _ Hyq), (git_on_clean cmd dir Hc).
  assert (Hok : check && negb (fst (fst (git cmd dir c)) =? 0) = false).
  { destruct check; [|reflexivity]. cbn [andb] in *.
    now rewrite (git_status cmd dir c Hcmd). }
  rewrite Hok. repeat split; cbn [logged out cfg trace stderr]; auto.
  apply clean_snoc; [exact Hclean|]. unfold failed. cbn [checked returncode]. exact Hok.
Qed.

End DestroyCalm.

Section DestroyRun.

Variable args : Destroy.arguments.
Variable o : outside.
Variable c : Destroy.cfg_repo.
Variable token : string.

Variables H msg : string.
Hypothesis H_is : H = Destroy.full_hostname_of (Destroy.arg_prefix args).
Hypothesis msg_is :
  msg = "Remove " ++ H ++ " from host_emails in emails.yml and inventory.yml".

Hypothesis o_calm : calm_outside o.
Hypothesis prefix_ok : Destroy.valid_prefix (Destroy.arg_prefix args) = true.
Hypothesis token_set : environ o !! "CLOUDFLARE_API_TOKEN" = Some token.
Hypothesis token_not_empty : token <> "".
Hypothesis c_root : root c = config_root_of (Destroy.arg_prefix args) o.
Hypothesis c_clean : clean_checkout c.

Lemma without_host_unlisted :
  Destroy.listed_in_inventory H c || Destroy.listed_in_emails H c = false ->
  without_host H c = c.
Proof.
  intros Hno. apply orb_false_iff in Hno as [Hi He].
  unfold Destroy.listed_in_inventory, Destroy.listed_in_emails in Hi, He.
  unfold without_host, pruned.
  assert (Hinv : option_map
                   (fun d => if Yq.section_has d ["all"; "hosts"] H
                             then Yq.eval_del d ["all"; "hosts"] H else d)
                   (inventory_yml c) = inventory_yml c).
  { destruct (inventory_yml c) as [d|]; [|reflexivity]. cbn. now rewrite Hi. }
  assert (Hmail : option_map
                    (fun d => if Yq.section_has d ["host_emails"] H
                              then Yq.eval_del d ["host_emails"] H else d)
                    (emails_yml c) = emails_yml c).
  { destruct (emails_yml c) as [d|]; [|reflexivity]. cbn. now rewrite He. }
  rewrite Hinv, Hmail. rewrite (set_inventory_same c) by reflexivity.
  now rewrite set_emails_same.
Qed.

Lemma recorded_clean_checkout (c0 : Destroy.cfg_repo) :
  clean_checkout c0 -> recorded msg c0 = c0.
Proof.
  intros Hc. unfold recorded. rewrite (staged_clean Hc).
  destruct Hc as [Hi Hh]. rewrite decide_True by congruence. reflexivity.
Qed.

Lemma remove_from_ansible_inventory_at_rest (r : PyPath.path) :
  root c = r ->
  hoare (at_rest o c) (Destroy.remove_from_ansible_inventory r H)
    (at_rest o (recorded msg (without_host H c))) (fun _ => False).
Proof.
  intros <-. unfold Destroy.remove_from_ansible_inventory. apply hoare_dimmed.
  eapply hoare_bind; [|intros ?; apply hoare_ret].
  intros w (Ho & Hcfg & Hclean & Herr).
  assert (Hcalm : forall n, faults (out w) n = 0) by (rewrite Ho; apply o_calm).
  assert (Hplain : Yq.plain H = true)
    by (rewrite H_is; exact (valid_prefix_plain _ prefix_ok)).
  destruct (@remove_host_calm H Hplain w Hcalm)
    as (w' & Hrun & Ho' & Herr' & Hcfg' & new & Htrace & Hnew).
  cbn zeta in Hcfg'. rewrite Hcfg in Hrun, Hcfg'. rewrite Hrun.
  repeat split.
  - congruence.
  - rewrite Hcfg', <- msg_is.
    destruct (Destroy.listed_in_inventory H c || Destroy.listed_in_emails H c) eqn:Hany;
      [reflexivity|].
    rewrite (without_host_unlisted Hany). symmetry. now apply recorded_clean_checkout.
  - rewrite Htrace. apply Forall_app. now split.
  - congruence.
Qed.

Ltac destroy_calm_switch :=
  idtac;
  match goal with
  | |- hoare (at_rest _ _) (bind (environ_get ?var) _) _ _ =>
      apply (hoare_bind_environ (v := environ o !! var));
      [intros ? ?; eapply at_rest_environ; eassumption | cbv beta]
  | |- hoare (at_rest _ _) (bind probe _) _ _ =>
      apply (hoare_bind_probe (b := true));
      [intros ? ?; eapply at_rest_probe; eauto | intros ? ?; assumption
      | cbv beta; cbn [negb]]
  | |- hoare (at_rest _ c) (bind (Destroy.remove_from_ansible_inventory _ _) _) _ _ =>
      eapply hoare_bind;
        [apply remove_from_ansible_inventory_at_rest; exact c_root | intros ?]
  end.

Ltac destroy_calm_leaf :=
  first
    [ apply hoare_run_at_rest_destroy;
        [ exact o_calm
        | first [exact c_clean | apply recorded_clean]
        | reflexivity
        | reflexivity ]
    | apply hoare_prompt_at_rest ].

Lemma destroy_main_at_rest :
  match Destroy.main args (boot o c) with
  | (Return _, w') => at_rest o (recorded msg (without_host H c)) w'
  | _ => False
  end.
Proof.
  assert (Hs : String.eqb token "" = false) by now apply String.eqb_neq.
  enter_destroy_main prefix_ok token_set Hs.
  rewrite <- H_is.
  match goal with
  | |- context [try_except ?body ?h ?w] =>
      pose proof (@hoare_try_exit _ _ (at_rest o c)
                    (at_rest o (recorded msg (without_host H c)))
                    (fun _ => False) body 1 w) as Hrun
  end.
  cbn beta in Hrun.
  match type of Hrun with
  | ?A -> ?B -> _ => assert (Hbody : A); [|assert (Hstart : B)]
  end.
  - unfold Destroy.clone_terramate_repo, Destroy.clone_ansible_repo,
      Destroy.destroy_terraform_stack, Destroy.rmtree, Destroy.run.
    cbn [Destroy.play_tones].
    hoare_walk_with destroy_calm_switch destroy_calm_leaf.
  - repeat split; constructor.
  - specialize (Hrun Hbody Hstart).
    destruct (try_except _ _ _) as [[a | e | code] w'];
      [exact Hrun | destruct Hrun | exact (proj2 Hrun)].
Qed.

End DestroyRun.



(** ** The tones at the end of a run *)

Section Tones.

Lemma git_nowhere {I : Type} `{EqDecision I} (cmd : list string) (c : cfg_repo I) :
  git cmd None c = (0, "", c).
Proof. unfold git. destruct (decide _) as [Heq|]; [discriminate | reflexivity]. Qed.

Lemma result_of_play_create (f : string) (w : Create.world) :
  snd (result_of Create.exec (tone f) None w) = cfg w.
Proof.
  destruct (result_of_cases Create.exec (tone f) None w) as [[_ ->] | [_ ->]];
    [|reflexivity].
  cbn [snd]. unfold Create.exec. now rewrite git_nowhere.
Qed.

Lemma result_of_play_destroy (f : string) (w : Destroy.world) :
  snd (result_of Destroy.exec (tone f) None w) = cfg w.
Proof.
  destruct (result_of_cases Destroy.exec (tone f) None w) as [[_ ->] | [_ ->]];
    [|reflexivity].
  cbn [snd]. rewrite exec_not_yq by reflexivity. now rewrite git_nowhere.
Qed.

Lemma create_play_tones_eval (freqs : list string) (w : Create.world) :
  let res := Create.play_tones freqs w in
  fst res = Return tt
  /\ out (snd res) = out w /\ cfg (snd res) = cfg w /\ stderr (snd res) = stderr w
  /\ exists new, trace (snd res) = (trace w ++ new)%list
       /\ map argv new = map tone freqs
       /\ Forall (fun i => checked i = false) new.
Proof.
  cbn zeta. revert w. induction freqs as [|f freqs IH]; intros w.
  - cbn. repeat split. exists []. now rewrite app_nil_r.
  - set (rc := fst (result_of Create.exec (tone f) None w)).
    set (w1 := logged (mkInvocation (tone f) None false rc) (cfg w) w).
    assert (Hstep : Create.play_tones (f :: freqs) w = Create.play_tones freqs w1).
    { cbn [Create.play_tones]. unfold bind at 1, get_debug at 1.
      unfold bind at 1, Create.run. rewrite run_result. cbn zeta. cbn [andb].
      fold (tone f). now rewrite (result_of_play_create f w). }
    rewrite Hstep.
    destruct (IH w1) as (Hret & Ho & Hc & He & new & Ht & Hargv & Hunchecked).
    split; [exact Hret|]. split; [exact Ho|]. split; [exact Hc|].
    split; [exact He|].
    exists (mkInvocation (tone f) None false rc :: new).
    split; [rewrite Ht; unfold w1; cbn [logged trace]; now rewrite <- app_assoc|].
    split; [cbn [map argv]; now rewrite Hargv|].
    constructor; [reflexivity | exact Hunchecked].
Qed.

Lemma destroy_play_tones_eval (freqs : list string) (w : Destroy.world) :
  let res := Destroy.play_tones freqs w in
  fst res = Return tt
  /\ out (snd res) = out w /\ cfg (snd res) = cfg w /\ stderr (snd res) = stderr w
  /\ exists new, trace (snd res) = (trace w ++ new)%list
       /\ map argv new = map tone freqs
       /\ Forall (fun i => checked i = false) new.
Proof.
  cbn zeta. revert w. induction freqs as [|f freqs IH]; intros w.
  - cbn. repeat split. exists []. now rewrite app_nil_r.
  - set (rc := fst (result_of Destroy.exec (tone f) None w)).
    set (w1 := logged (mkInvocation (tone f) None false rc) (cfg w) w).
    assert (Hstep : Destroy.play_tones (f :: freqs) w = Destroy.play_tones freqs w1).
    { cbn [Destroy.play_tones]. unfold bind at 1, get_debug at 1.
      unfold bind at 1, Destroy.run. rewrite run_result. cbn zeta. cbn [andb].
      fold (tone f). now rewrite (result_of_play_destroy f w). }
    rewrite Hstep.
    destruct (IH w1) as (Hret & Ho & Hc & He & new & Ht & Hargv & Hunchecked).
    split; [exact Hret|]. split; [exact Ho|]. split; [exact Hc|].
    split; [exact He|].
    exists (mkInvocation (tone f) None false rc :: new).
    split; [rewrite Ht; unfold w1; cbn [logged trace]; now rewrite <- app_assoc|].
    split; [cbn [map argv]; now rewrite Hargv|].
    constructor; [reflexivity | exact Hunchecked].
Qed.

End Tones.

(** X18. The tones at the end of a run cannot fail it: the loop starts
    one [play] process for each frequency, in order and without failure
    checking, goes on to the next one whatever the exit status of the
    last, prints nothing on stderr, leaves the working copy alone, and
    returns. *)
Theorem play_tones_cannot_fail (freqs : list string) :
  (forall w : Create.world,
     let res := Create.play_tones freqs w in
     fst res = Return tt
     /\ cfg (snd res) = cfg w /\ stderr (snd res) = stderr w
     /\ exists new, trace (snd res) = (trace w ++ new)%list
          /\ map argv new = map tone freqs
          /\ Forall (fun i => checked i = false) new)
  /\ (forall w : Destroy.world,
        let res := Destroy.play_tones freqs w in
        fst res = Return tt
        /\ cfg (snd res) = cfg w /\ stderr (snd res) = stderr w
        /\ exists new, trace (snd res) = (trace w ++ new)%list
             /\ map argv new = map tone freqs
             /\ Forall (fun i => checked i = false) new).
Proof.
  split; intros w; cbn zeta.
  - destruct (create_play_tones_eval freqs w) as (Hret & _ & Hc & He & Hnew). auto.
  - destruct (destroy_play_tones_eval freqs w) as (Hret & _ & Hc & He & Hnew). auto.
Qed.

(** ** The stack stage of the destroy pipeline *)

Section StackStage.

Lemma dimmed_timed_step_eq {I A : Type} (func : M (world I) A) (w : world I) :
  dimmed_timed_step func w = func w.
Proof.
  unfold dimmed_timed_step, bind, get_debug. destruct (DEBUG_MODE w); [reflexivity|].
  now destruct (func w) as [[a | e | c] w'].
Qed.

Lemma run_then {I B : Type} (exec : tool I) cmd dir check debug
    (k : Z -> M (world I) B) (w : world I) :
  bind (run exec cmd dir check debug) k w
  = let rc := fst (result_of exec cmd dir w) in
    let w' := logged (mkInvocation cmd dir check rc) (snd (result_of exec cmd dir w)) w in
    if check && negb (rc =? 0)
    then (Raise (CalledProcessError rc cmd), complained (complaint cmd) w')
    else k rc w'.
Proof.
  unfold bind. rewrite run_result. cbn zeta.
  now destruct (check && negb (fst (result_of exec cmd dir w) =? 0)).
Qed.

Variables stack_path terramate_cloud_path : PyPath.path.
Variable H : string.

Ltac name_result Hres rc w' w :=
  match type of Hres with
  | context [logged (mkInvocation ?cmd ?dir ?check (fst (result_of ?exec ?cmd ?dir w)))
               ?c w] =>
      set (rc := fst (result_of exec cmd dir w)) in Hres;
      set (w' := logged (mkInvocation cmd dir check rc) c w) in Hres
  end.

Ltac close_case :=
  cbn [fst snd complained raise ret trace logged asked];
  rewrite <- ?app_assoc;
  split; [reflexivity|]; split; [reflexivity|];
  split; [first [left; reflexivity | right; eexists; reflexivity]|];
  split; [first [discriminate | reflexivity]|];
  intros Hn;
  first [ lia
        | split; [ cbn [firstn]; repeat constructor; cbn; assumption
                 | first [assumption | reflexivity] ] ].

Lemma destroy_terraform_stack_absent (w : Destroy.world) :
  probes (out w) (probed w) = false ->
  Destroy.destroy_terraform_stack stack_path terramate_cloud_path H w
  = (Return false, asked w).
Proof.
  intros Hthere. unfold Destroy.destroy_terraform_stack.
  rewrite dimmed_timed_step_eq.
  unfold bind, probe. now rewrite Hthere.
Qed.

Lemma destroy_terraform_stack_present (w : Destroy.world) :
  probes (out w) (probed w) = true ->
  let res := Destroy.destroy_terraform_stack stack_path terramate_cloud_path H w in
  exists new n,
    trace (snd res) = (trace w ++ new)%list
    /\ map argv new = firstn n (stack_commands H)
    /\ (fst res = Return true \/ exists e, fst res = Raise e)
    /\ (fst res = Return true -> n = 5%nat)
    /\ ((2 < n)%nat ->
        Forall (fun i => returncode i = 0) (firstn 2 new)
        /\ probes (out w) (S (probed w)) = true).
Proof.
  intros Hthere. cbn zeta.
  remember (Destroy.destroy_terraform_stack stack_path terramate_cloud_path H w)
    as res eqn:Hres.
  unfold Destroy.destroy_terraform_stack in Hres.
  rewrite dimmed_timed_step_eq in Hres.
  unfold bind at 1, probe at 1 in Hres. rewrite Hthere in Hres. cbn [negb] in Hres.
  fold (asked w) in Hres. set (w0 := asked w) in Hres.
  unfold bind at 1, get_debug at 1 in Hres.
  unfold Destroy.run in Hres. rewrite run_then in Hres. cbn zeta in Hres.
  cbn [andb] in Hres.
  name_result Hres rc1 w1 w0.
  destruct (rc1 =? 0) eqn:H1; cbn [negb] in Hres.
  2:{ subst res. eexists [_], 1%nat. subst w1 w0. close_case. }
  apply Z.eqb_eq in H1.
  rewrite run_then in Hres. cbn zeta in Hres. cbn [andb] in Hres.
  name_result Hres rc2 w2 w1.
  destruct (rc2 =? 0) eqn:H2; cbn [negb] in Hres.
  2:{ subst res. eexists [_; _], 2%nat. subst w2 w1 w0. close_case. }
  apply Z.eqb_eq in H2.
  unfold bind at 1, Destroy.rmtree at 1, bind at 1, probe at 1 in Hres.
  assert (Hprobed : probed w2 = S (probed w)) by reflexivity.
  assert (Hout : out w2 = out w) by reflexivity.
  rewrite Hprobed, Hout in Hres.
  destruct (probes (out w) (S (probed w))) eqn:Hrm.
  2:{ subst res. eexists [_; _], 2%nat. subst w2 w1 w0. close_case. }
  cbn [ret] in Hres.
  match type of Hres with
  | context [bind _ _ ?w'] => set (w3 := w') in Hres
  end.
  rewrite run_then in Hres. cbn zeta in Hres. cbn [andb] in Hres.
  name_result Hres rc3 w4 w3.
  destruct (rc3 =? 0) eqn:H3; cbn [negb] in Hres.
  2:{ subst res. eexists [_; _; _], 3%nat. subst w4 w3 w2 w1 w0. close_case. }
  rewrite run_then in Hres. cbn zeta in Hres. cbn [andb] in Hres.
  name_result Hres rc4 w5 w4.
  rewrite run_then in Hres. cbn zeta in Hres. cbn [andb] in Hres.
  name_result Hres rc5 w6 w5.
  destruct (rc5 =? 0) eqn:H5; cbn [negb] in Hres.
  2:{ subst res. eexists [_; _; _; _; _], 5%nat. subst w6 w5 w4 w3 w2 w1 w0. close_case. }
  subst res. eexists [_; _; _; _; _], 5%nat. subst w6 w5 w4 w3 w2 w1 w0. close_case.
Qed.

End StackStage.

(** X19. [destroy_terraform_stack] with the stack directory missing
    returns [False] at once: no process is started and nothing is
    touched.  With the directory there, the processes it starts are the
    first ones, in order, of [terraform init], [terraform destroy],
    [git add], [git commit] and [git push]; it returns [True] only
    after all five, and no git command is started unless both terraform
    commands ended with status 0 and the directory could be removed. *)
Theorem destroy_terraform_stack_steps (stack_path terramate_cloud_path : PyPath.path)
    (H : string) (w : Destroy.world) :
  let res := Destroy.destroy_terraform_stack stack_path terramate_cloud_path H w in
  (probes (out w) (probed w) = false -> res = (Return false, asked w))
  /\ (probes (out w) (probed w) = true ->
      exists new n,
        trace (snd res) = (trace w ++ new)%list
        /\ map argv new = firstn n (stack_commands H)
        /\ (fst res = Return true \/ exists e, fst res = Raise e)
        /\ (fst res = Return true -> n = 5%nat)
        /\ ((2 < n)%nat ->
            Forall (fun i => returncode i = 0) (firstn 2 new)
            /\ probes (out w) (S (probed w)) = true)).
Proof.
  cbn zeta. split.
  - apply destroy_terraform_stack_absent.
  - apply destroy_terraform_stack_present.
Qed.

Lemma destroy_terraform_stack_steps_witness :
  let w : Destroy.world := boot Cases.with_token Cases.cloned_with_t1 in
  let res := Destroy.destroy_terraform_stack (PyPath.Path "/tmp/tc/stacks/t1")
               (PyPath.Path "/tmp/tc") "t1.aopstest.com" w in
  probes (out w) (probed w) = true
  /\ exists new n,
       trace (snd res) = (trace w ++ new)%list
       /\ map argv new = firstn n (stack_commands "t1.aopstest.com")
       /\ (fst res = Return true -> n = 5%nat).
Proof.
  cbn zeta. split; [reflexivity|].
  destruct (proj2 (destroy_terraform_stack_steps (PyPath.Path "/tmp/tc/stacks/t1")
                     (PyPath.Path "/tmp/tc") "t1.aopstest.com"
                     (boot Cases.with_token Cases.cloned_with_t1)) eq_refl)
    as (new & n & Ht & Hargv & _ & Hn & _).
  exists new, n. split; [exact Ht|]. split; [exact Hargv | exact Hn].
Defined.

(** ** The order of the stages of the create pipeline *)

Section StageOrder.

Lemma snoc_split {A : Type} (tr pre post : list A) (i j : A) :
  (tr ++ [i])%list = (pre ++ j :: post)%list ->
  (pre = tr /\ j = i /\ post = [])
  \/ exists post', post = (post' ++ [i])%list /\ tr = (pre ++ j :: post')%list.
Proof.
  revert pre. induction tr as [|a tr IH]; intros pre Heq.
  - destruct pre as [|b pre]; cbn in Heq.
    + injection Heq as <- <-. now left.
    + injection Heq as _ Heq. now destruct pre.
  - destruct pre as [|b pre]; cbn in Heq.
    + injection Heq as <- Heq. right. exists tr. now split.
    + injection Heq as <- Heq. destruct (IH pre Heq) as [(-> & -> & ->) | (post' & -> & ->)].
      * now left.
      * right. exists post'. now split.
Qed.

Lemma done_snoc words tr i : done words tr -> done words (tr ++ [i])%list.
Proof. intros Hd. apply Exists_app. now left. Qed.

Lemma reached_snoc k tr i : reached k tr -> reached k (tr ++ [i])%list.
Proof. intros Hr j Hj. apply done_snoc. now apply Hr. Qed.

Lemma reached_le k k' tr : (k' <= k)%nat -> reached k tr -> reached k' tr.
Proof. intros Hle Hr j Hj. apply Hr. lia. Qed.

Lemma reached_next k tr i :
  reached k tr -> succeeded (milestone (S k)) i = true ->
  reached (S k) (tr ++ [i])%list.
Proof.
  intros Hr Hi j Hj. destruct (decide (j = S k)) as [-> | Hne].
  - apply Exists_app. right. now constructor.
  - apply done_snoc, Hr. lia.
Qed.

Lemma in_order_snoc tr i :
  in_order tr -> reached (level_needed (argv i)) tr -> in_order (tr ++ [i])%list.
Proof.
  intros Hord Hi pre j post Heq.
  destruct (@snoc_split _ tr pre post i j Heq) as [(-> & -> & ->) | (post' & -> & ->)].
  - exact Hi.
  - now apply (Hord pre j post').
Qed.

Context {I : Type}.

Lemma ordered_blind k : blind (I := I) (ordered k).
Proof.
  intros w w' (_ & _ & _ & Ht & _) Hw. unfold ordered in *. now rewrite Ht.
Qed.

Lemma ordered_cfg_blind k : cfg_blind (I := I) (ordered k).
Proof. intros c w Hw. exact Hw. Qed.

Lemma ordered_zero k (w : world I) : ordered k w -> ordered 0 w.
Proof. intros [Hord _]. split; [exact Hord|]. intros j Hj. lia. Qed.

(** A process that comes after steps that are closed. *)
Lemma hoare_run_ordered (exec : tool I) k cmd dir check debug :
  (level_needed cmd <=? k)%nat = true ->
  hoare (ordered k) (run exec cmd dir check debug) (ordered k) (ordered 0).
Proof.
  intros Hlevel. apply Nat.leb_le in Hlevel.
  apply hoare_run. intros w [Hord Hk]. cbn zeta.
  assert (Hord' : in_order (trace w ++ [mkInvocation cmd dir check
                                          (fst (result_of exec cmd dir w))])%list).
  { apply in_order_snoc; [exact Hord|]. cbn [argv]. now apply (reached_le Hlevel). }
  destruct (check && negb (fst (result_of exec cmd dir w) =? 0)).
  - apply (@ordered_zero k). split; cbn [complained logged trace];
      [exact Hord' | now apply reached_snoc].
  - split; cbn [logged trace]; [exact Hord' | now apply reached_snoc].
Qed.

(** A process that closes the next step. *)
Lemma hoare_run_milestone (exec : tool I) k cmd dir debug :
  (level_needed cmd <=? k)%nat = true ->
  starts_with (milestone (S k)) cmd = true ->
  hoare (ordered k) (run exec cmd dir true debug) (ordered (S k)) (ordered 0).
Proof.
  intros Hlevel Hcmd. apply Nat.leb_le in Hlevel.
  apply hoare_run. intros w [Hord Hk]. cbn zeta.
  assert (Hord' : in_order (trace w ++ [mkInvocation cmd dir true
                                          (fst (result_of exec cmd dir w))])%list).
  { apply in_order_snoc; [exact Hord|]. cbn [argv]. now apply (reached_le Hlevel). }
  cbn [andb].
  destruct (fst (result_of exec cmd dir w) =? 0) eqn:Hrc; cbn [negb].
  - split; cbn [logged trace]; [exact Hord'|].
    apply reached_next; [exact Hk|].
    unfold succeeded, runs. cbn [argv returncode]. now rewrite Hcmd, Hrc.
  - apply (@ordered_zero k). split; cbn [complained logged trace];
      [exact Hord' | now apply reached_snoc].
Qed.

Lemma hoare_prompt_ordered k ci :
  hoare (I := I) (ordered k) (prompt_to_continue ci) (ordered k) (ordered 0).
Proof. apply hoare_prompt; [auto | intros _ w Hw; exact Hw]. Qed.

End StageOrder.

Ltac ordered_switch :=
  idtac;
  match goal with
  | |- hoare _ (bind (run _ (if ?b then _ else _) _ _ _) _) _ _ => destruct b
  | |- hoare (ordered ?k) (bind (run _ _ _ true _) _) _ _ =>
      lazymatch eval compute in (k <? 4)%nat with
      | true => eapply hoare_bind; [apply hoare_run_milestone; reflexivity | intros ?]
      end
  end.

Ltac ordered_leaf :=
  first
    [ apply hoare_prompt_ordered
    | apply hoare_run_ordered; reflexivity
    | apply hoare_inert; [inert_tac; fail | apply ordered_blind | apply ordered_zero]
    | apply hoare_write_inventory; [apply ordered_cfg_blind | apply ordered_zero]
    | apply hoare_safe_dump; [apply ordered_cfg_blind | apply ordered_zero]
    | apply hoare_prompt_ordered ].

(** Walk through a computation in which the invariant changes on the
    way. *)
Ltac hoare_stages switch leaf :=
  repeat first
    [ switch
    | match goal with
      | |- hoare _ (bind _ _) _ _ => eapply hoare_bind; [|intros ?]
      | |- hoare _ (if ?b then _ else _) _ _ => destruct b
      | |- hoare _ (dimmed_timed_step _) _ _ => apply hoare_dimmed
      | |- hoare _ (ret _) _ _ => apply hoare_ret
      | |- hoare _ get_debug _ _ => apply hoare_get_debug
      | |- hoare _ (environ_get _) _ _ => apply hoare_environ_get
      | |- hoare _ _ _ _ => leaf
      end ].

Lemma create_main_in_order (args : Create.arguments) (o : outside) (c : Create.cfg_repo) :
  in_order (trace (snd (Create.main args (boot o c)))).
Proof.
  enter_create_main.
  match goal with
  | |- context [try_except ?body ?h ?w] =>
      pose proof (@hoare_try_exit _ _ (ordered 0) (ordered 4) (ordered 0) body 1 w) as Hrun
  end.
  cbn beta in Hrun.
  match type of Hrun with
  | ?A -> ?B -> _ => assert (Hbody : A); [|assert (Hstart : B)]
  end.
  - unfold_create. hoare_stages ordered_switch ordered_leaf.
  - split.
    + intros pre i post Heq. now destruct pre.
    + intros j Hj. lia.
  - specialize (Hrun Hbody Hstart).
    destruct (try_except _ _ _) as [[a | e | code] w']; cbn [snd];
      [exact (proj1 Hrun) | destruct Hrun | exact (proj1 (proj2 Hrun))].
Qed.

Lemma level_of_import cmd :
  starts_with ["ssh-import-db.sh"] cmd = true -> level_needed cmd = 4%nat.
Proof. intros Hcmd. unfold level_needed. now rewrite Hcmd. Qed.

Lemma level_of_web_setup cmd :
  starts_with ["ansible-playbook"; "web_setup.yml"] cmd = true ->
  (3 <= level_needed cmd)%nat.
Proof.
  intros Hcmd. unfold level_needed. rewrite Hcmd.
  destruct (starts_with ["ssh-import-db.sh"] cmd); lia.
Qed.

Lemma level_of_playbook cmd :
  starts_with ["ansible-playbook"] cmd = true -> (2 <= level_needed cmd)%nat.
Proof.
  intros Hcmd. unfold level_needed. rewrite Hcmd.
  destruct (starts_with ["ssh-import-db.sh"] cmd); [lia|].
  destruct (starts_with ["ansible-playbook"; "web_setup.yml"] cmd); lia.
Qed.

Lemma level_of_push_simple cmd :
  starts_with ["git"; "push"; "origin"; "simple"] cmd = true ->
  (1 <= level_needed cmd)%nat.
Proof.
  intros Hcmd. unfold level_needed. rewrite Hcmd.
  destruct (starts_with ["ssh-import-db.sh"] cmd); [lia|].
  destruct (starts_with ["ansible-playbook"; "web_setup.yml"] cmd); [lia|].
  destruct (starts_with ["ansible-playbook"] cmd); lia.
Qed.

(** X20. In every run of the create pipeline, whatever the outside
    does, a process is started only after the steps before it have
    succeeded: the push of the inventory comes after a [terraform apply]
    that ended with status 0, every playbook after that and after a
    [git push origin simple] that ended with status 0, [web_setup.yml]
    after a successful [initial_setup.yml], and the database import
    after all four. *)
Theorem create_stages_in_order (args : Create.arguments) (o : outside)
    (c : Create.cfg_repo) (pre post : list invocation) (i : invocation) :
  trace (snd (Create.main args (boot o c))) = (pre ++ i :: post)%list ->
  (runs ["git"; "push"; "origin"; "simple"] i = true ->
   done ["terraform"; "apply"] pre)
  /\ (runs ["ansible-playbook"] i = true ->
      done ["terraform"; "apply"] pre
      /\ done ["git"; "push"; "origin"; "simple"] pre)
  /\ (runs ["ansible-playbook"; "web_setup.yml"] i = true ->
      done ["ansible-playbook"; "initial_setup.yml"] pre)
  /\ (runs ["ssh-import-db.sh"] i = true ->
      done ["terraform"; "apply"] pre
      /\ done ["git"; "push"; "origin"; "simple"] pre
      /\ done ["ansible-playbook"; "initial_setup.yml"] pre
      /\ done ["ansible-playbook"; "web_setup.yml"] pre).
Proof.
  intros Heq. pose proof (create_main_in_order args o c pre i post Heq) as Hr.
  unfold runs. split; [|split; [|split]]; intros Hcmd.
  - apply level_of_push_simple in Hcmd. apply (Hr 1%nat). lia.
  - apply level_of_playbook in Hcmd. split; [apply (Hr 1%nat) | apply (Hr 2%nat)]; lia.
  - apply level_of_web_setup in Hcmd. apply (Hr 3%nat). lia.
  - apply level_of_import in Hcmd.
    repeat split;
      [apply (Hr 1%nat) | apply (Hr 2%nat) | apply (Hr 3%nat) | apply (Hr 4%nat)]; lia.
Qed.

Lemma create_stages_in_order_witness :
  let tr := trace (snd (Create.main (Create.mkArgs "t1" true false false)
                          (boot Sample.calm (Sample.cloned_for "t1")))) in
  let i := List.last tr (mkInvocation [] None false 0) in
  runs ["ssh-import-db.sh"] i = true
  /\ done ["terraform"; "apply"] (removelast tr)
  /\ done ["ansible-playbook"; "web_setup.yml"] (removelast tr).
Proof.
  cbn zeta.
  destruct (@create_stages_in_order (Create.mkArgs "t1" true false false)
              Sample.calm (Sample.cloned_for "t1")
              (removelast (trace (snd (Create.main (Create.mkArgs "t1" true false false)
                                         (boot Sample.calm (Sample.cloned_for "t1"))))))
              []
              (List.last (trace (snd (Create.main (Create.mkArgs "t1" true false false)
                                        (boot Sample.calm (Sample.cloned_for "t1")))))
                 (mkInvocation [] None false 0)))
    as (_ & _ & _ & Himport).
  - vm_compute. reflexivity.
  - assert (Hi : runs ["ssh-import-db.sh"]
                   (List.last (trace (snd (Create.main (Create.mkArgs "t1" true false false)
                                             (boot Sample.calm (Sample.cloned_for "t1")))))
                      (mkInvocation [] None false 0)) = true)
      by (vm_compute; reflexivity).
    split; [exact Hi|].
    destruct (Himport Hi) as (Happly & _ & _ & Hweb). now split.
Defined.
